(** * Token core of the authentication service: a shallow embedding

    The development follows the JavaScript sources
    [src/utils/jwt.js], [src/services/db-client.js],
    [src/services/auth.service.js], [src/services/oauth.service.js] and
    [src/services/auth0.service.js].

    - An [async] function becomes a computation in the monad [M]: it reads
      and updates a [World] and either returns a value or throws an [Exn].
      A [try]/[catch] block becomes [try_catch]; effects performed before
      the throw stay in the world, as they do in JavaScript.
    - Logging ([console.error], [logger.*]), metrics counters and the
      RGPD log hook ([logDataProcessing], whose body is empty) have no
      effect on results and are left out.
    - Cryptography is symbolic: a signature names the key material that
      produced it, and verifies under exactly that material. *)

From Stdlib Require Import ZArith String Ascii Lia.
From stdpp Require Import base option list gmap strings pretty.

Local Open Scope string_scope.
Local Open Scope Z_scope.

(** ** JavaScript values and errors *)

(** A property of a JavaScript object: missing ([undefined]), [null], or
    a value. [JSON.stringify] drops the first and keeps the second. *)
Inductive Js (A : Type) : Type :=
| undefined
| null
| val (a : A).
Arguments undefined {A}.
Arguments null {A}.
Arguments val {A} a.

(** Truthiness of a string property: [undefined], [null] and the empty
    string are falsy. *)
Definition truthy (s : Js string) : bool :=
  match s with
  | val s => negb (String.eqb s "")
  | _ => false
  end.

(** [a || b] on string properties. *)
Definition js_or (a b : Js string) : Js string :=
  if truthy a then a else b.

(** [b || false] on a boolean property. *)
Definition or_false (b : Js bool) : bool :=
  match b with
  | val true => true
  | _ => false
  end.

(** What [JSON] delivers for a nullable string column. *)
Definition of_nullable (o : option string) : Js string :=
  match o with
  | Some s => val s
  | None => null
  end.

(** [AuthErrorCodes] of [middlewares/errorHandler.js]. *)
Module AuthErrorCodes.
Definition INVALID_CREDENTIALS := "INVALID_CREDENTIALS".
Definition USER_NOT_FOUND := "USER_NOT_FOUND".
Definition EMAIL_ALREADY_IN_USE := "EMAIL_ALREADY_IN_USE".
Definition TOKEN_EXPIRED := "TOKEN_EXPIRED".
Definition TOKEN_INVALID := "TOKEN_INVALID".
Definition TOKEN_REQUIRED := "TOKEN_REQUIRED".
Definition INVALID_REFRESH_TOKEN := "INVALID_REFRESH_TOKEN".
Definition UNAUTHORIZED := "UNAUTHORIZED".
Definition INSUFFICIENT_PERMISSIONS := "INSUFFICIENT_PERMISSIONS".
Definition CLIENT_NOT_FOUND := "CLIENT_NOT_FOUND".
Definition INVALID_CLIENT_CREDENTIALS := "INVALID_CLIENT_CREDENTIALS".
Definition INVALID_REDIRECT_URI := "INVALID_REDIRECT_URI".
End AuthErrorCodes.

(** The exceptions that travel through the service.
    [AppError message statusCode errorCode] is the class of
    [errorHandler.js]; note that it stores its code in [errorCode], so
    [error.code] is [undefined] on an [AppError].
    [AxiosError status] is a failed HTTP call, [status] being
    [error.response?.status].
    [JoseError code] is an error of the jose library, [code] its [code]
    property. [JwtLibError name] is an error of the jsonwebtoken library,
    [name] its [name] property. [JsError] is any other error
    ([Error], [TypeError], [SyntaxError], [RangeError]). *)
Inductive Exn : Type :=
| AppError (message : string) (statusCode : Z) (errorCode : string)
| AxiosError (status : option Z)
| JoseError (code : string)
| JwtLibError (name : string)
| JsError (message : string).

Definition is_AppError (e : Exn) : bool :=
  match e with
  | AppError _ _ _ => true
  | _ => false
  end.

(** [error.code] as the [catch] blocks read it. *)
Definition error_code (e : Exn) : option string :=
  match e with
  | JoseError c => Some c
  | _ => None
  end.

(** [error.name]. *)
Definition error_name (e : Exn) : option string :=
  match e with
  | JwtLibError n => Some n
  | _ => None
  end.

(** The error kind seen by callers: the [errorCode] of an [AppError]. *)
Definition errorCode_of (e : Exn) : option string :=
  match e with
  | AppError _ _ c => Some c
  | _ => None
  end.

Inductive Result (A : Type) : Type :=
| Ok (a : A)
| Throw (e : Exn).
Arguments Ok {A} a.
Arguments Throw {A} e.

(** ** Data model *)

Module User.
Record t : Type := mk {
  id : string;
  email : string;
  roles : list string;
  active : bool;
  firstName : option string;
  lastName : option string;
  picture : option string;
  emailVerified : bool;
  provider : option string;
  providerId : option string;
  updatedAt : option Z
}.
End User.

(** Key strings as the store holds them. [importSPKI] accepts only an
    SPKI public key and [importPKCS8] only a PKCS#8 private key; the
    number identifies the key material. *)
Inductive Pem : Type :=
| SpkiPem (material : N)
| Pkcs8Pem (material : N)
| NotPem (text : string).

Inductive KeyStatus : Type := ACTIVE | RETIRED.

Module KeyPair.
Record t : Type := mk {
  kid : string;
  publicKey : Pem;
  privateKey : Pem;
  algorithm : string;
  status : KeyStatus
}.
End KeyPair.

Module RefreshToken.
(** [expiresAt] and [revokedAt] are instants in milliseconds; the
    store exchanges them as ISO strings, which is exact. *)
Record t : Type := mk {
  token : string;
  userId : string;
  clientId : option string;
  expiresAt : Z;
  revokedAt : option Z
}.
End RefreshToken.

(** The protected header and the claims of a signed token. *)
Module Header.
Record t : Type := mk {
  alg : option string;
  kid : option string;
  typ : option string
}.
End Header.

Module Claims.
Record t : Type := mk {
  sub : option string;
  email : option string;
  roles : option (list string);
  scope : option string;
  purpose : option string;
  iss : option string;
  aud : option string;
  iat : option Z;
  exp : option Z
}.
End Claims.

(** A token string, seen through its decoding.
    - [Garbage]: the first dot-separated segment is not base64 of a JSON
      object, so [JSON.parse] throws (or yields no object).
    - [Partial h]: the first segment decodes to the header object [h],
      but the string is not a well-formed three-part signed token.
    - [Compact h p signer]: a well-formed token; [signer] is the key
      material under which its signature over [h] and [p] verifies
      ([None]: under no key). *)
Inductive Token : Type :=
| Garbage (text : string)
| Partial (h : Header.t)
| Compact (h : Header.t) (p : Claims.t) (signer : option N).

(** [process.env]. *)
Module Env.
Record t : Type := mk {
  API_URL : option string;
  FRONTEND_URL : option string;
  ACCESS_TOKEN_EXPIRES_IN : option string;
  REFRESH_TOKEN_EXPIRES_IN : option string;
  GOOGLE_CLIENT_ID : option string;
  GOOGLE_CLIENT_SECRET : option string;
  GITHUB_CLIENT_ID : option string;
  GITHUB_CLIENT_SECRET : option string;
  AUTH0_DOMAIN : option string;
  AUTH0_AUDIENCE : option string
}.
End Env.

(** [process.env.X || default]: an unset or empty variable gives the
    default. *)
Definition env_or (v : option string) (default : string) : string :=
  match v with
  | Some s => if String.eqb s "" then default else s
  | None => default
  end.

(** ** The record store (db-service) *)

(** The body of [POST /users] and [PUT /users/:id]: every field may be
    left out. *)
Module UserPayload.
Record t : Type := mk {
  email : option string;
  password : option string;
  firstName : Js string;
  lastName : Js string;
  picture : Js string;
  emailVerified : option bool;
  roles : option (list string);
  provider : Js string;
  providerId : Js string;
  active : option bool;
  updatedAt : option Z
}.
End UserPayload.

Module Store.
Record t : Type := mk {
  users : list User.t;
  passwords : gmap string string;
  keys : list KeyPair.t;
  refreshTokens : gmap string RefreshToken.t;
  nextUserId : N
}.
End Store.

(** An HTTP answer of the store: a 2xx body or a failure status. *)
Inductive HttpResp (A : Type) : Type :=
| Resp (data : A)
| Fail (status : Z).
Arguments Resp {A} data.
Arguments Fail {A} status.

Definition set_users (us : list User.t) (s : Store.t) : Store.t :=
  Store.mk us (Store.passwords s) (Store.keys s) (Store.refreshTokens s)
           (Store.nextUserId s).

Definition set_refreshTokens (m : gmap string RefreshToken.t) (s : Store.t)
  : Store.t :=
  Store.mk (Store.users s) (Store.passwords s) (Store.keys s) m
           (Store.nextUserId s).

Definition find_user_by_email (e : string) (us : list User.t)
  : option User.t :=
  List.find (fun u => String.eqb (User.email u) e) us.

Definition find_user_by_id (i : string) (us : list User.t) : option User.t :=
  List.find (fun u => String.eqb (User.id u) i) us.

Definition is_active_key (k : KeyPair.t) : bool :=
  match KeyPair.status k with
  | ACTIVE => true
  | RETIRED => false
  end.

(** A written field replaces the stored one; a missing field keeps it. *)
Definition upd_nullable (f : Js string) (old : option string)
  : option string :=
  match f with
  | undefined => old
  | null => None
  | val s => Some s
  end.

Definition apply_update (p : UserPayload.t) (u : User.t) : User.t :=
  User.mk (User.id u)
          (default (User.email u) (UserPayload.email p))
          (default (User.roles u) (UserPayload.roles p))
          (default (User.active u) (UserPayload.active p))
          (upd_nullable (UserPayload.firstName p) (User.firstName u))
          (upd_nullable (UserPayload.lastName p) (User.lastName u))
          (upd_nullable (UserPayload.picture p) (User.picture u))
          (default (User.emailVerified u) (UserPayload.emailVerified p))
          (upd_nullable (UserPayload.provider p) (User.provider u))
          (upd_nullable (UserPayload.providerId p) (User.providerId u))
          (match UserPayload.updatedAt p with
           | Some t => Some t
           | None => User.updatedAt u
           end).

Definition new_user (i : string) (e : string) (p : UserPayload.t) : User.t :=
  User.mk i e
          (default ["USER"] (UserPayload.roles p))
          (default true (UserPayload.active p))
          (upd_nullable (UserPayload.firstName p) None)
          (upd_nullable (UserPayload.lastName p) None)
          (upd_nullable (UserPayload.picture p) None)
          (default false (UserPayload.emailVerified p))
          (upd_nullable (UserPayload.provider p) None)
          (upd_nullable (UserPayload.providerId p) None)
          (UserPayload.updatedAt p).

(** Modelled from the spec: the record-store collaborator is a separate
    service of which only the HTTP client is in this repository. Its
    endpoints follow the contract of the specification's section on
    external interfaces: users are unique by email and addressed by id,
    [updateUser] writes the fields it is given, key pairs are kept by
    [kid] whether active or retired, refresh-token records are kept by
    value, and revocation marks a found record and is idempotent. An
    absent resource is answered with status 404, which is the status the
    client tests for. *)
Module Endpoint.

Definition post_users (p : UserPayload.t) (s : Store.t)
  : HttpResp User.t * Store.t :=
  match UserPayload.email p with
  | None => (Fail 400, s)
  | Some e =>
      match find_user_by_email e (Store.users s) with
      | Some _ => (Fail 409, s)
      | None =>
          let i := "user-" +:+ pretty (Store.nextUserId s) in
          let u := new_user i e p in
          (Resp u,
           Store.mk (Store.users s ++ [u])
                    (match UserPayload.password p with
                     | Some pw => <[i := pw]> (Store.passwords s)
                     | None => Store.passwords s
                     end)
                    (Store.keys s) (Store.refreshTokens s)
                    (N.succ (Store.nextUserId s)))
      end
  end.

Definition get_user_by_id (i : string) (s : Store.t) : HttpResp User.t :=
  match find_user_by_id i (Store.users s) with
  | Some u => Resp u
  | None => Fail 404
  end.

Definition get_user_by_email (e : string) (s : Store.t)
  : HttpResp User.t :=
  match find_user_by_email e (Store.users s) with
  | Some u => Resp u
  | None => Fail 404
  end.

Definition put_user (i : string) (p : UserPayload.t) (s : Store.t)
  : HttpResp User.t * Store.t :=
  match find_user_by_id i (Store.users s) with
  | None => (Fail 404, s)
  | Some u =>
      (Resp (apply_update p u),
       set_users
         (List.map (fun v => if String.eqb (User.id v) i
                             then apply_update p v else v)
                   (Store.users s)) s)
  end.

Definition verify_password (i : string) (pw : string) (s : Store.t)
  : HttpResp bool :=
  match find_user_by_id i (Store.users s) with
  | None => Fail 404
  | Some _ =>
      Resp (match Store.passwords s !! i with
            | Some stored => String.eqb stored pw
            | None => false
            end)
  end.

Definition get_key_by_kid (k : string) (s : Store.t)
  : HttpResp KeyPair.t :=
  match List.find (fun kp => String.eqb (KeyPair.kid kp) k) (Store.keys s)
  with
  | Some kp => Resp kp
  | None => Fail 404
  end.

Definition get_active_key (s : Store.t) : HttpResp KeyPair.t :=
  match List.find is_active_key (Store.keys s) with
  | Some kp => Resp kp
  | None => Fail 404
  end.

Definition post_refresh_token (r : RefreshToken.t) (s : Store.t)
  : HttpResp RefreshToken.t * Store.t :=
  match Store.refreshTokens s !! RefreshToken.token r with
  | Some _ => (Fail 409, s)
  | None =>
      (Resp r,
       set_refreshTokens
         (<[RefreshToken.token r := r]> (Store.refreshTokens s)) s)
  end.

Definition get_refresh_token (tok : string) (s : Store.t)
  : HttpResp RefreshToken.t :=
  match Store.refreshTokens s !! tok with
  | Some r => Resp r
  | None => Fail 404
  end.

Definition revoked (at_ : Z) (r : RefreshToken.t) : RefreshToken.t :=
  RefreshToken.mk (RefreshToken.token r) (RefreshToken.userId r)
                  (RefreshToken.clientId r) (RefreshToken.expiresAt r)
                  (match RefreshToken.revokedAt r with
                   | Some t => Some t
                   | None => Some at_
                   end).

(** The body is the whole [response.data], whose [success] field the
    caller reads. *)
Definition post_revoke (tok : string) (at_ : Z) (s : Store.t)
  : HttpResp bool * Store.t :=
  match Store.refreshTokens s !! tok with
  | None => (Fail 404, s)
  | Some r =>
      (Resp true,
       set_refreshTokens
         (<[tok := revoked at_ r]> (Store.refreshTokens s)) s)
  end.

End Endpoint.

(** ** Worlds and computations *)

(** The methods of [DbServiceClient] that the token core calls. *)
Inductive DbOp : Type :=
| OpCreateUser
| OpGetUserById
| OpGetUserByEmail
| OpUpdateUser
| OpVerifyPassword
| OpGetKeyPairByKid
| OpGetActiveKeyPair
| OpCreateRefreshToken
| OpGetRefreshTokenByValue
| OpRevokeRefreshToken.

(** The time zone of the process, as [Date] uses it, in milliseconds:
    [offset_at t] is the offset of local time from UTC at the instant
    [t], and [offset_of_local lt] the offset that the runtime picks for
    the local time [lt] when it turns it back into an instant (at a clock
    change a local time can stand for two instants or for none). *)
Module Zone.
Record t : Type := mk {
  offset_at : Z -> Z;
  offset_of_local : Z -> Z
}.
End Zone.

(** What a call runs in: [process.env], the clock ([Date.now()], in
    milliseconds), the state of the link to the store, the sources of
    randomness and the time zone. [outage op = Some st] makes the HTTP
    call of [op] fail before it reaches the store, with
    [error.response?.status = st] ([None] for a timeout or a refused
    connection). [randomBytes n] is the hex string of the [n]-th draw of
    [crypto.randomBytes], and [generatePassword n] the [n]-th generated
    password. *)
Module Ctx.
Record t : Type := mk {
  env : Env.t;
  now : Z;
  outage : DbOp -> option (option Z);
  randomBytes : nat -> string;
  generatePassword : nat -> string;
  zone : Zone.t
}.
End Ctx.

(** What a call changes: the contents of the store and the number of
    random draws made so far. *)
Module World.
Record t : Type := mk {
  store : Store.t;
  draws : nat
}.
End World.

Definition M (A : Type) : Type := World.t -> Result A * World.t.

#[global] Instance M_ret : MRet M := fun A a w => (Ok a, w).

#[global] Instance M_bind : MBind M := fun A B f m w =>
  match m w with
  | (Ok a, w') => f a w'
  | (Throw e, w') => (Throw e, w')
  end.

Definition throw {A : Type} (e : Exn) : M A := fun w => (Throw e, w).

(** [try { m } catch (error) { h error }]. *)
Definition try_catch {A : Type} (m : M A) (h : Exn -> M A) : M A :=
  fun w =>
    match m w with
    | (Ok a, w') => (Ok a, w')
    | (Throw e, w') => h e w'
    end.

(** [m.catch(() => null)]. *)
Definition catch_null {A : Type} (m : M A) : M (option A) :=
  try_catch (a ← m; mret (Some a)) (fun _ => mret None).

Definition get_store : M Store.t := fun w => (Ok (World.store w), w).

Definition put_store (s : Store.t) : M unit :=
  fun w => (Ok tt, World.mk s (World.draws w)).

(** The next random draw. *)
Definition draw : M nat :=
  fun w => (Ok (World.draws w), World.mk (World.store w) (S (World.draws w))).

(** The outcome and the final world of a computation. *)
Definition outcome {A : Type} (r : Result A * World.t) : Result A := fst r.
Definition world_after {A : Type} (r : Result A * World.t) : World.t := snd r.

(** ** [DbServiceClient] ([services/db-client.js]) *)

Module DbServiceClient.

(** One HTTP exchange: the request is lost when the link is out,
    otherwise the store answers; axios rejects on a failure status. *)
Definition request {A : Type} (ctx : Ctx.t) (op : DbOp)
    (endpoint : Store.t -> HttpResp A * Store.t) : M A :=
  match Ctx.outage ctx op with
  | Some st => throw (AxiosError st)
  | None =>
      s ← get_store;
      match endpoint s with
      | (Resp a, s') => put_store s';; mret a
      | (Fail st, s') => put_store s';; throw (AxiosError (Some st))
      end
  end.

Definition read_only {A : Type} (f : Store.t -> HttpResp A)
  : Store.t -> HttpResp A * Store.t :=
  fun s => (f s, s).

(** [if (error.response?.status === 404) return null; throw error]. *)
Definition null_on_404 {A : Type} (m : M A) : M (option A) :=
  try_catch (a ← m; mret (Some a))
    (fun error =>
       match error with
       | AxiosError (Some status) =>
           if status =? 404 then mret None else throw error
       | _ => throw error
       end).

Definition createUser (ctx : Ctx.t) (userData : UserPayload.t) : M User.t :=
  request ctx OpCreateUser (Endpoint.post_users userData).

Definition getUserById (ctx : Ctx.t) (userId : string) : M User.t :=
  request ctx OpGetUserById (read_only (Endpoint.get_user_by_id userId)).

Definition getUserByEmail (ctx : Ctx.t) (email : string) : M User.t :=
  request ctx OpGetUserByEmail
          (read_only (Endpoint.get_user_by_email email)).

Definition updateUser (ctx : Ctx.t) (userId : string)
    (updateData : UserPayload.t) : M User.t :=
  request ctx OpUpdateUser (Endpoint.put_user userId updateData).

Definition verifyPassword (ctx : Ctx.t) (userId password : string)
  : M bool :=
  request ctx OpVerifyPassword
          (read_only (Endpoint.verify_password userId password)).

(** [getKeyPairByKid] and [getRefreshTokenByValue] put their argument
    into the path of the URL as it is. The argument is modelled here as
    the route parameter that the store receives, which it is when it is
    its own request path, as are the identifiers and the hexadecimal
    token values that the service issues; what the requests of other
    values look like is given by [by_token_url] and [request_target]
    below. *)
Definition getKeyPairByKid (ctx : Ctx.t) (kid : string)
  : M (option KeyPair.t) :=
  null_on_404
    (request ctx OpGetKeyPairByKid (read_only (Endpoint.get_key_by_kid kid))).

Definition getActiveKeyPair (ctx : Ctx.t) : M (option KeyPair.t) :=
  null_on_404
    (request ctx OpGetActiveKeyPair (read_only Endpoint.get_active_key)).

Definition createRefreshToken (ctx : Ctx.t) (tokenData : RefreshToken.t)
  : M RefreshToken.t :=
  request ctx OpCreateRefreshToken (Endpoint.post_refresh_token tokenData).

Definition getRefreshTokenByValue (ctx : Ctx.t) (token : string)
  : M (option RefreshToken.t) :=
  null_on_404
    (request ctx OpGetRefreshTokenByValue
             (read_only (Endpoint.get_refresh_token token))).

(** Returns [response.data], of which the caller reads [success]. *)
Definition revokeRefreshToken (ctx : Ctx.t) (token : string) : M bool :=
  request ctx OpRevokeRefreshToken (Endpoint.post_revoke token (Ctx.now ctx)).

End DbServiceClient.

(** ** Strings, numbers and dates of the JavaScript runtime *)

Definition is_digit (c : ascii) : bool :=
  let n := nat_of_ascii c in (48 <=? n)%nat && (n <=? 57)%nat.

Definition digit_value (c : ascii) : Z := Z.of_nat (nat_of_ascii c) - 48.

Definition hex_value (c : ascii) : option Z :=
  let n := Z.of_nat (nat_of_ascii c) in
  if (48 <=? n) && (n <=? 57) then Some (n - 48)
  else if (65 <=? n) && (n <=? 70) then Some (n - 55)
  else if (97 <=? n) && (n <=? 102) then Some (n - 87)
  else None.

(** The longest prefix of digits, read in base ten, and what follows it;
    [None] when there is no digit. *)
Fixpoint read_digits (acc : option Z) (s : string) : option Z * string :=
  match s with
  | String c rest =>
      if is_digit c
      then read_digits (Some (10 * default 0 acc + digit_value c)) rest
      else (acc, s)
  | EmptyString => (acc, s)
  end.

Fixpoint read_hex (acc : option Z) (s : string) : option Z :=
  match s with
  | String c rest =>
      match hex_value c with
      | Some d => read_hex (Some (16 * default 0 acc + d)) rest
      | None => acc
      end
  | EmptyString => acc
  end.

Definition is_space (c : ascii) : bool :=
  let n := nat_of_ascii c in
  (n =? 32)%nat || ((9 <=? n)%nat && (n <=? 13)%nat).

Fixpoint skip_spaces (s : string) : string :=
  match s with
  | String c rest => if is_space c then skip_spaces rest else s
  | EmptyString => s
  end.

Definition read_unsigned (s : string) : option Z :=
  match s with
  | String "0" (String "x" rest) => read_hex None rest
  | String "0" (String "X" rest) => read_hex None rest
  | _ => fst (read_digits None s)
  end.

(** [parseInt(s)]; [None] is [NaN]. *)
Definition parseInt (s : string) : option Z :=
  match skip_spaces s with
  | String "-" rest => Z.opp <$> read_unsigned rest
  | String "+" rest => read_unsigned rest
  | t => read_unsigned t
  end.

(** [s.replace(c, '')] for a one-character pattern: the first occurrence
    goes. *)
Fixpoint remove_first (c : ascii) (s : string) : string :=
  match s with
  | String d rest => if Ascii.eqb c d then rest else String d (remove_first c rest)
  | EmptyString => EmptyString
  end.

(** [s.split(' ')[0]] and [s.split(' ').slice(1).join(' ')]: the text
    before the first space, and the text after it. *)
Fixpoint before_space (s : string) : string :=
  match s with
  | String c rest =>
      if Ascii.eqb c " " then EmptyString else String c (before_space rest)
  | EmptyString => EmptyString
  end.

Fixpoint after_space (s : string) : string :=
  match s with
  | String c rest => if Ascii.eqb c " " then rest else after_space rest
  | EmptyString => EmptyString
  end.

Definition MS_PER_DAY : Z := 86400000.

(** The instants a [Date] can hold; beyond them it is an Invalid Date. *)
Definition valid_time (t : Z) : bool :=
  (-8640000000000000 <=? t) && (t <=? 8640000000000000).

(** [d.setDate(d.getDate() + days); d.toISOString()] on [d = new Date()].
    [setDate] works on local time: it takes the local time of now, moves
    it by [days] calendar days, and turns the result back into an instant
    with the offset the zone has there, so that across a clock change the
    instant is not a whole number of days away. [toISOString] throws a
    [RangeError] on an Invalid Date, which is what a [NaN] number of days
    or an instant out of range produces. *)
Definition days_from_now (zone : Zone.t) (now : Z) (days : option Z)
  : Result Z :=
  match days with
  | Some d =>
      let local := now + Zone.offset_at zone now + d * MS_PER_DAY in
      let u := local - Zone.offset_of_local zone local in
      if valid_time u then Ok u else Throw (JsError "Invalid time value")
  | None => Throw (JsError "Invalid time value")
  end.

(** [URLSearchParams.prototype.toString]: the form-urlencoded
    serializer. Letters, digits and [*-._] stay, a space becomes [+], and
    every other byte of the UTF-8 text becomes [%XX] in upper-case
    hexadecimal. *)
Definition is_alnum (c : ascii) : bool :=
  let n := nat_of_ascii c in
  ((48 <=? n)%nat && (n <=? 57)%nat)
  || ((65 <=? n)%nat && (n <=? 90)%nat)
  || ((97 <=? n)%nat && (n <=? 122)%nat).

Definition form_keeps (c : ascii) : bool :=
  is_alnum c
  || Ascii.eqb c "*" || Ascii.eqb c "-" || Ascii.eqb c "." || Ascii.eqb c "_".

Definition hex_digit (n : nat) : ascii :=
  if (n <? 10)%nat then ascii_of_nat (48 + n) else ascii_of_nat (55 + n).

Fixpoint form_encode (s : string) : string :=
  match s with
  | EmptyString => EmptyString
  | String c rest =>
      if form_keeps c then String c (form_encode rest)
      else if Ascii.eqb c " " then String "+" (form_encode rest)
      else String "%"
             (String (hex_digit (nat_of_ascii c / 16))
                (String (hex_digit (nat_of_ascii c mod 16))
                   (form_encode rest)))
  end.

(** [new URLSearchParams(pairs).toString()] *)
Fixpoint form_serialize (pairs : list (string * string)) : string :=
  match pairs with
  | [] => EmptyString
  | [(k, v)] => form_encode k +:+ "=" +:+ form_encode v
  | (k, v) :: rest =>
      form_encode k +:+ "=" +:+ form_encode v +:+ "&" +:+ form_serialize rest
  end.



(** What of a URL a request carries to the server: the text before the
    first [#]. The fragment that follows stays with the client. *)
Fixpoint request_target (url : string) : string :=
  match url with
  | EmptyString => EmptyString
  | String c rest =>
      if Ascii.eqb c "#" then EmptyString else String c (request_target rest)
  end.


Definition by_token_url (token : string) : string :=
  "/api/v1/refresh-tokens/by-token/" +:+ token.

(** ** The jose library, as the service relies on it *)

Module Jose.

(** An imported key: its material, the algorithm it was imported for,
    and whether it is the private half. *)
Record CryptoKey : Type := mkKey {
  material : N;
  key_alg : string;
  is_private : bool
}.

Definition rsa_algs : list string :=
  ["RS256"; "RS384"; "RS512"; "PS256"; "PS384"; "PS512"].

Definition supported (alg : string) : bool :=
  existsb (String.eqb alg) rsa_algs.

Definition importPKCS8 (pem : Pem) (alg : string) : Result CryptoKey :=
  match pem with
  | Pkcs8Pem k =>
      if supported alg then Ok (mkKey k alg true)
      else Throw (JoseError "ERR_JOSE_NOT_SUPPORTED")
  | _ => Throw (JsError "pkcs8 must be PKCS#8 formatted string")
  end.

Definition importSPKI (pem : Pem) (alg : string) : Result CryptoKey :=
  match pem with
  | SpkiPem k =>
      if supported alg then Ok (mkKey k alg false)
      else Throw (JoseError "ERR_JOSE_NOT_SUPPORTED")
  | _ => Throw (JsError "spki must be SPKI formatted string")
  end.

(** Seconds in one unit of a time span. *)
Definition unit_seconds (u : string) : option Z :=
  if existsb (String.eqb u) ["s"; "sec"; "secs"; "second"; "seconds"]
  then Some 1
  else if existsb (String.eqb u) ["m"; "min"; "mins"; "minute"; "minutes"]
  then Some 60
  else if existsb (String.eqb u) ["h"; "hr"; "hrs"; "hour"; "hours"]
  then Some 3600
  else if existsb (String.eqb u) ["d"; "day"; "days"]
  then Some 86400
  else if existsb (String.eqb u) ["w"; "week"; "weeks"]
  then Some 604800
  else if existsb (String.eqb u) ["y"; "yr"; "yrs"; "year"; "years"]
  then Some 31557600
  else None.

(** The time-span reader behind [setExpirationTime]: a whole number, an
    optional space and a lower-case unit, as in ['15m'] or ['24 hours'].
    Signed, fractional and upper-case spans are not used by the service
    and are read as invalid here. [None] is the library's [TypeError]. *)
Definition secs (span : string) : option Z :=
  match read_digits None span with
  | (Some n, String " " u) => Z.mul n <$> unit_seconds u
  | (Some n, u) => Z.mul n <$> unit_seconds u
  | (None, _) => None
  end.

(** The current time in seconds, as the library takes it. *)
Definition epoch (now_ms : Z) : Z := now_ms / 1000.

(** [new SignJWT(claims).setProtectedHeader(h).setIssuedAt()
     .setIssuer(iss).setAudience(aud).setExpirationTime(span).sign(key)].
    [claims] carries the private claims; the registered ones are set
    here. *)
Definition sign (now_ms : Z) (claims : Claims.t) (h : Header.t)
    (iss aud : option string) (span : string) (key : CryptoKey)
  : Result Token :=
  match secs span with
  | None => Throw (JsError "Invalid time period format")
  | Some ttl =>
      if is_private key
         && bool_decide (Header.alg h = Some (key_alg key))
      then
        Ok (Compact h
              (Claims.mk (Claims.sub claims) (Claims.email claims)
                         (Claims.roles claims) (Claims.scope claims)
                         (Claims.purpose claims) iss aud
                         (Some (epoch now_ms))
                         (Some (epoch now_ms + ttl)))
              (Some (material key)))
      else Throw (JsError "Key does not fit the algorithm")
  end.

(** An expected issuer or audience that is unset is not checked. One
    that is set makes the claim required, and unless it is the empty
    string the claim must equal it. *)
Definition claim_matches (expected actual : option string) : bool :=
  match expected with
  | Some e =>
      if String.eqb e "" then bool_decide (is_Some actual)
      else bool_decide (actual = Some e)
  | None => true
  end.

(** Claim validation: issuer, then audience, then expiry. *)
Definition validate_claims (now_ms : Z) (issuer audience : option string)
    (p : Claims.t) : Result Claims.t :=
  if negb (claim_matches issuer (Claims.iss p))
  then Throw (JoseError "ERR_JWT_CLAIM_VALIDATION_FAILED")
  else if negb (claim_matches audience (Claims.aud p))
  then Throw (JoseError "ERR_JWT_CLAIM_VALIDATION_FAILED")
  else match Claims.exp p with
       | Some e =>
           if e <=? epoch now_ms
           then Throw (JoseError "ERR_JWT_EXPIRED")
           else Ok p
       | None => Ok p
       end.

Definition signature_ok (h : Header.t) (signer : option N)
    (key : CryptoKey) : bool :=
  bool_decide (signer = Some (material key)).

Definition lift {A : Type} (r : Result A) : M A :=
  match r with
  | Ok a => mret a
  | Throw e => throw e
  end.

(** [jwtVerify(token, getKey, { issuer, audience })]: the token must be
    well formed and name its algorithm; the key is then obtained (an
    error of [getKey] passes through unchanged) and must be a public
    key for that algorithm; the signature is checked, and last the
    claims. *)
Definition jwtVerify (now_ms : Z) (token : Token)
    (getKey : Header.t -> M CryptoKey) (issuer audience : option string)
  : M Claims.t :=
  match token with
  | Compact h p signer =>
      match Header.alg h with
      | None => throw (JoseError "ERR_JWS_INVALID")
      | Some a =>
          key ← getKey h;
          if is_private key || negb (String.eqb a (key_alg key))
          then throw (JsError "Key does not fit the algorithm")
          else if negb (signature_ok h signer key)
          then throw (JoseError "ERR_JWS_SIGNATURE_VERIFICATION_FAILED")
          else lift (validate_claims now_ms issuer audience p)
      end
  | _ => throw (JoseError "ERR_JWS_INVALID")
  end.

End Jose.

(** ** [utils/jwt.js] *)

(** [try { m } catch (error) { console.error(...); throw error; }] *)
Definition logged {A : Type} (m : M A) : M A :=
  try_catch m (fun error => throw error).

(** [JSON.parse(Buffer.from(token.split('.')[0], 'base64').toString())] *)
Definition decode_header (token : Token) : Result Header.t :=
  match token with
  | Garbage _ => Throw (JsError "Unexpected token in JSON")
  | Partial h => Ok h
  | Compact h _ _ => Ok h
  end.

(** The [kid] of a decoded header when it is truthy. *)
Definition truthy_kid (h : Header.t) : option string :=
  match Header.kid h with
  | Some k => if String.eqb k "" then None else Some k
  | None => None
  end.

(** The wrapper of [jwt.js] around the client: any error of the store
    gives [null]. *)
Definition getActiveKeyPair (ctx : Ctx.t) : M (option KeyPair.t) :=
  try_catch (DbServiceClient.getActiveKeyPair ctx) (fun _ => mret None).

Definition access_claims (user : User.t) : Claims.t :=
  Claims.mk (Some (User.id user)) (Some (User.email user))
            (Some (User.roles user)) (Some "openid profile email")
            None None None None None.

Definition signing_header (k : KeyPair.t) : Header.t :=
  Header.mk (Some (KeyPair.algorithm k)) (Some (KeyPair.kid k)) (Some "JWT").

Definition generateAccessToken (ctx : Ctx.t) (user : User.t) : M Token :=
  logged (
    activeKeyPair ← getActiveKeyPair ctx;
    match activeKeyPair with
    | None => throw (JsError "Aucune paire de clés active trouvée")
    | Some activeKeyPair =>
        privateKey ← Jose.lift (Jose.importPKCS8
                                  (KeyPair.privateKey activeKeyPair)
                                  (KeyPair.algorithm activeKeyPair));
        let expiresIn :=
          env_or (Env.ACCESS_TOKEN_EXPIRES_IN (Ctx.env ctx)) "15m" in
        Jose.lift (Jose.sign (Ctx.now ctx) (access_claims user)
                             (signing_header activeKeyPair)
                             (Env.API_URL (Ctx.env ctx))
                             (Env.FRONTEND_URL (Ctx.env ctx))
                             expiresIn privateKey)
    end).

Definition generateRefreshToken (ctx : Ctx.t) (userId : string)
    (clientId : option string) : M string :=
  logged (
    n ← draw;
    let token := Ctx.randomBytes ctx n in
    let expiresIn :=
      env_or (Env.REFRESH_TOKEN_EXPIRES_IN (Ctx.env ctx)) "7d" in
    let days := parseInt (remove_first "d" expiresIn) in
    expiresAt ← Jose.lift (days_from_now (Ctx.zone ctx) (Ctx.now ctx) days);
    DbServiceClient.createRefreshToken ctx
      (RefreshToken.mk token userId clientId expiresAt None);;
    mret token).

Definition verifyAccessToken (ctx : Ctx.t) (token : Token) : M Claims.t :=
  try_catch (
    decodedHeader ← Jose.lift (decode_header token);
    match truthy_kid decodedHeader with
    | None =>
        throw (AppError "Token invalide" 401 AuthErrorCodes.TOKEN_INVALID)
    | Some kid =>
        keyPair ← DbServiceClient.getKeyPairByKid ctx kid;
        match keyPair with
        | None =>
            throw (AppError "Clé de signature introuvable" 401
                            AuthErrorCodes.TOKEN_INVALID)
        | Some keyPair =>
            publicKey ← Jose.lift (Jose.importSPKI
                                     (KeyPair.publicKey keyPair)
                                     (KeyPair.algorithm keyPair));
            Jose.jwtVerify (Ctx.now ctx) token (fun _ => mret publicKey)
                           (Env.API_URL (Ctx.env ctx))
                           (Env.FRONTEND_URL (Ctx.env ctx))
        end
    end)
    (fun error =>
       if bool_decide (error_code error = Some "ERR_JWT_EXPIRED")
       then throw (AppError "Token expiré" 401 AuthErrorCodes.TOKEN_EXPIRED)
       else if is_AppError error then throw error
       else throw (AppError "Token invalide" 401 AuthErrorCodes.TOKEN_INVALID)).

Definition verifyRefreshToken (ctx : Ctx.t) (token : string)
  : M RefreshToken.t :=
  logged (
    refreshToken ← DbServiceClient.getRefreshTokenByValue ctx token;
    match refreshToken with
    | None =>
        throw (AppError "Token de rafraîchissement invalide" 401
                        AuthErrorCodes.INVALID_REFRESH_TOKEN)
    | Some refreshToken =>
        if RefreshToken.expiresAt refreshToken <? Ctx.now ctx
        then throw (AppError "Token de rafraîchissement expiré" 401
                             AuthErrorCodes.TOKEN_EXPIRED)
        else if bool_decide (is_Some (RefreshToken.revokedAt refreshToken))
        then throw (AppError "Token de rafraîchissement révoqué" 401
                             AuthErrorCodes.TOKEN_INVALID)
        else mret refreshToken
    end).

Definition revokeRefreshToken (ctx : Ctx.t) (token : string) : M bool :=
  try_catch (DbServiceClient.revokeRefreshToken ctx token)
            (fun _ => mret false).

Definition email_verification_claims (user : User.t) : Claims.t :=
  Claims.mk (Some (User.id user)) None None None (Some "email_verification")
            None None None None.

Definition generateEmailVerificationToken (ctx : Ctx.t) (user : User.t)
  : M Token :=
  logged (
    activeKeyPair ← getActiveKeyPair ctx;
    match activeKeyPair with
    | None =>
        throw (JsError
          "Aucune paire de clés active trouvée pour la vérification d'email")
    | Some activeKeyPair =>
        privateKey ← Jose.lift (Jose.importPKCS8
                                  (KeyPair.privateKey activeKeyPair)
                                  (KeyPair.algorithm activeKeyPair));
        let expiresIn := "24h" in
        Jose.lift (Jose.sign (Ctx.now ctx) (email_verification_claims user)
                             (signing_header activeKeyPair)
                             (Env.API_URL (Ctx.env ctx))
                             (Env.FRONTEND_URL (Ctx.env ctx))
                             expiresIn privateKey)
    end).

(** The key callback handed to [jwtVerify]: it receives the header and
    does not look at it. *)
Definition active_key_resolver (ctx : Ctx.t) (header : Header.t)
  : M Jose.CryptoKey :=
  key ← DbServiceClient.getActiveKeyPair ctx;
  match key with
  | None => throw (JsError "Clé publique non trouvée pour la vérification")
  | Some key =>
      Jose.lift (Jose.importSPKI (KeyPair.publicKey key)
                                 (KeyPair.algorithm key))
  end.

Definition INVALID_TOKEN_PURPOSE := "INVALID_TOKEN_PURPOSE".
Definition INVALID_VERIFICATION_TOKEN := "INVALID_VERIFICATION_TOKEN".

Definition verifyEmailVerificationToken (ctx : Ctx.t) (token : Token)
  : M Claims.t :=
  try_catch (
    payload ← Jose.jwtVerify (Ctx.now ctx) token (active_key_resolver ctx)
                             (Env.API_URL (Ctx.env ctx))
                             (Env.FRONTEND_URL (Ctx.env ctx));
    if negb (bool_decide (Claims.purpose payload = Some "email_verification"))
    then throw (AppError "Token invalide (mauvais usage)" 400
                         INVALID_TOKEN_PURPOSE)
    else mret payload)
    (fun error =>
       if is_AppError error then throw error
       else throw (AppError "Token de vérification invalide ou expiré" 401
                            INVALID_VERIFICATION_TOKEN)).

(** [generateIdToken]. The function calls [importJWK], which is not
    among the names that [jwt.js] takes from the jose library: once an
    active key pair is there, evaluating the call throws a
    [ReferenceError] before its arguments are looked at, and the rest of
    the function is never reached. *)
Definition generateIdToken (ctx : Ctx.t) (user : User.t) (clientId : string)
    (nonce : option string) : M Token :=
  logged (
    activeKeyPair ← getActiveKeyPair ctx;
    match activeKeyPair with
    | None => throw (JsError "Aucune paire de clés active trouvée")
    | Some activeKeyPair => throw (JsError "importJWK is not defined")
    end).

(** [verifyAccessToken(token)] as [middlewares/auth.js] calls it, with
    the second argument left out: [dbClient] is [undefined], and
    [dbClient.getKeyPairByKid] throws a [TypeError] where the key would be
    looked up. *)
Definition verifyAccessToken_without_client (ctx : Ctx.t) (token : Token)
  : M Claims.t :=
  try_catch (
    decodedHeader ← Jose.lift (decode_header token);
    match truthy_kid decodedHeader with
    | None =>
        throw (AppError "Token invalide" 401 AuthErrorCodes.TOKEN_INVALID)
    | Some kid =>
        keyPair ← (throw (JsError "Cannot read properties of undefined")
                   : M (option KeyPair.t));
        match keyPair with
        | None =>
            throw (AppError "Clé de signature introuvable" 401
                            AuthErrorCodes.TOKEN_INVALID)
        | Some keyPair =>
            publicKey ← Jose.lift (Jose.importSPKI
                                     (KeyPair.publicKey keyPair)
                                     (KeyPair.algorithm keyPair));
            Jose.jwtVerify (Ctx.now ctx) token (fun _ => mret publicKey)
                           (Env.API_URL (Ctx.env ctx))
                           (Env.FRONTEND_URL (Ctx.env ctx))
        end
    end)
    (fun error =>
       if bool_decide (error_code error = Some "ERR_JWT_EXPIRED")
       then throw (AppError "Token expiré" 401 AuthErrorCodes.TOKEN_EXPIRED)
       else if is_AppError error then throw error
       else throw (AppError "Token invalide" 401 AuthErrorCodes.TOKEN_INVALID)).

(** A registered OAuth client, as the store answers it. *)
Module Client.
Record t : Type := mk {
  id : string;
  clientId : string;
  clientSecret : string;
  redirectUris : list string;
  allowedScopes : list string;
  active : bool;
  ownerId : string
}.
End Client.

(** ** [AuthService] ([services/auth.service.js]) *)

Module AuthService.

Record LoginResult : Type := mkLogin {
  user : User.t;
  accessToken : Token;
  refreshToken_ : string
}.

Record RefreshResult : Type := mkRefresh {
  success : bool;
  newAccessToken : Token;
  newRefreshToken : string
}.

Record RevokeResult : Type := mkRevoke {
  revoked : bool;
  message : string
}.

Definition login (ctx : Ctx.t) (email password : string) : M LoginResult :=
  user ← catch_null (DbServiceClient.getUserByEmail ctx email);
  match user with
  | None =>
      throw (AppError "Email ou mot de passe incorrect" 401
                      AuthErrorCodes.INVALID_CREDENTIALS)
  | Some user =>
      if negb (User.active user)
      then throw (AppError "Ce compte a été désactivé" 403
                           AuthErrorCodes.UNAUTHORIZED)
      else
        passwordMatch ←
          DbServiceClient.verifyPassword ctx (User.id user) password;
        if negb passwordMatch
        then throw (AppError "Email ou mot de passe incorrect" 401
                             AuthErrorCodes.INVALID_CREDENTIALS)
        else
          accessToken ← generateAccessToken ctx user;
          refreshToken ← generateRefreshToken ctx (User.id user) None;
          mret (mkLogin user accessToken refreshToken)
  end.

(** The store answers [getUserById] with a user or with a failure
    status, so the [!user] half of the guard never fires here. *)
Definition refreshToken (ctx : Ctx.t) (refreshToken : string)
  : M RefreshResult :=
  refreshTokenData ← verifyRefreshToken ctx refreshToken;
  user ← DbServiceClient.getUserById ctx (RefreshToken.userId refreshTokenData);
  if negb (User.active user)
  then throw (AppError "Utilisateur non trouvé ou inactif" 401
                       AuthErrorCodes.UNAUTHORIZED)
  else
    accessToken ← generateAccessToken ctx user;
    newRefreshToken ←
      generateRefreshToken ctx (User.id user)
                           (RefreshToken.clientId refreshTokenData);
    revokeRefreshToken ctx refreshToken;;
    mret (mkRefresh true accessToken newRefreshToken).

Definition revokeToken (ctx : Ctx.t) (refreshToken : string)
  : M RevokeResult :=
  result ← revokeRefreshToken ctx refreshToken;
  mret (mkRevoke result
          (if result then "Token révoqué avec succès"
           else "Échec de la révocation du token")).

(** The body of a registration request. *)
Record RegisterData : Type := mkRegister {
  reg_email : string;
  reg_password : string;
  reg_firstName : Js string;
  reg_lastName : Js string
}.

(** [register]. The confirmation email is sent without being awaited and
    its failure is only logged, so the notification takes no part in the
    result and is left out. The store's user carries no password, so the
    returned [userWithoutPassword] is the created user. *)
Definition register (ctx : Ctx.t) (userData : RegisterData) : M User.t :=
  existingUser ←
    catch_null (DbServiceClient.getUserByEmail ctx (reg_email userData));
  match existingUser with
  | Some _ =>
      throw (AppError "Cet email est déjà utilisé" 400
                      AuthErrorCodes.EMAIL_ALREADY_IN_USE)
  | None =>
      user ← DbServiceClient.createUser ctx
                (UserPayload.mk (Some (reg_email userData))
                   (Some (reg_password userData))
                   (js_or (reg_firstName userData) null)
                   (js_or (reg_lastName userData) null)
                   undefined None (Some ["USER"]) undefined undefined
                   None None);
      verificationToken ← generateEmailVerificationToken ctx user;
      mret user
  end.

Record VerifyEmailResult : Type := mkVerifyEmail {
  verified_user : User.t;
  verify_message : string
}.

Definition verifyEmail (ctx : Ctx.t) (token : Token) : M VerifyEmailResult :=
  payload ← verifyEmailVerificationToken ctx token;
  user ← DbServiceClient.getUserById ctx
            (default "undefined" (Claims.sub payload));
  if User.emailVerified user
  then mret (mkVerifyEmail user "Email déjà vérifié.")
  else
    updatedUser ← DbServiceClient.updateUser ctx (User.id user)
                    (UserPayload.mk None None undefined undefined undefined
                       (Some true) None undefined undefined None None);
    mret (mkVerifyEmail updatedUser "Email vérifié avec succès.").

Record TokenResponse : Type := mkTokenResponse {
  tr_success : bool;
  access_token : Token;
  refresh_token : string;
  id_token : Token;
  token_type : string;
  expires_in : Z
}.

(** [exchangeCodeForTokens]. [clients] stands for
    [dbClient.getClientByClientId]: what that call returns or throws for
    a client identifier. The authorization code and the PKCE verifier are
    not examined (the check is a [TODO] in the source). *)
Definition exchangeCodeForTokens (ctx : Ctx.t)
    (clients : string -> Result Client.t)
    (code clientId clientSecret redirectUri : string)
    (codeVerifier : Js string) : M TokenResponse :=
  client ← catch_null (Jose.lift (clients clientId));
  match client with
  | None =>
      throw (AppError "Client non trouvé ou inactif" 400
                      AuthErrorCodes.CLIENT_NOT_FOUND)
  | Some client =>
      if negb (Client.active client)
      then throw (AppError "Client non trouvé ou inactif" 400
                           AuthErrorCodes.CLIENT_NOT_FOUND)
      else if negb (String.eqb (Client.clientSecret client) clientSecret)
      then throw (AppError "Secret client invalide" 401
                           AuthErrorCodes.INVALID_CLIENT_CREDENTIALS)
      else if negb (existsb (String.eqb redirectUri)
                            (Client.redirectUris client))
      then throw (AppError "URI de redirection non autorisée" 400
                           AuthErrorCodes.INVALID_REDIRECT_URI)
      else
        user ← DbServiceClient.getUserById ctx (Client.ownerId client);
        if negb (User.active user)
        then throw (AppError "Utilisateur non trouvé ou inactif" 401
                             AuthErrorCodes.UNAUTHORIZED)
        else
          accessToken ← generateAccessToken ctx user;
          refreshToken ← generateRefreshToken ctx (User.id user)
                            (Some (Client.id client));
          idToken ← generateIdToken ctx user (Client.clientId client) None;
          mret (mkTokenResponse true accessToken refreshToken idToken
                                "Bearer" 900)
  end.

End AuthService.

(** ** Identity providers *)

(** The JSON a provider's user-info endpoint answers with. *)
Module RawUserInfo.
Record t : Type := mk {
  id : Js string;
  email : Js string;
  verified_email : Js bool;
  email_verified : Js bool;
  given_name : Js string;
  family_name : Js string;
  name : Js string;
  picture : Js string;
  avatar_url : Js string
}.
End RawUserInfo.

Module GithubEmail.
Record t : Type := mk {
  email : Js string;
  primary : bool;
  verified : bool
}.
End GithubEmail.

(** The body of a provider's token endpoint. *)
Module ProviderTokens.
Record t : Type := mk {
  access_token : Js Token;
  refresh_token : Js Token;
  expires_in : Js Z
}.
End ProviderTokens.

(** A key of the hosted platform's published key set; [x5c] is the
    material of its first certificate, when it has one. *)
Module Jwk.
Record t : Type := mk {
  kid : string;
  x5c : option N
}.
End Jwk.

(** The providers as seen over HTTP: each endpoint answers with a body
    or fails ([None]). *)
Module Providers.
Record t : Type := mk {
  token_endpoint : string -> string -> string -> option ProviderTokens.t;
  userinfo_endpoint : string -> Js Token -> option RawUserInfo.t;
  github_emails : Js Token -> option (list GithubEmail.t);
  auth0_jwks : option (list Jwk.t);
  auth0_userinfo : Token -> option RawUserInfo.t
}.
End Providers.

(** A property interpolated into a URL or a template string. *)
Definition js_to_string (s : Js string) : string :=
  match s with
  | undefined => "undefined"
  | null => "null"
  | val s => s
  end.

(** A property as [JSON.stringify] sends it in a body whose receiver
    wants a string. *)
Definition sent_string (s : Js string) : option string :=
  match s with
  | val s => Some s
  | _ => None
  end.

(** ** The result of a federated login

    Both federated flows answer with an object of the same shape; the
    generic flow adds a [tokenData] property, which the hosted-platform
    flow does not have ([None]). The [rawData] property of a normalized
    identity is not part of any result and is left out. *)
Module Federated.

(** The [tokenData] property: what the provider's token endpoint
    issued. *)
Record TokenData : Type := mkTokenData {
  td_accessToken : Js Token;
  td_refreshToken : Js Token;
  td_expiresIn : Js Z
}.

Record AuthResult : Type := mkAuthResult {
  success : bool;
  accessToken : Token;
  refreshToken : string;
  user : User.t;
  provider : string;
  tokenData : option TokenData
}.

(** The provider-issued tokens that a result carries. *)
Definition provider_tokens (r : AuthResult) : list (Js Token) :=
  match tokenData r with
  | Some td => [td_accessToken td; td_refreshToken td]
  | None => []
  end.

End Federated.

(** ** [OAuthService] ([services/oauth.service.js]) *)

Module OAuthService.

(** The normalized identity built by [normalizeUserInfo]. *)
Record OAuthUser : Type := mkOAuthUser {
  providerId : Js string;
  provider : string;
  email : Js string;
  emailVerified : bool;
  firstName : Js string;
  lastName : Js string;
  picture : Js string
}.

Record ProviderConfig : Type := mkConfig {
  clientId : option string;
  clientSecret : option string
}.

(** [this.providers[provider]] *)
Definition providers (env : Env.t) (provider : string)
  : option ProviderConfig :=
  if String.eqb provider "google"
  then Some (mkConfig (Env.GOOGLE_CLIENT_ID env)
                      (Env.GOOGLE_CLIENT_SECRET env))
  else if String.eqb provider "github"
  then Some (mkConfig (Env.GITHUB_CLIENT_ID env)
                      (Env.GITHUB_CLIENT_SECRET env))
  else None.

Definition set (v : option string) : bool :=
  match v with
  | Some s => negb (String.eqb s "")
  | None => false
  end.

(** The [state] parameter is kept for the signature and not used. *)
Definition exchangeCodeForToken (ctx : Ctx.t) (net : Providers.t)
    (provider code redirectUri state : string) : M ProviderTokens.t :=
  match providers (Ctx.env ctx) provider with
  | Some config =>
      if set (clientId config) && set (clientSecret config)
      then
        match Providers.token_endpoint net provider code redirectUri with
        | Some data => mret data
        | None =>
            throw (AppError ("Erreur d'authentification " +:+ provider)
                            400 "OAUTH_TOKEN_EXCHANGE_ERROR")
        end
      else throw (AppError ("Provider " +:+ provider +:+ " non configuré")
                           400 "PROVIDER_NOT_CONFIGURED")
  | None => throw (AppError ("Provider " +:+ provider +:+ " non configuré")
                            400 "PROVIDER_NOT_CONFIGURED")
  end.

Definition normalizeUserInfo (provider : string)
    (rawUserInfo : RawUserInfo.t) : OAuthUser :=
  let providerId :=
    match RawUserInfo.id rawUserInfo with
    | val i => val i
    | _ => undefined
    end in
  if String.eqb provider "google"
  then mkOAuthUser providerId provider (RawUserInfo.email rawUserInfo)
         (or_false (RawUserInfo.verified_email rawUserInfo))
         (RawUserInfo.given_name rawUserInfo)
         (RawUserInfo.family_name rawUserInfo)
         (RawUserInfo.picture rawUserInfo)
  else if String.eqb provider "github"
  then
    let '(first, last) :=
      if truthy (RawUserInfo.name rawUserInfo)
      then
        let name := js_to_string (RawUserInfo.name rawUserInfo) in
        (val (before_space name), js_or (val (after_space name)) null)
      else (null, null) in
    mkOAuthUser providerId provider (RawUserInfo.email rawUserInfo)
         (or_false (RawUserInfo.email_verified rawUserInfo))
         first last (RawUserInfo.avatar_url rawUserInfo)
  else mkOAuthUser providerId provider (RawUserInfo.email rawUserInfo)
         false null null null.

Definition with_email (email : Js string) (verified : Js bool)
    (u : RawUserInfo.t) : RawUserInfo.t :=
  RawUserInfo.mk (RawUserInfo.id u) email (RawUserInfo.verified_email u)
    verified (RawUserInfo.given_name u) (RawUserInfo.family_name u)
    (RawUserInfo.name u) (RawUserInfo.picture u) (RawUserInfo.avatar_url u).

(** [emails[0]?.email] *)
Definition first_email (emails : list GithubEmail.t) : Js string :=
  match emails with
  | e :: _ => GithubEmail.email e
  | [] => undefined
  end.

Definition github_with_emails (net : Providers.t) (accessToken : Js Token)
    (userInfo : RawUserInfo.t) : RawUserInfo.t :=
  match Providers.github_emails net accessToken with
  | Some emails =>
      match List.find (fun e => GithubEmail.primary e
                                && GithubEmail.verified e) emails with
      | Some primaryEmail =>
          with_email (js_or (GithubEmail.email primaryEmail)
                            (first_email emails))
                     (val true) userInfo
      | None => with_email (first_email emails) (val false) userInfo
      end
  | None => with_email (RawUserInfo.email userInfo) (val false) userInfo
  end.

Definition getUserInfo (ctx : Ctx.t) (net : Providers.t)
    (provider : string) (accessToken : Js Token) : M OAuthUser :=
  match providers (Ctx.env ctx) provider,
        Providers.userinfo_endpoint net provider accessToken with
  | Some _, Some userInfo =>
      let userInfo :=
        if String.eqb provider "github"
        then github_with_emails net accessToken userInfo
        else userInfo in
      mret (normalizeUserInfo provider userInfo)
  | _, _ =>
      throw (AppError ("Erreur récupération données " +:+ provider) 500
                      "OAUTH_USERINFO_ERROR")
  end.

Definition update_payload (oauthUser : OAuthUser) : UserPayload.t :=
  UserPayload.mk None None (firstName oauthUser) (lastName oauthUser)
    (picture oauthUser) None None (val (provider oauthUser))
    (providerId oauthUser) None None.

Definition new_user_payload (oauthUser : OAuthUser) (password : string)
  : UserPayload.t :=
  UserPayload.mk (sent_string (email oauthUser)) (Some password)
    (firstName oauthUser) (lastName oauthUser) (picture oauthUser)
    (Some (emailVerified oauthUser)) None (val (provider oauthUser))
    (providerId oauthUser) None None.

Definition syncOAuthUser (ctx : Ctx.t) (oauthUser : OAuthUser) : M User.t :=
  try_catch (
    let email := js_to_string (email oauthUser) in
    localUser ← DbServiceClient.null_on_404
                  (DbServiceClient.getUserByEmail ctx email);
    match localUser with
    | None =>
        n ← draw;
        DbServiceClient.createUser ctx
          (new_user_payload oauthUser (Ctx.generatePassword ctx n))
    | Some localUser =>
        DbServiceClient.updateUser ctx (User.id localUser)
                                   (update_payload oauthUser)
    end)
    (fun _ =>
       throw (AppError "Erreur interne lors de la synchronisation du compte"
                       500 "OAUTH_SYNC_ERROR")).

Definition authenticateWithProvider (ctx : Ctx.t) (net : Providers.t)
    (provider code state : string) : M Federated.AuthResult :=
  logged (
    let redirectUri :=
      default "undefined" (Env.FRONTEND_URL (Ctx.env ctx))
      +:+ "/auth/callback/" +:+ provider in
    tokenData ← exchangeCodeForToken ctx net provider code redirectUri state;
    userInfo ← getUserInfo ctx net provider
                 (ProviderTokens.access_token tokenData);
    if negb (truthy (email userInfo))
    then throw (AppError "Email requis pour l'authentification" 400
                         "EMAIL_REQUIRED")
    else
      localUser ← syncOAuthUser ctx userInfo;
      accessToken ← generateAccessToken ctx localUser;
      refreshToken ← generateRefreshToken ctx (User.id localUser) None;
      mret (Federated.mkAuthResult true accessToken refreshToken localUser
              provider
              (Some (Federated.mkTokenData
                       (ProviderTokens.access_token tokenData)
                       (ProviderTokens.refresh_token tokenData)
                       (ProviderTokens.expires_in tokenData))))).

(** The fixed part of [this.providers]: authorization URL and scope. *)
Definition endpoints (provider : string) : option (string * string) :=
  if String.eqb provider "google"
  then Some ("https://accounts.google.com/o/oauth2/v2/auth",
             "openid profile email")
  else if String.eqb provider "github"
  then Some ("https://github.com/login/oauth/authorize", "user:email")
  else None.

(** The property names that every object inherits from
    [Object.prototype]: [name in this.providers] holds for them, and
    [this.providers[name]] is an inherited value without [clientId]. *)
Definition object_prototype_names : list string :=
  ["constructor"; "__defineGetter__"; "__defineSetter__"; "hasOwnProperty";
   "__lookupGetter__"; "__lookupSetter__"; "isPrototypeOf";
   "propertyIsEnumerable"; "toString"; "valueOf"; "__proto__";
   "toLocaleString"].

Definition generateAuthUrl (ctx : Ctx.t) (provider : string)
    (state : Js string) : Result string :=
  match providers (Ctx.env ctx) provider, endpoints provider with
  | Some config, Some (authUrl, scope) =>
      match clientId config with
      | Some client_id =>
          if String.eqb client_id ""
          then Throw (AppError ("Provider " +:+ provider +:+ " non configuré")
                               400 "PROVIDER_NOT_CONFIGURED")
          else
            let redirectUri :=
              default "undefined" (Env.FRONTEND_URL (Ctx.env ctx))
              +:+ "/auth/callback/" +:+ provider in
            let params :=
              List.app
                [("client_id", client_id); ("redirect_uri", redirectUri);
                 ("scope", scope); ("response_type", "code");
                 ("state", js_to_string state)]
                (if String.eqb provider "google"
                 then [("access_type", "offline"); ("prompt", "consent")]
                 else []) in
            Ok (authUrl +:+ "?" +:+ form_serialize params)
      | None =>
          Throw (AppError ("Provider " +:+ provider +:+ " non configuré")
                          400 "PROVIDER_NOT_CONFIGURED")
      end
  | _, _ =>
      Throw (AppError ("Provider " +:+ provider +:+ " non configuré")
                      400 "PROVIDER_NOT_CONFIGURED")
  end.

(** The value of [a && b && a === b] and of
    [name in providers && providers[name].clientId]: the operand at which
    the conjunction stopped, or the outcome of its last operand. *)
Inductive Conjunction : Type :=
| StoppedAt (operand : Js string)
| IsFalse
| Holds (value : Js string)
| Equal (b : bool).

Definition is_truthy (c : Conjunction) : bool :=
  match c with
  | StoppedAt _ => false
  | IsFalse => false
  | Holds v => truthy v
  | Equal b => b
  end.

Definition validateState (state storedState : Js string) : Conjunction :=
  if negb (truthy state) then StoppedAt state
  else if negb (truthy storedState) then StoppedAt storedState
  else Equal (String.eqb (js_to_string state) (js_to_string storedState)).

Definition isProviderSupported (ctx : Ctx.t) (provider : string)
  : Conjunction :=
  match providers (Ctx.env ctx) provider with
  | Some config =>
      Holds (match clientId config with
             | Some c => val c
             | None => undefined
             end)
  | None =>
      if existsb (String.eqb provider) object_prototype_names
      then Holds undefined
      else IsFalse
  end.

(** [getProvidersStatus]: the [configured] flag of each provider, in the
    order of the table. *)
Definition getProvidersStatus (ctx : Ctx.t) : list (string * bool) :=
  List.map
    (fun provider =>
       (provider,
        match providers (Ctx.env ctx) provider with
        | Some config => set (clientId config) && set (clientSecret config)
        | None => false
        end))
    ["google"; "github"].

End OAuthService.

(** ** The jsonwebtoken library, as [Auth0Service] relies on it *)

Module JsonWebToken.

(** [jwt.decode(token, { complete: true })]: [null] unless the token is
    well formed. (The library throws a [SyntaxError] instead of answering
    [null] for a three-part token whose header says [typ: JWT] and whose
    payload is no JSON; the token type does not tell such a token from
    other ill-formed ones, and no statement below rests on the answer for
    ill-formed tokens being [null] rather than an error.) *)
Definition decode (token : Token) : option (Header.t * Claims.t) :=
  match token with
  | Compact h p _ => Some (h, p)
  | _ => None
  end.

(** An expected audience or issuer that is unset or empty is not
    checked. *)
Definition option_matches (expected actual : option string) : bool :=
  match expected with
  | Some e => if String.eqb e "" then true else bool_decide (actual = Some e)
  | None => true
  end.

(** [jwt.verify(token, key, { algorithms: ['RS256'], audience, issuer })]
    with the certificate [key]: the algorithm, then the signature, then
    the expiry, then audience and issuer. A single audience is
    modelled, and tokens are taken to carry no [nbf] claim, which the
    claims record does not have. *)
Definition verify (now_ms : Z) (token : Token) (key : N)
    (audience issuer : option string) : Result Claims.t :=
  match token with
  | Compact h p signer =>
      if negb (bool_decide (Header.alg h = Some "RS256"))
      then Throw (JwtLibError "JsonWebTokenError")
      else if negb (bool_decide (signer = Some key))
      then Throw (JwtLibError "JsonWebTokenError")
      else if match Claims.exp p with
              | Some e => e <=? now_ms / 1000
              | None => false
              end
      then Throw (JwtLibError "TokenExpiredError")
      else if negb (option_matches audience (Claims.aud p))
      then Throw (JwtLibError "JsonWebTokenError")
      else if negb (option_matches issuer (Claims.iss p))
      then Throw (JwtLibError "JsonWebTokenError")
      else Ok p
  | _ => Throw (JwtLibError "JsonWebTokenError")
  end.

End JsonWebToken.

(** ** [Auth0Service] ([services/auth0.service.js]) *)

Module Auth0Service.

Definition issuer (env : Env.t) : string :=
  "https://" +:+ default "undefined" (Env.AUTH0_DOMAIN env) +:+ "/".

Definition verifyAuth0Token (ctx : Ctx.t) (net : Providers.t)
    (token : Token) : M Claims.t :=
  try_catch (
    match Providers.auth0_jwks net with
    | None => throw (AxiosError None)
    | Some keys =>
        match JsonWebToken.decode token with
        | None =>
            throw (AppError "Token invalide" 401 AuthErrorCodes.TOKEN_INVALID)
        | Some (header, _) =>
            match truthy_kid header with
            | None =>
                throw (AppError "Token invalide" 401
                                AuthErrorCodes.TOKEN_INVALID)
            | Some kid =>
                match List.find (fun k => String.eqb (Jwk.kid k) kid) keys
                with
                | None =>
                    throw (AppError "Clé de signature introuvable" 401
                                    AuthErrorCodes.TOKEN_INVALID)
                | Some key =>
                    match Jwk.x5c key with
                    | None => throw (JsError "Cannot read properties of undefined")
                    | Some publicKey =>
                        Jose.lift (JsonWebToken.verify (Ctx.now ctx) token
                                     publicKey
                                     (Env.AUTH0_AUDIENCE (Ctx.env ctx))
                                     (Some (issuer (Ctx.env ctx))))
                    end
                end
            end
        end
    end)
    (fun error =>
       if bool_decide (error_name error = Some "TokenExpiredError")
       then throw (AppError "Token expiré" 401 AuthErrorCodes.TOKEN_EXPIRED)
       else if bool_decide (error_name error = Some "JsonWebTokenError")
       then throw (AppError "Token invalide" 401 AuthErrorCodes.TOKEN_INVALID)
       else throw error).

Definition getAuth0UserInfo (net : Providers.t) (accessToken : Token)
  : M RawUserInfo.t :=
  match Providers.auth0_userinfo net accessToken with
  | Some data => mret data
  | None =>
      throw (AppError "Impossible de récupérer les informations utilisateur"
                      500 "AUTH0_USERINFO_ERROR")
  end.

(** [auth0User.name?.split(' ')[0]] and
    [auth0User.name?.split(' ').slice(1).join(' ')] *)
Definition name_head (name : Js string) : Js string :=
  match name with
  | val n => val (before_space n)
  | _ => undefined
  end.

Definition name_tail (name : Js string) : Js string :=
  match name with
  | val n => val (after_space n)
  | _ => undefined
  end.

(** The [userData] object, which both the update and the creation
    spread into their request body. *)
Definition userData (email : string) (auth0User : RawUserInfo.t)
  : UserPayload.t :=
  UserPayload.mk
    (Some email)
    None
    (js_or (RawUserInfo.given_name auth0User)
           (js_or (name_head (RawUserInfo.name auth0User)) (val email)))
    (js_or (RawUserInfo.family_name auth0User)
           (js_or (name_tail (RawUserInfo.name auth0User)) (val "User")))
    (js_or (RawUserInfo.picture auth0User) null)
    (Some (or_false (RawUserInfo.email_verified auth0User)))
    (Some ["USER"])
    undefined undefined None None.

Definition with_updatedAt (t : Z) (p : UserPayload.t) : UserPayload.t :=
  UserPayload.mk (UserPayload.email p) (UserPayload.password p)
    (UserPayload.firstName p) (UserPayload.lastName p)
    (UserPayload.picture p) (UserPayload.emailVerified p)
    (UserPayload.roles p) (UserPayload.provider p)
    (UserPayload.providerId p) (UserPayload.active p) (Some t).

Definition with_password (pw : string) (p : UserPayload.t)
  : UserPayload.t :=
  UserPayload.mk (UserPayload.email p) (Some pw)
    (UserPayload.firstName p) (UserPayload.lastName p)
    (UserPayload.picture p) (UserPayload.emailVerified p)
    (UserPayload.roles p) (UserPayload.provider p)
    (UserPayload.providerId p) (Some true) (UserPayload.updatedAt p).

(** The [catch] block logs [{ err: error, email }], but [email] is a
    [const] of the [try] block and is not in scope there: evaluating it
    throws a [ReferenceError], which replaces the caught error. *)
Definition syncAuth0User (ctx : Ctx.t) (auth0User : RawUserInfo.t)
  : M User.t :=
  try_catch (
    if negb (truthy (RawUserInfo.email auth0User))
    then throw (AppError "Email requis pour la synchronisation" 400
                         "SYNC_ERROR")
    else
      let email := js_to_string (RawUserInfo.email auth0User) in
      user ← catch_null (DbServiceClient.getUserByEmail ctx email);
      let userData := userData email auth0User in
      match user with
      | Some user =>
          DbServiceClient.updateUser ctx (User.id user)
            (with_updatedAt (Ctx.now ctx) userData)
      | None =>
          n ← draw;
          DbServiceClient.createUser ctx
            (with_password (Ctx.generatePassword ctx n) userData)
      end)
    (fun _ => throw (JsError "email is not defined")).

Definition authenticateWithAuth0 (ctx : Ctx.t) (net : Providers.t)
    (auth0Token : Token) : M Federated.AuthResult :=
  logged (
    auth0Payload ← verifyAuth0Token ctx net auth0Token;
    userInfo ← getAuth0UserInfo net auth0Token;
    localUser ← syncAuth0User ctx userInfo;
    accessToken ← generateAccessToken ctx localUser;
    refreshToken ← generateRefreshToken ctx (User.id localUser) None;
    mret (Federated.mkAuthResult true accessToken refreshToken localUser
            "auth0" None)).

(** A JavaScript number that may be [NaN]. *)
Inductive JsNumber : Type :=
| NaN
| Num (z : Z).

(** [this.managementToken] and [this.managementTokenExpiry]; both start
    as [null]. *)
Record ManagementCache : Type := mkCache {
  managementToken : Js string;
  managementTokenExpiry : option JsNumber
}.

Definition empty_cache : ManagementCache := mkCache null None.

(** The body that the platform's token endpoint answers to the
    client-credentials request. *)
Record ManagementGrant : Type := mkGrant {
  grant_access_token : Js string;
  grant_expires_in : Js Z
}.

(** [expiry > Date.now()], with [null] counting as zero and [NaN]
    comparing false. *)
Definition later_than (expiry : option JsNumber) (now : Z) : bool :=
  match expiry with
  | None => now <? 0
  | Some NaN => false
  | Some (Num e) => now <? e
  end.

(** [Date.now() + (expires_in - 300) * 1000] *)
Definition expiry_with_margin (now : Z) (expires_in : Js Z) : JsNumber :=
  match expires_in with
  | undefined => NaN
  | null => Num (now + (0 - 300) * 1000)
  | val n => Num (now + (n - 300) * 1000)
  end.

(** [getManagementToken]: [endpoint] is what the token request would be
    answered with, [None] standing for its failure. *)
Definition getManagementToken (now : Z) (endpoint : option ManagementGrant)
    (cache : ManagementCache) : Result (Js string) * ManagementCache :=
  if truthy (managementToken cache)
     && later_than (managementTokenExpiry cache) now
  then (Ok (managementToken cache), cache)
  else
    match endpoint with
    | Some data =>
        (Ok (grant_access_token data),
         mkCache (grant_access_token data)
                 (Some (expiry_with_margin now (grant_expires_in data))))
    | None =>
        (Throw (AppError "Erreur de communication avec Auth0" 500
                         "AUTH0_ERROR"), cache)
    end.

End Auth0Service.

(** ** [middlewares/auth.js] *)

Module AuthMiddleware.

(** The [Authorization] header of a request: missing, not starting with
    ['Bearer '], or a bearer header whose second space-separated part
    decodes as [token]. *)
Inductive Authorization : Type :=
| NoHeader
| OtherScheme (header : string)
| Bearer (token : Token).

(** [req.user] *)
Record ReqUser : Type := mkReqUser {
  id : option string;
  email : option string;
  roles : list string
}.

(** What a middleware hands on: [next()] with [req.user] set, or
    [next(error)]. *)
Inductive Next : Type :=
| Continue (user : ReqUser)
| Fails (error : Exn).

Definition authenticate (ctx : Ctx.t) (authorization : Authorization)
  : M Next :=
  try_catch (
    match authorization with
    | Bearer token =>
        payload ← verifyAccessToken_without_client ctx token;
        mret (Continue (mkReqUser (Claims.sub payload) (Claims.email payload)
                                  (default [] (Claims.roles payload))))
    | _ =>
        throw (AppError "Token d'authentification requis" 401
                        AuthErrorCodes.TOKEN_REQUIRED)
    end)
    (fun error =>
       if bool_decide (error_name error = Some "TokenExpiredError")
       then mret (Fails (AppError "Token expiré" 401
                                  AuthErrorCodes.TOKEN_EXPIRED))
       else if bool_decide (error_name error = Some "JsonWebTokenError")
       then mret (Fails (AppError "Token invalide" 401
                                  AuthErrorCodes.TOKEN_INVALID))
       else mret (Fails error)).

(** [authorize(requiredRoles)] applied to a request; [None] is
    [next()]. *)
Definition authorize (requiredRoles : list string) (user : option ReqUser)
  : option Exn :=
  match user with
  | None => Some (AppError "Non authentifié" 401 AuthErrorCodes.UNAUTHORIZED)
  | Some user =>
      if existsb (fun role => existsb (String.eqb role) (roles user))
                 requiredRoles
      then None
      else Some (AppError "Permissions insuffisantes" 403
                          AuthErrorCodes.INSUFFICIENT_PERMISSIONS)
  end.

End AuthMiddleware.

(** * Vocabulary of the properties *)

(** The link to the store is up for every call. *)
Definition healthy (ctx : Ctx.t) : Prop :=
  forall op, Ctx.outage ctx op = None.

(** The same context at another instant. *)
Definition at_time (t : Z) (ctx : Ctx.t) : Ctx.t :=
  Ctx.mk (Ctx.env ctx) t (Ctx.outage ctx) (Ctx.randomBytes ctx)
         (Ctx.generatePassword ctx) (Ctx.zone ctx).

(** The key identifier that [verifyAccessToken] reads in the unverified
    header, when there is a usable one. *)
Definition header_kid (token : Token) : option string :=
  match decode_header token with
  | Ok h => truthy_kid h
  | Throw _ => None
  end.

(** A small deployment used to exercise the statements: two users, a
    retired and an active signing key, and one live refresh token. *)
Module Sample.

Definition env : Env.t :=
  Env.mk (Some "https://auth.example") (Some "https://app.example")
         None None (Some "google-client") (Some "google-secret")
         None None (Some "tenant.example") None.

(** A zone one hour ahead of UTC all year. *)
Definition zone : Zone.t := Zone.mk (fun _ => 3600000) (fun _ => 3600000).

Definition ctx : Ctx.t :=
  Ctx.mk env 1700000000000 (fun _ => None)
         (fun n => "rt-" +:+ pretty n) (fun n => "pw-" +:+ pretty n) zone.

Definition alice : User.t :=
  User.mk "u1" "alice@example.org" ["USER"; "ADMIN"] true (Some "Alice")
          (Some "Martin") None true None None None.

Definition bob : User.t :=
  User.mk "u2" "bob@example.org" ["USER"] false (Some "Bob") None None
          false None None None.

Definition retired_key : KeyPair.t :=
  KeyPair.mk "kid-2023" (SpkiPem 7) (Pkcs8Pem 7) "RS256" RETIRED.

Definition active_key : KeyPair.t :=
  KeyPair.mk "kid-2024" (SpkiPem 9) (Pkcs8Pem 9) "RS256" ACTIVE.

Definition live_record : RefreshToken.t :=
  RefreshToken.mk "rt-live" "u1" (Some "web") 1700000500000 None.

Definition store : Store.t :=
  Store.mk [alice; bob] {[ "u1" := "correct horse" ]}
           [retired_key; active_key] {[ "rt-live" := live_record ]} 3.

Definition world : World.t := World.mk store 0.

(** A token whose header names a key that the directory does not
    hold. *)
Definition stray_token : Token :=
  Compact (Header.mk (Some "RS256") (Some "kid-1999") (Some "JWT"))
          (access_claims alice) (Some 3%N).

End Sample.

(** A key pair whose two halves are importable and belong together
    (both hold the material [m]), for a supported algorithm and under a
    non-empty identifier. *)
Definition well_formed_key (kp : KeyPair.t) (m : N) : Prop :=
  KeyPair.privateKey kp = Pkcs8Pem m
  /\ KeyPair.publicKey kp = SpkiPem m
  /\ Jose.supported (KeyPair.algorithm kp) = true
  /\ KeyPair.kid kp <> "".

(** The key pair that the directory holds as active, and the one it
    holds under an identifier. *)
Definition active_key_of (s : Store.t) : option KeyPair.t :=
  List.find is_active_key (Store.keys s).

Definition key_of_kid (kid : string) (s : Store.t) : option KeyPair.t :=
  List.find (fun kp => String.eqb (KeyPair.kid kp) kid) (Store.keys s).

(** The configured lifetime of an access token, in seconds. *)
Definition access_ttl (ctx : Ctx.t) : option Z :=
  Jose.secs (env_or (Env.ACCESS_TOKEN_EXPIRES_IN (Ctx.env ctx)) "15m").

(** The claims that this service signs into an access token for [user]
    at the instant of [ctx], for a lifetime of [ttl] seconds. *)
Definition issued_access_claims (ctx : Ctx.t) (user : User.t) (ttl : Z)
  : Claims.t :=
  Claims.mk (Some (User.id user)) (Some (User.email user))
            (Some (User.roles user)) (Some "openid profile email") None
            (Env.API_URL (Ctx.env ctx)) (Env.FRONTEND_URL (Ctx.env ctx))
            (Some (Jose.epoch (Ctx.now ctx)))
            (Some (Jose.epoch (Ctx.now ctx) + ttl)).

(** What [jwtVerify] requires of the claims at the instant of [ctx]:
    matching issuer and audience, then an expiry in the future. *)
Definition issuer_ok (ctx : Ctx.t) (p : Claims.t) : bool :=
  Jose.claim_matches (Env.API_URL (Ctx.env ctx)) (Claims.iss p).

Definition audience_ok (ctx : Ctx.t) (p : Claims.t) : bool :=
  Jose.claim_matches (Env.FRONTEND_URL (Ctx.env ctx)) (Claims.aud p).

Definition unexpired (ctx : Ctx.t) (p : Claims.t) : bool :=
  match Claims.exp p with
  | Some e => negb (e <=? Jose.epoch (Ctx.now ctx))
  | None => true
  end.

(** The service can sign at [ctx]: the store has an active key pair with
    an importable private half for a supported algorithm, and the
    configured access-token lifetime is readable. *)
Definition can_sign (ctx : Ctx.t) (s : Store.t) : Prop :=
  exists kp m ttl,
    active_key_of s = Some kp
    /\ KeyPair.privateKey kp = Pkcs8Pem m
    /\ Jose.supported (KeyPair.algorithm kp) = true
    /\ access_ttl ctx = Some ttl.

(** The expiry instant that [generateRefreshToken] computes at [ctx]. *)
Definition refresh_expiry (ctx : Ctx.t) : Result Z :=
  days_from_now (Ctx.zone ctx) (Ctx.now ctx)
    (parseInt (remove_first "d"
       (env_or (Env.REFRESH_TOKEN_EXPIRES_IN (Ctx.env ctx)) "7d"))).

(** The value of the next refresh token generated in [w]. *)
Definition next_token (ctx : Ctx.t) (w : World.t) : string :=
  Ctx.randomBytes ctx (World.draws w).

(** The world [w] with other refresh-token records and draw count. *)
Definition with_tokens (m : gmap string RefreshToken.t) (n : nat)
    (w : World.t) : World.t :=
  World.mk (set_refreshTokens m (World.store w)) n.

(** A refresh token is live in [w] at [ctx] when [verifyRefreshToken]
    accepts it. *)
Definition live (ctx : Ctx.t) (w : World.t) (token : string) : Prop :=
  exists r, outcome (verifyRefreshToken ctx token w) = Ok r.

(** The deployment of [ctx] while the store refuses to record new
    refresh tokens, with status [st], and answers every other call,
    revocations included. *)
Definition creation_down (st : option Z) (ctx : Ctx.t) : Ctx.t :=
  Ctx.mk (Ctx.env ctx) (Ctx.now ctx)
         (fun op => match op with
                    | OpCreateRefreshToken => Some st
                    | _ => None
                    end)
         (Ctx.randomBytes ctx) (Ctx.generatePassword ctx) (Ctx.zone ctx).

(** The sample deployment while the store refuses revocations. *)
Definition revocation_down : Ctx.t :=
  Ctx.mk (Ctx.env Sample.ctx) (Ctx.now Sample.ctx)
         (fun op => match op with
                    | OpRevokeRefreshToken => Some (Some 503)
                    | _ => None
                    end)
         (Ctx.randomBytes Sample.ctx) (Ctx.generatePassword Sample.ctx)
         (Ctx.zone Sample.ctx).

(** Tokens of the sample deployment.
    [access_token] is the access token issued to Alice at the sample
    instant; it expires 900 seconds later.
    [world_before] is the deployment before its key rotation, when the
    key ["kid-2023"] was the active one, and [old_email_token] the
    email-verification token issued to Alice then, one hour before the
    sample instant; it expires 24 hours after its issuance. *)
Definition access_token : Token :=
  Compact (signing_header Sample.active_key)
          (issued_access_claims Sample.ctx Sample.alice 900) (Some 9%N).

Definition world_before : World.t :=
  World.mk (Store.mk [Sample.alice; Sample.bob] {[ "u1" := "correct horse" ]}
              [KeyPair.mk "kid-2023" (SpkiPem 7) (Pkcs8Pem 7) "RS256" ACTIVE]
              ∅ 3) 0.

Definition old_email_token : Token :=
  Compact (signing_header Sample.retired_key)
          (Claims.mk (Some "u1") None None None (Some "email_verification")
                     (Some "https://auth.example") (Some "https://app.example")
                     (Some 1699996400) (Some 1700082800))
          (Some 7%N).

(** The generic failure of [verifyEmailVerificationToken]. *)
Definition generic_verification_failure : Exn :=
  AppError "Token de vérification invalide ou expiré" 401
           INVALID_VERIFICATION_TOKEN.

(** What the hosted identity platform reports for Alice: her profile,
    without any statement on the verification of her email. *)
Definition auth0_alice : RawUserInfo.t :=
  RawUserInfo.mk (val "auth0|507f1f77") (val "alice@example.org") undefined
                 undefined (val "Alice") (val "Martin") (val "Alice Martin")
                 undefined undefined.

(** What a generic provider reports for Alice, unverified as well. *)
Definition oauth_alice : OAuthService.OAuthUser :=
  OAuthService.mkOAuthUser (val "1042") "github" (val "alice@example.org")
                           false (val "Alice") (val "Martin") null.

(** The email-verified flags of the stored users, in store order. *)
Definition verified_flags (w : World.t) : list bool :=
  List.map User.emailVerified (Store.users (World.store w)).

(** The authentication material of a result is this service's own: the
    access token is one that the active key pair of the store signed for
    the user of the result at [ctx], and the refresh token is the value of
    an unrevoked record that the store holds for that user. *)
Definition own_tokens (ctx : Ctx.t) (after : World.t)
    (r : Federated.AuthResult) : Prop :=
  (exists kp m ttl,
     active_key_of (World.store after) = Some kp
     /\ KeyPair.privateKey kp = Pkcs8Pem m
     /\ Federated.accessToken r
        = Compact (signing_header kp)
                  (issued_access_claims ctx (Federated.user r) ttl) (Some m))
  /\ (exists e,
       Store.refreshTokens (World.store after) !! Federated.refreshToken r
       = Some (RefreshToken.mk (Federated.refreshToken r)
                               (User.id (Federated.user r)) None e None)).

(** The providers of the sample deployment. The generic provider answers
    the code ["good-code"] with an access and a refresh token of its own
    and reports Alice's profile; the hosted platform publishes one key,
    which signed [auth0_token], and reports [auth0_alice]. *)
Definition provider_answer : ProviderTokens.t :=
  ProviderTokens.mk (val (Garbage "ya29.provider-access"))
                    (val (Garbage "1//provider-refresh")) (val 3599).

Definition google_alice : RawUserInfo.t :=
  RawUserInfo.mk (val "1042") (val "alice@example.org") (val true) undefined
                 (val "Alice") (val "Martin") (val "Alice Martin")
                 (val "https://img.example/alice.png") undefined.

Definition auth0_token : Token :=
  Compact (Header.mk (Some "RS256") (Some "tenant-key") (Some "JWT"))
          (Claims.mk (Some "auth0|507f1f77") None None None None
                     (Some "https://tenant.example/") None
                     (Some 1699999000) (Some 1700085400))
          (Some 42%N).

Definition net : Providers.t :=
  Providers.mk
    (fun provider code redirectUri =>
       if String.eqb code "good-code" then Some provider_answer else None)
    (fun provider accessToken => Some google_alice)
    (fun accessToken => None)
    (Some [Jwk.mk "tenant-key" (Some 42%N)])
    (fun accessToken => Some auth0_alice).

(** The sample deployment before any signing key was created. *)
Definition keyless_world : World.t :=
  World.mk (Store.mk [Sample.alice; Sample.bob] {[ "u1" := "correct horse" ]}
              [] ∅ 3) 0.

(** The payload of [verifyEmail]'s update: the verified flag and nothing
    else. *)
Definition confirmation : UserPayload.t :=
  UserPayload.mk None None undefined undefined undefined (Some true) None
                 undefined undefined None None.

(** A registered client of the sample deployment, owned by Alice, and
    the answers of [getClientByClientId]. *)
Definition web_client : Client.t :=
  Client.mk "c1" "web-app" "s3cret" ["https://app.example/cb"]
            ["openid"; "profile"] true "u1".

Definition registry (clientId : string) : Result Client.t :=
  if String.eqb clientId "web-app" then Ok web_client
  else Throw (AxiosError (Some 404)).

(** A deployment whose GitHub application is registered, and one that
    holds the client identifier of its GitHub application but not the
    secret. *)
Definition github_env : Env.t :=
  Env.mk (Some "https://auth.example") (Some "https://app.example")
         None None None None (Some "gh-client") (Some "gh-secret")
         None None.

Definition github_ctx : Ctx.t :=
  Ctx.mk github_env 1700000000000 (fun _ => None)
         (fun n => "rt-" +:+ pretty n) (fun n => "pw-" +:+ pretty n)
         Sample.zone.

(** GitHub answering the code exchange and the profile request, with a
    given answer of its emails endpoint. *)
Definition github_profile : RawUserInfo.t :=
  RawUserInfo.mk (val "583231") (val "public@example.org") undefined
                 (val true) undefined undefined (val "Alice Martin")
                 undefined (val "https://img.example/alice.png").

Definition github_net (emails : option (list GithubEmail.t))
  : Providers.t :=
  Providers.mk
    (fun provider code redirectUri =>
       if String.eqb code "good-code" then Some provider_answer else None)
    (fun provider accessToken => Some github_profile)
    (fun accessToken => emails)
    None
    (fun accessToken => None).

Definition github_addresses : list GithubEmail.t :=
  [GithubEmail.mk (val "old@example.org") false true;
   GithubEmail.mk (val "alice@example.org") true true].

(** The redirect address that the generic flow sends to the provider. *)
Definition callback_uri (ctx : Ctx.t) (provider : string) : string :=
  default "undefined" (Env.FRONTEND_URL (Ctx.env ctx))
  +:+ "/auth/callback/" +:+ provider.

(** The hosted platform answering with a profile that has no email. *)
Definition auth0_nameless : RawUserInfo.t :=
  RawUserInfo.mk (val "auth0|507f1f77") undefined undefined undefined
                 (val "Alice") (val "Martin") (val "Alice Martin")
                 undefined undefined.

Definition net_without_email : Providers.t :=
  Providers.mk
    (fun provider code redirectUri => None)
    (fun provider accessToken => None)
    (fun accessToken => None)
    (Some [Jwk.mk "tenant-key" (Some 42%N)])
    (fun accessToken => Some auth0_nameless).

(** The key of the published set that [verifyAuth0Token] picks for a
    key identifier: the first one that carries it. *)
Definition published_key (net : Providers.t) (kid : string)
  : option Jwk.t :=
  match Providers.auth0_jwks net with
  | Some keys => List.find (fun k => String.eqb (Jwk.kid k) kid) keys
  | None => None
  end.

(** The clock of Paris in 2024: one hour ahead of UTC, two hours from
    31 March, 01:00 UTC, to 27 October, 01:00 UTC. A local time that the
    change of March skips is read with the offset before the change, and
    one that the change of October repeats as its first occurrence. *)
Definition paris_2024 : Zone.t :=
  Zone.mk
    (fun t => if (1711846800000 <=? t) && (t <? 1729990800000)
              then 7200000 else 3600000)
    (fun lt => if (1711854000000 <=? lt) && (lt <? 1729998000000)
               then 7200000 else 3600000).

(** A deployment whose refresh-token lifetime is written in hours, on
    20 March 2024, 10:13:20 UTC, in Paris. *)
Definition hours_ctx : Ctx.t :=
  Ctx.mk (Env.mk (Some "https://auth.example") (Some "https://app.example")
                 None (Some "24h") None None None None None None)
         1710929600000 (fun _ => None)
         (fun n => "rt-" +:+ pretty n) (fun n => "pw-" +:+ pretty n)
         paris_2024.

(** The shapes of a result of [verifyAccessToken]. *)
Inductive access_verdict : Result Claims.t -> Prop :=
| verdict_accepted (claims : Claims.t) : access_verdict (Ok claims)
| verdict_expired (msg : string) :
    access_verdict (Throw (AppError msg 401 AuthErrorCodes.TOKEN_EXPIRED))
| verdict_invalid (msg : string) :
    access_verdict (Throw (AppError msg 401 AuthErrorCodes.TOKEN_INVALID)).

(** * Properties *)

(** ** Running computations *)

Lemma world_eta (w : World.t) : World.mk (World.store w) (World.draws w) = w.
Proof. destruct w; reflexivity. Qed.

Lemma bind_run {A B : Type} (m : M A) (f : A -> M B) (w : World.t) :
  (m ≫= f) w =
  match m w with
  | (Ok a, w') => f a w'
  | (Throw e, w') => (Throw e, w')
  end.
Proof. reflexivity. Qed.

(** One step of a sequence: run the first computation by the equation
    [H] and continue with its result. *)
Ltac run_with H := rewrite bind_run, H; cbv beta iota.

Lemma logged_run {A : Type} (m : M A) (w : World.t) : logged m w = m w.
Proof.
  unfold logged, try_catch, throw.
  destruct (m w) as [[a | e] w']; reflexivity.
Qed.

Lemma healthy_at_time (t : Z) (ctx : Ctx.t) :
  healthy ctx -> healthy (at_time t ctx).
Proof. intros H op; exact (H op). Qed.

Module ClientFacts.
Import DbServiceClient.

Lemma request_read_only {A : Type} (ctx : Ctx.t) (op : DbOp)
    (f : Store.t -> HttpResp A) (w : World.t) :
  Ctx.outage ctx op = None ->
  request ctx op (read_only f) w =
  (match f (World.store w) with
   | Resp a => Ok a
   | Fail st => Throw (AxiosError (Some st))
   end, w).
Proof.
  intros H. unfold request, read_only. rewrite H.
  unfold mbind, M_bind, get_store, put_store, mret, M_ret, throw. simpl.
  destruct (f (World.store w)); simpl; rewrite world_eta; reflexivity.
Qed.

Lemma request_outage {A : Type} (ctx : Ctx.t) (op : DbOp)
    (ep : Store.t -> HttpResp A * Store.t) (w : World.t) (st : option Z) :
  Ctx.outage ctx op = Some st ->
  request ctx op ep w = (Throw (AxiosError st), w).
Proof. intros H. unfold request. rewrite H. reflexivity. Qed.

Lemma request_write {A : Type} (ctx : Ctx.t) (op : DbOp)
    (ep : Store.t -> HttpResp A * Store.t) (w : World.t) :
  Ctx.outage ctx op = None ->
  request ctx op ep w =
  (match fst (ep (World.store w)) with
   | Resp a => Ok a
   | Fail st => Throw (AxiosError (Some st))
   end, World.mk (snd (ep (World.store w))) (World.draws w)).
Proof.
  intros H. unfold request. rewrite H.
  unfold mbind, M_bind, get_store, put_store, mret, M_ret, throw. simpl.
  destruct (ep (World.store w)) as [[a | st] s']; reflexivity.
Qed.

Lemma getRefreshTokenByValue_run (ctx : Ctx.t) (token : string)
    (w : World.t) :
  Ctx.outage ctx OpGetRefreshTokenByValue = None ->
  getRefreshTokenByValue ctx token w =
  (Ok (Store.refreshTokens (World.store w) !! token), w).
Proof.
  intros H. unfold getRefreshTokenByValue, null_on_404, try_catch.
  rewrite bind_run, (request_read_only _ _ _ _ H).
  unfold Endpoint.get_refresh_token.
  destruct (Store.refreshTokens (World.store w) !! token); reflexivity.
Qed.

Lemma getKeyPairByKid_run (ctx : Ctx.t) (kid : string) (w : World.t) :
  Ctx.outage ctx OpGetKeyPairByKid = None ->
  getKeyPairByKid ctx kid w =
  (Ok (List.find (fun kp => String.eqb (KeyPair.kid kp) kid)
                 (Store.keys (World.store w))), w).
Proof.
  intros H. unfold getKeyPairByKid, null_on_404, try_catch.
  rewrite bind_run, (request_read_only _ _ _ _ H).
  unfold Endpoint.get_key_by_kid.
  destruct (List.find _ _); reflexivity.
Qed.

Lemma getActiveKeyPair_run (ctx : Ctx.t) (w : World.t) :
  Ctx.outage ctx OpGetActiveKeyPair = None ->
  getActiveKeyPair ctx w =
  (Ok (List.find is_active_key (Store.keys (World.store w))), w).
Proof.
  intros H. unfold getActiveKeyPair, null_on_404, try_catch.
  rewrite bind_run, (request_read_only _ _ _ _ H).
  unfold Endpoint.get_active_key.
  destruct (List.find _ _); reflexivity.
Qed.

(** Reading calls leave the world as it is, and a call wrapped by
    [null_on_404] throws nothing but HTTP errors. *)
Lemma getKeyPairByKid_cases (ctx : Ctx.t) (kid : string) (w : World.t) :
  (exists r, getKeyPairByKid ctx kid w = (Ok r, w))
  \/ (exists st, getKeyPairByKid ctx kid w = (Throw (AxiosError st), w)).
Proof.
  destruct (Ctx.outage ctx OpGetKeyPairByKid) as [st |] eqn:H.
  - unfold getKeyPairByKid, null_on_404, try_catch.
    rewrite bind_run, (request_outage _ _ _ _ _ H).
    destruct st as [z |]; [| right; exists None; reflexivity].
    destruct (z =? 404) eqn:Hz.
    + left. exists None. reflexivity.
    + right. exists (Some z). reflexivity.
  - left. eexists. apply getKeyPairByKid_run, H.
Qed.

End ClientFacts.

(** ** Refresh-token verification *)

Lemma verifyRefreshToken_run (ctx : Ctx.t) (token : string) (w : World.t) :
  Ctx.outage ctx OpGetRefreshTokenByValue = None ->
  verifyRefreshToken ctx token w =
  (match Store.refreshTokens (World.store w) !! token with
   | None =>
       Throw (AppError "Token de rafraîchissement invalide" 401
                       AuthErrorCodes.INVALID_REFRESH_TOKEN)
   | Some r =>
       if RefreshToken.expiresAt r <? Ctx.now ctx
       then Throw (AppError "Token de rafraîchissement expiré" 401
                            AuthErrorCodes.TOKEN_EXPIRED)
       else if bool_decide (is_Some (RefreshToken.revokedAt r))
       then Throw (AppError "Token de rafraîchissement révoqué" 401
                            AuthErrorCodes.TOKEN_INVALID)
       else Ok r
   end, w).
Proof.
  intros H. unfold verifyRefreshToken.
  rewrite logged_run, bind_run, (ClientFacts.getRefreshTokenByValue_run _ _ _ H).
  destruct (Store.refreshTokens (World.store w) !! token) as [r |];
    [| reflexivity].
  destruct (RefreshToken.expiresAt r <? Ctx.now ctx); [reflexivity |].
  destruct (bool_decide (is_Some (RefreshToken.revokedAt r))); reflexivity.
Qed.

(** The cascade of [verifyRefreshToken] on what the lookup answers: no
    record gives [INVALID_REFRESH_TOKEN]; a record whose expiry is in the
    past gives [TOKEN_EXPIRED]; an unexpired but revoked record gives
    [TOKEN_INVALID]; any other record is returned as it came. *)
Lemma verifyRefreshToken_cascade
    (ctx : Ctx.t) (token : string) (w : World.t)
    (answer : option RefreshToken.t) :
  outcome (DbServiceClient.getRefreshTokenByValue ctx token w) = Ok answer ->
  outcome (verifyRefreshToken ctx token w)
  = match answer with
    | None =>
        Throw (AppError "Token de rafraîchissement invalide" 401
                        AuthErrorCodes.INVALID_REFRESH_TOKEN)
    | Some r =>
        if RefreshToken.expiresAt r <? Ctx.now ctx
        then Throw (AppError "Token de rafraîchissement expiré" 401
                             AuthErrorCodes.TOKEN_EXPIRED)
        else if bool_decide (is_Some (RefreshToken.revokedAt r))
        then Throw (AppError "Token de rafraîchissement révoqué" 401
                             AuthErrorCodes.TOKEN_INVALID)
        else Ok r
    end.
Proof.
  unfold outcome, verifyRefreshToken. rewrite logged_run, bind_run.
  destruct (DbServiceClient.getRefreshTokenByValue ctx token w)
    as [[a | e] w'] eqn:Hget; simpl; [| discriminate].
  intros [= ->]. destruct answer as [r |]; [| reflexivity].
  destruct (RefreshToken.expiresAt r <? Ctx.now ctx); [reflexivity |].
  destruct (bool_decide (is_Some (RefreshToken.revokedAt r))); reflexivity.
Qed.




(** A value put into the path as it is loses everything from its first
    [#] on: two values that differ only there make the same request. *)
Lemma by_token_url_drops_the_fragment (value fragment : string) :
  request_target (by_token_url (value +:+ String "#" fragment))
  = request_target (by_token_url value).
Proof.
  assert (Hcut : request_target (value +:+ String "#" fragment)
                 = request_target value).
  { induction value as [| c value IH]; [reflexivity |].
    change (request_target (String c (value +:+ String "#" fragment))
            = request_target (String c value)).
    cbn [request_target]. rewrite IH. reflexivity. }
  unfold by_token_url.
  transitivity ("/api/v1/refresh-tokens/by-token/"
                +:+ request_target (value +:+ String "#" fragment));
    [reflexivity |].
  rewrite Hcut. reflexivity.
Qed.


(** ** Access-token verification *)

Lemma verifyAccessToken_no_kid (ctx : Ctx.t) (token : Token) (w : World.t) :
  header_kid token = None ->
  verifyAccessToken ctx token w =
  (Throw (AppError "Token invalide" 401 AuthErrorCodes.TOKEN_INVALID), w).
Proof.
  unfold header_kid, verifyAccessToken, try_catch. intros H.
  rewrite bind_run.
  destruct (decode_header token) as [h | e] eqn:Hd.
  - simpl. rewrite H. reflexivity.
  - destruct token; simpl in Hd; try discriminate.
    injection Hd as <-. reflexivity.
Qed.

(** C9. [verifyAccessToken] fails with an [AppError] of kind
    [TOKEN_INVALID] whenever the header carries no usable key identifier,
    or carries one for which the key directory yields no key pair, be it
    because the key is unknown or because the lookup itself fails. *)
Theorem verifyAccessToken_unresolved_kid
    (ctx : Ctx.t) (token : Token) (w : World.t) :
  (header_kid token = None
   \/ exists kid, header_kid token = Some kid
        /\ forall kp, outcome (DbServiceClient.getKeyPairByKid ctx kid w)
                      <> Ok (Some kp)) ->
  exists msg,
    outcome (verifyAccessToken ctx token w)
    = Throw (AppError msg 401 AuthErrorCodes.TOKEN_INVALID).
Proof.
  intros [Hnone | (kid & Hkid & Hno)].
  - rewrite (verifyAccessToken_no_kid _ _ _ Hnone). eexists; reflexivity.
  - unfold header_kid in Hkid.
    destruct (decode_header token) as [h | e] eqn:Hd; [| discriminate].
    unfold verifyAccessToken, try_catch. rewrite bind_run, Hd. simpl.
    rewrite Hkid, bind_run.
    destruct (ClientFacts.getKeyPairByKid_cases ctx kid w)
      as [(r & Hr) | (st & Hr)]; rewrite Hr in *; simpl in *.
    + destruct r as [kp |]; [exfalso; exact (Hno kp eq_refl) |].
      eexists; reflexivity.
    + eexists; reflexivity.
Qed.

Lemma verifyAccessToken_unresolved_kid_witness :
  header_kid Sample.stray_token = Some "kid-1999"
  /\ exists msg,
      outcome (verifyAccessToken Sample.ctx Sample.stray_token Sample.world)
      = Throw (AppError msg 401 AuthErrorCodes.TOKEN_INVALID).
Proof.
  split; [reflexivity |].
  apply (verifyAccessToken_unresolved_kid Sample.ctx Sample.stray_token
                                          Sample.world).
  right. exists "kid-1999". split; [reflexivity |].
  intros kp. vm_compute. discriminate.
Defined.

(** ** Password login *)

Lemma catch_null_run {A : Type} (m : M A) (w : World.t) :
  catch_null m w =
  match m w with
  | (Ok a, w') => (Ok (Some a), w')
  | (Throw _, w') => (Ok None, w')
  end.
Proof.
  unfold catch_null, try_catch. rewrite bind_run.
  destruct (m w) as [[a | e] w']; reflexivity.
Qed.

Lemma getUserByEmail_cases (ctx : Ctx.t) (email : string) (w : World.t) :
  DbServiceClient.getUserByEmail ctx email w
  = (match find_user_by_email email (Store.users (World.store w)) with
     | Some u => Ok u
     | None => Throw (AxiosError (Some 404))
     end, w)
  \/ exists st, DbServiceClient.getUserByEmail ctx email w
               = (Throw (AxiosError st), w).
Proof.
  unfold DbServiceClient.getUserByEmail.
  destruct (Ctx.outage ctx OpGetUserByEmail) as [st |] eqn:H.
  - right. exists st. apply ClientFacts.request_outage, H.
  - left. rewrite (ClientFacts.request_read_only _ _ _ _ H).
    unfold Endpoint.get_user_by_email.
    destruct (find_user_by_email _ _); reflexivity.
Qed.

Lemma find_user_by_id_of_email (email : string) (us : list User.t)
    (u : User.t) :
  find_user_by_email email us = Some u ->
  exists v, find_user_by_id (User.id u) us = Some v.
Proof.
  intros H. apply List.find_some in H as [Hin _].
  destruct (find_user_by_id (User.id u) us) as [v |] eqn:Hv; [eauto |].
  exfalso. apply (List.find_none _ _ Hv) in Hin.
  rewrite String.eqb_refl in Hin. discriminate.
Qed.

(** C6. A login with an email that matches no user and a login with the
    email of an existing active user but a password that is not the
    stored one fail alike: both throw the same [AppError], of kind
    [INVALID_CREDENTIALS], with the same message and status. *)
Theorem login_failures_indistinguishable
    (ctx : Ctx.t) (w : World.t) (unknown known : string)
    (anyPassword wrongPassword : string) (u : User.t) :
  find_user_by_email unknown (Store.users (World.store w)) = None ->
  find_user_by_email known (Store.users (World.store w)) = Some u ->
  User.active u = true ->
  Store.passwords (World.store w) !! User.id u <> Some wrongPassword ->
  Ctx.outage ctx OpVerifyPassword = None ->
  outcome (AuthService.login ctx unknown anyPassword w)
  = Throw (AppError "Email ou mot de passe incorrect" 401
                    AuthErrorCodes.INVALID_CREDENTIALS)
  /\ outcome (AuthService.login ctx known wrongPassword w)
     = outcome (AuthService.login ctx unknown anyPassword w).
Proof.
  intros Hunknown Hknown Hactive Hwrong Hlink.
  assert (Hfirst : outcome (AuthService.login ctx unknown anyPassword w)
                   = Throw (AppError "Email ou mot de passe incorrect" 401
                                     AuthErrorCodes.INVALID_CREDENTIALS)).
  { unfold AuthService.login. rewrite bind_run, catch_null_run.
    destruct (getUserByEmail_cases ctx unknown w) as [H | [st H]];
      rewrite H; [rewrite Hunknown |]; reflexivity. }
  split; [exact Hfirst |]. rewrite Hfirst.
  unfold AuthService.login. rewrite bind_run, catch_null_run.
  destruct (getUserByEmail_cases ctx known w) as [H | [st H]];
    rewrite H; [rewrite Hknown | reflexivity].
  rewrite Hactive. simpl. rewrite bind_run.
  unfold DbServiceClient.verifyPassword.
  rewrite (ClientFacts.request_read_only _ _ _ _ Hlink).
  unfold Endpoint.verify_password.
  destruct (find_user_by_id_of_email _ _ _ Hknown) as [v ->].
  destruct (Store.passwords (World.store w) !! User.id u) as [stored |] eqn:Hp;
    [| reflexivity].
  destruct (String.eqb_spec stored wrongPassword) as [-> | Hne];
    [congruence | reflexivity].
Qed.

Lemma login_failures_indistinguishable_witness :
  outcome (AuthService.login Sample.ctx "alice@example.org" "guess"
                             Sample.world)
  = outcome (AuthService.login Sample.ctx "nobody@example.org" "guess"
                               Sample.world).
Proof.
  apply (login_failures_indistinguishable Sample.ctx Sample.world
           "nobody@example.org" "alice@example.org" "guess" "guess"
           Sample.alice).
  - reflexivity.
  - reflexivity.
  - reflexivity.
  - vm_compute. discriminate.
  - reflexivity.
Defined.

(** ** Issuing and verifying access tokens *)

Lemma jwt_getActiveKeyPair_run (ctx : Ctx.t) (w : World.t) :
  Ctx.outage ctx OpGetActiveKeyPair = None ->
  getActiveKeyPair ctx w = (Ok (active_key_of (World.store w)), w).
Proof.
  intros H. unfold getActiveKeyPair, try_catch.
  rewrite (ClientFacts.getActiveKeyPair_run _ _ H). reflexivity.
Qed.

Lemma generateAccessToken_run (ctx : Ctx.t) (user : User.t) (w : World.t)
    (kp : KeyPair.t) (m : N) (ttl : Z) :
  Ctx.outage ctx OpGetActiveKeyPair = None ->
  active_key_of (World.store w) = Some kp ->
  KeyPair.privateKey kp = Pkcs8Pem m ->
  Jose.supported (KeyPair.algorithm kp) = true ->
  access_ttl ctx = Some ttl ->
  generateAccessToken ctx user w
  = (Ok (Compact (signing_header kp) (issued_access_claims ctx user ttl)
                 (Some m)), w).
Proof.
  intros Hlink Hactive Hpriv Halg Httl.
  unfold generateAccessToken.
  rewrite logged_run, bind_run, (jwt_getActiveKeyPair_run _ _ Hlink), Hactive.
  rewrite bind_run. unfold Jose.importPKCS8. rewrite Hpriv, Halg. simpl.
  unfold Jose.sign. unfold access_ttl in Httl. rewrite Httl. simpl.
  rewrite bool_decide_true by reflexivity. reflexivity.
Qed.

Lemma validate_claims_ok (ctx : Ctx.t) (p : Claims.t) :
  issuer_ok ctx p = true -> audience_ok ctx p = true ->
  unexpired ctx p = true ->
  Jose.validate_claims (Ctx.now ctx) (Env.API_URL (Ctx.env ctx))
                       (Env.FRONTEND_URL (Ctx.env ctx)) p = Ok p.
Proof.
  unfold issuer_ok, audience_ok, unexpired, Jose.validate_claims.
  intros -> -> H. simpl.
  destruct (Claims.exp p) as [e |]; [| reflexivity].
  apply negb_true_iff in H. rewrite H. reflexivity.
Qed.

Lemma verifyAccessToken_accepts (ctx : Ctx.t) (w : World.t) (h : Header.t)
    (p : Claims.t) (m : N) (kid : string) (kp : KeyPair.t) :
  Ctx.outage ctx OpGetKeyPairByKid = None ->
  truthy_kid h = Some kid ->
  key_of_kid kid (World.store w) = Some kp ->
  KeyPair.publicKey kp = SpkiPem m ->
  Jose.supported (KeyPair.algorithm kp) = true ->
  Header.alg h = Some (KeyPair.algorithm kp) ->
  issuer_ok ctx p = true -> audience_ok ctx p = true ->
  unexpired ctx p = true ->
  verifyAccessToken ctx (Compact h p (Some m)) w = (Ok p, w).
Proof.
  intros Hlink Hkid Hkey Hpub Hsup Halg Hiss Haud Hexp.
  unfold verifyAccessToken, try_catch. rewrite bind_run. simpl.
  rewrite Hkid, bind_run, (ClientFacts.getKeyPairByKid_run _ _ _ Hlink).
  unfold key_of_kid in Hkey. rewrite Hkey, bind_run.
  unfold Jose.importSPKI. rewrite Hpub, Hsup. simpl.
  rewrite Halg, bind_run. simpl. rewrite String.eqb_refl. simpl.
  unfold Jose.signature_ok. simpl.
  rewrite bool_decide_true by reflexivity. simpl.
  rewrite (validate_claims_ok _ _ Hiss Haud Hexp). reflexivity.
Qed.

Lemma claim_matches_refl (x : option string) : Jose.claim_matches x x = true.
Proof.
  unfold Jose.claim_matches. destruct x as [e |]; [| reflexivity].
  destruct (String.eqb e ""); apply bool_decide_true; eauto.
Qed.

Lemma truthy_kid_signing_header (kp : KeyPair.t) :
  KeyPair.kid kp <> "" ->
  truthy_kid (signing_header kp) = Some (KeyPair.kid kp).
Proof.
  intros H. unfold truthy_kid, signing_header. simpl.
  destruct (String.eqb_spec (KeyPair.kid kp) ""); [contradiction | reflexivity].
Qed.

(** C2. For every user and for the active key pair of the store (well
    formed, and found by the directory under its own identifier), with a
    readable configured lifetime: issuing an access token succeeds, and
    verifying that token at any instant before its expiry succeeds and
    returns the subject, email and roles of the user it was issued for. *)
Theorem access_token_round_trip
    (ctx : Ctx.t) (w : World.t) (user : User.t) (kp : KeyPair.t) (m : N)
    (ttl later : Z) :
  Ctx.outage ctx OpGetActiveKeyPair = None ->
  Ctx.outage ctx OpGetKeyPairByKid = None ->
  active_key_of (World.store w) = Some kp ->
  well_formed_key kp m ->
  key_of_kid (KeyPair.kid kp) (World.store w) = Some kp ->
  access_ttl ctx = Some ttl ->
  later < (Jose.epoch (Ctx.now ctx) + ttl) * 1000 ->
  exists token claims,
    outcome (generateAccessToken ctx user w) = Ok token
    /\ outcome (verifyAccessToken (at_time later ctx) token w) = Ok claims
    /\ Claims.sub claims = Some (User.id user)
    /\ Claims.email claims = Some (User.email user)
    /\ Claims.roles claims = Some (User.roles user).
Proof.
  intros Hact Hkid Hactive (Hpriv & Hpub & Hsup & Hne) Hdir Httl Hlater.
  exists (Compact (signing_header kp) (issued_access_claims ctx user ttl)
                  (Some m)), (issued_access_claims ctx user ttl).
  split.
  { rewrite (generateAccessToken_run _ _ _ _ _ _ Hact Hactive Hpriv Hsup Httl).
    reflexivity. }
  split; [| repeat split].
  rewrite (verifyAccessToken_accepts (at_time later ctx) w _ _ m
             (KeyPair.kid kp) kp); try assumption; try reflexivity.
  - apply truthy_kid_signing_header, Hne.
  - apply claim_matches_refl.
  - apply claim_matches_refl.
  - unfold unexpired. simpl. apply negb_true_iff, Z.leb_gt.
    unfold Jose.epoch in *. apply Z.div_lt_upper_bound; lia.
Qed.

Lemma access_token_round_trip_witness :
  exists token claims,
    outcome (generateAccessToken Sample.ctx Sample.alice Sample.world)
    = Ok token
    /\ outcome (verifyAccessToken (at_time 1700000899999 Sample.ctx) token
                                  Sample.world) = Ok claims
    /\ Claims.sub claims = Some "u1"
    /\ Claims.email claims = Some "alice@example.org"
    /\ Claims.roles claims = Some ["USER"; "ADMIN"].
Proof.
  apply (access_token_round_trip Sample.ctx Sample.world Sample.alice
           Sample.active_key 9%N 900 1700000899999).
  - reflexivity.
  - reflexivity.
  - reflexivity.
  - repeat split; try reflexivity. vm_compute. discriminate.
  - reflexivity.
  - reflexivity.
  - vm_compute. reflexivity.
Defined.

(** ** Refresh-token rotation *)

Lemma generateAccessToken_succeeds (ctx : Ctx.t) (user : User.t)
    (w : World.t) :
  Ctx.outage ctx OpGetActiveKeyPair = None ->
  can_sign ctx (World.store w) ->
  exists token, generateAccessToken ctx user w = (Ok token, w).
Proof.
  intros Hlink (kp & m & ttl & Hactive & Hpriv & Hsup & Httl).
  eexists. apply (generateAccessToken_run _ _ _ kp m ttl); assumption.
Qed.

Lemma generateRefreshToken_run (ctx : Ctx.t) (userId : string)
    (clientId : option string) (w : World.t) (e : Z) :
  Ctx.outage ctx OpCreateRefreshToken = None ->
  refresh_expiry ctx = Ok e ->
  Store.refreshTokens (World.store w) !! next_token ctx w = None ->
  generateRefreshToken ctx userId clientId w
  = (Ok (next_token ctx w),
     with_tokens
       (<[next_token ctx w :=
            RefreshToken.mk (next_token ctx w) userId clientId e None]>
          (Store.refreshTokens (World.store w)))
       (S (World.draws w)) w).
Proof.
  intros Hlink He Hfresh. unfold generateRefreshToken.
  rewrite logged_run, bind_run. unfold draw at 1. cbv beta iota.
  unfold refresh_expiry in He. rewrite bind_run, He.
  unfold Jose.lift at 1. unfold mret at 1, M_ret at 1. cbv beta iota.
  rewrite bind_run. unfold DbServiceClient.createRefreshToken.
  rewrite (ClientFacts.request_write _ _ _ _ Hlink).
  unfold Endpoint.post_refresh_token. simpl.
  unfold next_token in Hfresh. rewrite Hfresh. reflexivity.
Qed.

Lemma getUserById_run (ctx : Ctx.t) (userId : string) (w : World.t)
    (u : User.t) :
  Ctx.outage ctx OpGetUserById = None ->
  find_user_by_id userId (Store.users (World.store w)) = Some u ->
  DbServiceClient.getUserById ctx userId w = (Ok u, w).
Proof.
  intros Hlink Hu. unfold DbServiceClient.getUserById.
  rewrite (ClientFacts.request_read_only _ _ _ _ Hlink).
  unfold Endpoint.get_user_by_id. rewrite Hu. reflexivity.
Qed.

Lemma revokeRefreshToken_run (ctx : Ctx.t) (token : string) (w : World.t)
    (r : RefreshToken.t) :
  Ctx.outage ctx OpRevokeRefreshToken = None ->
  Store.refreshTokens (World.store w) !! token = Some r ->
  revokeRefreshToken ctx token w
  = (Ok true,
     with_tokens (<[token := Endpoint.revoked (Ctx.now ctx) r]>
                    (Store.refreshTokens (World.store w)))
                 (World.draws w) w).
Proof.
  intros Hlink Hr. unfold revokeRefreshToken, try_catch.
  unfold DbServiceClient.revokeRefreshToken.
  rewrite (ClientFacts.request_write _ _ _ _ Hlink).
  unfold Endpoint.post_revoke. rewrite Hr. reflexivity.
Qed.

(** The revocation step throws nothing: it answers [false] for whatever
    the client throws, and then leaves the world as the client left it. *)
Lemma revokeRefreshToken_swallows (ctx : Ctx.t) (token : string)
    (w w' : World.t) (e : Exn) :
  DbServiceClient.revokeRefreshToken ctx token w = (Throw e, w') ->
  revokeRefreshToken ctx token w = (Ok false, w').
Proof.
  intros H. unfold revokeRefreshToken, try_catch. rewrite H. reflexivity.
Qed.

Lemma revokeRefreshToken_total (ctx : Ctx.t) (token : string) (w : World.t) :
  exists b, outcome (revokeRefreshToken ctx token w) = Ok b.
Proof.
  unfold revokeRefreshToken, try_catch.
  destruct (DbServiceClient.revokeRefreshToken ctx token w) as [[b | e] w'];
    eexists; reflexivity.
Qed.

(** The rotation up to its last step: verification, user lookup, the new
    access token and the new refresh-token record; what remains is the
    revocation of the presented token, whose answer is dropped. *)
Lemma rotation_until_revocation (ctx : Ctx.t) (token : string) (w : World.t)
    (r : RefreshToken.t) (u : User.t) (e' : Z) :
  Ctx.outage ctx OpGetRefreshTokenByValue = None ->
  Ctx.outage ctx OpGetUserById = None ->
  Ctx.outage ctx OpGetActiveKeyPair = None ->
  Ctx.outage ctx OpCreateRefreshToken = None ->
  Store.refreshTokens (World.store w) !! token = Some r ->
  Ctx.now ctx <= RefreshToken.expiresAt r ->
  RefreshToken.revokedAt r = None ->
  find_user_by_id (RefreshToken.userId r) (Store.users (World.store w))
  = Some u ->
  User.active u = true ->
  can_sign ctx (World.store w) ->
  refresh_expiry ctx = Ok e' ->
  Store.refreshTokens (World.store w) !! next_token ctx w = None ->
  exists access,
    AuthService.refreshToken ctx token w
    = let issued :=
        with_tokens
          (<[next_token ctx w :=
               RefreshToken.mk (next_token ctx w) (User.id u)
                               (RefreshToken.clientId r) e' None]>
             (Store.refreshTokens (World.store w)))
          (S (World.draws w)) w in
      (Ok (AuthService.mkRefresh true access (next_token ctx w)),
       world_after (revokeRefreshToken ctx token issued)).
Proof.
  intros Hget Hbyid Hkey Hcreate Hr Hlive Hrev Hu Hactive Hsign He' Hfresh.
  destruct (generateAccessToken_succeeds ctx u w Hkey Hsign) as [access Ha].
  exists access. unfold AuthService.refreshToken.
  rewrite bind_run, (verifyRefreshToken_run _ _ _ Hget), Hr.
  apply Z.ltb_ge in Hlive. rewrite Hlive, Hrev. simpl bool_decide.
  cbv iota. run_with (getUserById_run _ _ _ u Hbyid Hu). rewrite Hactive.
  change (negb true) with false. cbv iota. run_with Ha.
  run_with (generateRefreshToken_run ctx (User.id u) (RefreshToken.clientId r)
              w e' Hcreate He' Hfresh).
  rewrite bind_run.
  destruct (revokeRefreshToken_total ctx token
              (with_tokens
                 (<[next_token ctx w :=
                      RefreshToken.mk (next_token ctx w) (User.id u)
                                      (RefreshToken.clientId r) e' None]>
                    (Store.refreshTokens (World.store w)))
                 (S (World.draws w)) w)) as [b Hb].
  unfold outcome in Hb.
  destruct (revokeRefreshToken ctx token _) as [res w''] eqn:Hrun.
  simpl in Hb. subst res. reflexivity.
Qed.

Lemma can_sign_same_keys (ctx ctx' : Ctx.t) (s s' : Store.t) :
  Store.keys s' = Store.keys s -> Ctx.env ctx' = Ctx.env ctx ->
  can_sign ctx s -> can_sign ctx' s'.
Proof.
  intros Hk He (kp & m & ttl & Hactive & Hrest).
  exists kp, m, ttl. unfold active_key_of, access_ttl in *.
  rewrite Hk, He. auto.
Qed.

Lemma refreshToken_rejects_revoked (ctx : Ctx.t) (token : string)
    (w : World.t) (r : RefreshToken.t) (t : Z) :
  Ctx.outage ctx OpGetRefreshTokenByValue = None ->
  Store.refreshTokens (World.store w) !! token = Some r ->
  Ctx.now ctx <= RefreshToken.expiresAt r ->
  RefreshToken.revokedAt r = Some t ->
  outcome (AuthService.refreshToken ctx token w)
  = Throw (AppError "Token de rafraîchissement révoqué" 401
                    AuthErrorCodes.TOKEN_INVALID).
Proof.
  intros Hlink Hr Hlive Hrev. unfold AuthService.refreshToken.
  rewrite bind_run, (verifyRefreshToken_run _ _ _ Hlink), Hr.
  apply Z.ltb_ge in Hlive. rewrite Hlive, Hrev. reflexivity.
Qed.

(** C1. Take a refresh token freshly issued by [generateRefreshToken] for
    an active user, in a deployment whose store answers, that can sign,
    and whose random values do not collide. The first rotation, made
    before the token expires, succeeds and returns a new refresh token,
    different from the original and recorded unrevoked; a second rotation
    presenting the original token, still before its expiry, fails with
    [TOKEN_INVALID]. The three calls run one after the other, each on the
    world the previous one left. *)
Theorem refresh_rotation_single_use
    (ctx : Ctx.t) (t1 t2 : Z) (w : World.t) (userId : string)
    (clientId : option string) (u : User.t) (e e1 : Z) :
  let token := next_token ctx w in
  let replacement := Ctx.randomBytes ctx (S (World.draws w)) in
  healthy ctx ->
  refresh_expiry ctx = Ok e ->
  Store.refreshTokens (World.store w) !! token = None ->
  find_user_by_id userId (Store.users (World.store w)) = Some u ->
  User.active u = true ->
  can_sign ctx (World.store w) ->
  replacement <> token ->
  Store.refreshTokens (World.store w) !! replacement = None ->
  t1 <= e ->
  refresh_expiry (at_time t1 ctx) = Ok e1 ->
  t2 <= e ->
  exists issued rotated access msg,
    generateRefreshToken ctx userId clientId w = (Ok token, issued)
    /\ AuthService.refreshToken (at_time t1 ctx) token issued
       = (Ok (AuthService.mkRefresh true access replacement), rotated)
    /\ Store.refreshTokens (World.store rotated) !! replacement
       = Some (RefreshToken.mk replacement (User.id u) clientId e1 None)
    /\ outcome (AuthService.refreshToken (at_time t2 ctx) token rotated)
       = Throw (AppError msg 401 AuthErrorCodes.TOKEN_INVALID).
Proof.
  intros token replacement Hup He Hfresh Hu Hactive Hsign Hne Hfresh'
         Ht1 He1 Ht2.
  set (r0 := RefreshToken.mk token userId clientId e None).
  set (issued := with_tokens (<[token := r0]>
                                (Store.refreshTokens (World.store w)))
                             (S (World.draws w)) w).
  assert (Hissue : generateRefreshToken ctx userId clientId w
                   = (Ok token, issued))
    by exact (generateRefreshToken_run ctx userId clientId w e
                (Hup OpCreateRefreshToken) He Hfresh).
  assert (Hr0 : Store.refreshTokens (World.store issued) !! token = Some r0)
    by (simpl; apply lookup_insert_eq).
  assert (Hnext : next_token (at_time t1 ctx) issued = replacement)
    by reflexivity.
  assert (Hsign1 : can_sign (at_time t1 ctx) (World.store issued))
    by (eapply can_sign_same_keys; [| | exact Hsign]; reflexivity).
  assert (Hfresh1 : Store.refreshTokens (World.store issued)
                    !! next_token (at_time t1 ctx) issued = None).
  { rewrite Hnext. simpl. rewrite lookup_insert_ne by congruence.
    exact Hfresh'. }
  destruct (rotation_until_revocation (at_time t1 ctx) token issued r0 u e1
              (Hup _) (Hup _) (Hup _) (Hup _) Hr0 Ht1 eq_refl Hu Hactive
              Hsign1 He1 Hfresh1) as [access Hrot].
  rewrite Hnext in Hrot. cbv zeta in Hrot.
  set (r1 := RefreshToken.mk replacement (User.id u) clientId e1 None) in *.
  rewrite (revokeRefreshToken_run (at_time t1 ctx) token _ r0) in Hrot;
    [| apply Hup
     | simpl; rewrite lookup_insert_ne by congruence; apply lookup_insert_eq].
  unfold world_after in Hrot. simpl snd in Hrot.
  eexists issued, _, access, _.
  split; [exact Hissue |]. split; [exact Hrot |]. split.
  - simpl. rewrite lookup_insert_ne by congruence. apply lookup_insert_eq.
  - apply (refreshToken_rejects_revoked (at_time t2 ctx) token _
             (Endpoint.revoked t1 r0) t1).
    + apply Hup.
    + simpl. apply lookup_insert_eq.
    + exact Ht2.
    + reflexivity.
Qed.

Lemma refresh_rotation_single_use_witness :
  exists issued rotated access msg,
    generateRefreshToken Sample.ctx "u1" (Some "web") Sample.world
    = (Ok "rt-0", issued)
    /\ AuthService.refreshToken (at_time 1700000060000 Sample.ctx) "rt-0"
                                issued
       = (Ok (AuthService.mkRefresh true access "rt-1"), rotated)
    /\ Store.refreshTokens (World.store rotated) !! "rt-1"
       = Some (RefreshToken.mk "rt-1" "u1" (Some "web") 1700604860000 None)
    /\ outcome (AuthService.refreshToken (at_time 1700000120000 Sample.ctx)
                                         "rt-0" rotated)
       = Throw (AppError msg 401 AuthErrorCodes.TOKEN_INVALID).
Proof.
  apply (refresh_rotation_single_use Sample.ctx 1700000060000 1700000120000
           Sample.world "u1" (Some "web") Sample.alice 1700604800000
           1700604860000).
  - intros op. reflexivity.
  - vm_compute. reflexivity.
  - vm_compute. reflexivity.
  - reflexivity.
  - reflexivity.
  - exists Sample.active_key, 9%N, 900. repeat split; reflexivity.
  - vm_compute. discriminate.
  - vm_compute. reflexivity.
  - vm_compute. discriminate.
  - vm_compute. reflexivity.
  - vm_compute. discriminate.
Defined.

(** The rotation when the new record cannot be written: it throws what
    the store client threw, and the revocation is not reached. *)
Lemma rotation_stops_at_a_failed_creation (ctx : Ctx.t) (token : string)
    (w : World.t) (r : RefreshToken.t) (u : User.t) (e' : Z)
    (st : option Z) :
  Ctx.outage ctx OpGetRefreshTokenByValue = None ->
  Ctx.outage ctx OpGetUserById = None ->
  Ctx.outage ctx OpGetActiveKeyPair = None ->
  Ctx.outage ctx OpCreateRefreshToken = Some st ->
  Store.refreshTokens (World.store w) !! token = Some r ->
  Ctx.now ctx <= RefreshToken.expiresAt r ->
  RefreshToken.revokedAt r = None ->
  find_user_by_id (RefreshToken.userId r) (Store.users (World.store w))
  = Some u ->
  User.active u = true ->
  can_sign ctx (World.store w) ->
  refresh_expiry ctx = Ok e' ->
  AuthService.refreshToken ctx token w
  = (Throw (AxiosError st), World.mk (World.store w) (S (World.draws w))).
Proof.
  intros Hget Hbyid Hkey Hcreate Hr Hlive Hrev Hu Hactive Hsign He'.
  destruct (generateAccessToken_succeeds ctx u w Hkey Hsign) as [access Ha].
  unfold AuthService.refreshToken.
  rewrite bind_run, (verifyRefreshToken_run _ _ _ Hget), Hr.
  apply Z.ltb_ge in Hlive. rewrite Hlive, Hrev. simpl bool_decide.
  cbv iota. run_with (getUserById_run _ _ _ u Hbyid Hu). rewrite Hactive.
  change (negb true) with false. cbv iota. run_with Ha.
  rewrite bind_run. unfold generateRefreshToken.
  rewrite logged_run, bind_run. unfold draw at 1. cbv beta iota.
  unfold refresh_expiry in He'. rewrite bind_run, He'.
  unfold Jose.lift at 1. unfold mret at 1, M_ret at 1. cbv beta iota.
  rewrite bind_run. unfold DbServiceClient.createRefreshToken.
  rewrite (ClientFacts.request_outage _ _ _ _ _ Hcreate). reflexivity.
Qed.

(** C10. When the store fails the revocation call, the revocation step
    swallows the error and answers [false]; the rotation drops that
    answer and still reports success with a new refresh token, and
    afterwards the presented token and its replacement are both live.
    The new record is written before the revocation is attempted: when it
    is the writing of the new record that the store refuses, while it
    would carry out a revocation, the rotation throws and the presented
    token is still there, unrevoked and live. *)
Theorem rotation_succeeds_when_revocation_fails
    (ctx : Ctx.t) (token : string) (w : World.t) (r : RefreshToken.t)
    (u : User.t) (e' : Z) (st : option Z) :
  (forall op, op <> OpRevokeRefreshToken -> Ctx.outage ctx op = None) ->
  Ctx.outage ctx OpRevokeRefreshToken = Some st ->
  Store.refreshTokens (World.store w) !! token = Some r ->
  Ctx.now ctx <= RefreshToken.expiresAt r ->
  RefreshToken.revokedAt r = None ->
  find_user_by_id (RefreshToken.userId r) (Store.users (World.store w))
  = Some u ->
  User.active u = true ->
  can_sign ctx (World.store w) ->
  refresh_expiry ctx = Ok e' ->
  Ctx.now ctx <= e' ->
  Store.refreshTokens (World.store w) !! next_token ctx w = None ->
  outcome (revokeRefreshToken ctx token w) = Ok false
  /\ (exists access after,
        AuthService.refreshToken ctx token w
        = (Ok (AuthService.mkRefresh true access (next_token ctx w)), after)
        /\ live ctx after token
        /\ live ctx after (next_token ctx w))
  /\ (forall st' : option Z,
        exists failed,
          AuthService.refreshToken (creation_down st' ctx) token w
          = (Throw (AxiosError st'), failed)
          /\ Store.refreshTokens (World.store failed) !! token = Some r
          /\ live (creation_down st' ctx) failed token).
Proof.
  intros Hup Hdown Hr Hlive Hrev Hu Hactive Hsign He' Hpos Hfresh.
  assert (Hswallow : forall w0, revokeRefreshToken ctx token w0
                                = (Ok false, w0)).
  { intros w0. apply (revokeRefreshToken_swallows _ _ _ _ (AxiosError st)).
    apply ClientFacts.request_outage, Hdown. }
  split; [rewrite Hswallow; reflexivity |].
  assert (Hne : next_token ctx w <> token) by congruence.
  assert (Hget : Ctx.outage ctx OpGetRefreshTokenByValue = None)
    by (apply Hup; discriminate).
  split.
  - destruct (rotation_until_revocation ctx token w r u e' Hget
                (Hup OpGetUserById ltac:(discriminate))
                (Hup OpGetActiveKeyPair ltac:(discriminate))
                (Hup OpCreateRefreshToken ltac:(discriminate))
                Hr Hlive Hrev Hu Hactive Hsign He' Hfresh) as [access Hrot].
    cbv zeta in Hrot. rewrite Hswallow in Hrot.
    unfold world_after in Hrot. simpl snd in Hrot.
    eexists access, _. split; [exact Hrot |].
    split.
    + exists r. rewrite (verifyRefreshToken_run _ _ _ Hget). simpl.
      rewrite lookup_insert_ne by exact Hne. rewrite Hr.
      apply Z.ltb_ge in Hlive. rewrite Hlive, Hrev. reflexivity.
    + eexists. rewrite (verifyRefreshToken_run _ _ _ Hget). simpl.
      rewrite lookup_insert_eq. simpl.
      apply Z.ltb_ge in Hpos. rewrite Hpos. reflexivity.
  - intros st'. eexists. split; [| split].
    + apply (rotation_stops_at_a_failed_creation (creation_down st' ctx)
               token w r u e'); try reflexivity; assumption.
    + exact Hr.
    + exists r.
      rewrite (verifyRefreshToken_run (creation_down st' ctx) _ _ eq_refl).
      simpl. rewrite Hr.
      apply Z.ltb_ge in Hlive. rewrite Hlive, Hrev. reflexivity.
Qed.

Lemma rotation_succeeds_when_revocation_fails_witness :
  outcome (revokeRefreshToken revocation_down "rt-live" Sample.world)
  = Ok false
  /\ (exists access after,
        AuthService.refreshToken revocation_down "rt-live" Sample.world
        = (Ok (AuthService.mkRefresh true access "rt-0"), after)
        /\ live revocation_down after "rt-live"
        /\ live revocation_down after "rt-0")
  /\ (forall st' : option Z,
        exists failed,
          AuthService.refreshToken (creation_down st' revocation_down)
            "rt-live" Sample.world
          = (Throw (AxiosError st'), failed)
          /\ Store.refreshTokens (World.store failed) !! "rt-live"
             = Some Sample.live_record
          /\ live (creation_down st' revocation_down) failed "rt-live").
Proof.
  apply (rotation_succeeds_when_revocation_fails revocation_down "rt-live"
           Sample.world Sample.live_record Sample.alice 1700604800000
           (Some 503)).
  - intros op Hop. destruct op; try reflexivity. contradiction.
  - reflexivity.
  - vm_compute. reflexivity.
  - vm_compute. discriminate.
  - reflexivity.
  - reflexivity.
  - reflexivity.
  - exists Sample.active_key, 9%N, 900. repeat split; reflexivity.
  - vm_compute. reflexivity.
  - vm_compute. discriminate.
  - vm_compute. reflexivity.
Defined.

(** ** Email-verification tokens *)

Lemma client_getActiveKeyPair_cases (ctx : Ctx.t) (w : World.t) :
  DbServiceClient.getActiveKeyPair ctx w
  = (Ok (active_key_of (World.store w)), w)
  \/ DbServiceClient.getActiveKeyPair ctx w = (Ok None, w)
  \/ exists st, DbServiceClient.getActiveKeyPair ctx w
                = (Throw (AxiosError st), w).
Proof.
  destruct (Ctx.outage ctx OpGetActiveKeyPair) as [st |] eqn:H.
  - right. unfold DbServiceClient.getActiveKeyPair,
      DbServiceClient.null_on_404, try_catch.
    rewrite bind_run, (ClientFacts.request_outage _ _ _ _ _ H).
    destruct st as [z |]; [| right; exists None; reflexivity].
    destruct (z =? 404) eqn:Hz.
    + left. reflexivity.
    + right. exists (Some z). reflexivity.
  - left. apply ClientFacts.getActiveKeyPair_run, H.
Qed.

Lemma active_key_resolver_cases (ctx : Ctx.t) (h : Header.t) (w : World.t) :
  (exists kp k,
     active_key_of (World.store w) = Some kp
     /\ KeyPair.publicKey kp = SpkiPem k
     /\ active_key_resolver ctx h w
        = (Ok (Jose.mkKey k (KeyPair.algorithm kp) false), w))
  \/ (exists e, is_AppError e = false
                /\ active_key_resolver ctx h w = (Throw e, w)).
Proof.
  unfold active_key_resolver. rewrite bind_run.
  destruct (client_getActiveKeyPair_cases ctx w) as [H | [H | [st H]]];
    rewrite H; cbv beta iota.
  - destruct (active_key_of (World.store w)) as [kp |] eqn:Hk.
    + unfold Jose.importSPKI.
      destruct (KeyPair.publicKey kp) as [k | k | t] eqn:Hpub.
      * destruct (Jose.supported (KeyPair.algorithm kp)).
        -- left. exists kp, k. auto.
        -- right. eexists. split; [| reflexivity]. reflexivity.
      * right. eexists. split; [| reflexivity]. reflexivity.
      * right. eexists. split; [| reflexivity]. reflexivity.
    + right. eexists. split; [| reflexivity]. reflexivity.
  - right. eexists. split; [| reflexivity]. reflexivity.
  - right. eexists. split; [| reflexivity]. reflexivity.
Qed.

(** A token that the active key did not sign is turned away with the
    generic failure, whatever its header and claims say. *)
Lemma verifyEmailVerificationToken_needs_active_key
    (ctx : Ctx.t) (w : World.t) (h : Header.t) (p : Claims.t) (m : N) :
  (forall a, active_key_of (World.store w) = Some a ->
             KeyPair.publicKey a <> SpkiPem m) ->
  verifyEmailVerificationToken ctx (Compact h p (Some m)) w
  = (Throw generic_verification_failure, w).
Proof.
  intros Hother. unfold verifyEmailVerificationToken, try_catch.
  rewrite bind_run. unfold Jose.jwtVerify.
  destruct (Header.alg h) as [a |]; [| reflexivity].
  rewrite bind_run.
  destruct (active_key_resolver_cases ctx h w)
    as [(kp & k & Hk & Hpub & Hrun) | (e & He & Hrun)]; rewrite Hrun;
    cbv beta iota.
  - cbn [Jose.is_private Jose.key_alg orb].
    destruct (String.eqb a (KeyPair.algorithm kp)); cbn [negb];
      [| reflexivity].
    unfold Jose.signature_ok. cbn [Jose.material].
    rewrite bool_decide_false; [reflexivity |].
    intros [= ->]. exact (Hother kp Hk Hpub).
  - rewrite He. reflexivity.
Qed.

Lemma verifyEmailVerificationToken_run
    (ctx : Ctx.t) (w : World.t) (h : Header.t) (p : Claims.t) (m : N)
    (kp : KeyPair.t) :
  Ctx.outage ctx OpGetActiveKeyPair = None ->
  active_key_of (World.store w) = Some kp ->
  KeyPair.publicKey kp = SpkiPem m ->
  Jose.supported (KeyPair.algorithm kp) = true ->
  Header.alg h = Some (KeyPair.algorithm kp) ->
  issuer_ok ctx p = true -> audience_ok ctx p = true ->
  unexpired ctx p = true ->
  verifyEmailVerificationToken ctx (Compact h p (Some m)) w
  = (if bool_decide (Claims.purpose p = Some "email_verification")
     then Ok p
     else Throw (AppError "Token invalide (mauvais usage)" 400
                          INVALID_TOKEN_PURPOSE), w).
Proof.
  intros Hlink Hactive Hpub Hsup Halg Hiss Haud Hexp.
  unfold verifyEmailVerificationToken, try_catch.
  rewrite bind_run. unfold Jose.jwtVerify. rewrite Halg, bind_run.
  unfold active_key_resolver.
  rewrite bind_run, (ClientFacts.getActiveKeyPair_run _ _ Hlink).
  unfold active_key_of in Hactive. rewrite Hactive. cbv beta iota.
  unfold Jose.importSPKI. rewrite Hpub, Hsup. simpl.
  rewrite String.eqb_refl. simpl. unfold Jose.signature_ok. simpl.
  rewrite bool_decide_true by reflexivity. simpl.
  rewrite (validate_claims_ok _ _ Hiss Haud Hexp). simpl.
  destruct (bool_decide (Claims.purpose p = Some "email_verification"));
    reflexivity.
Qed.

(** An expired token never gets past [jwtVerify], whoever signed it and
    whatever the state of the key store: every failure on the way is
    turned into the generic error. *)
Lemma verifyEmailVerificationToken_expired
    (ctx : Ctx.t) (w : World.t) (h : Header.t) (p : Claims.t)
    (signer : option N) :
  unexpired ctx p = false ->
  outcome (verifyEmailVerificationToken ctx (Compact h p signer) w)
  = Throw generic_verification_failure.
Proof.
  intros Hexpired.
  unfold verifyEmailVerificationToken, try_catch, outcome.
  rewrite bind_run. unfold Jose.jwtVerify.
  destruct (Header.alg h) as [a |]; [| reflexivity].
  rewrite bind_run.
  destruct (active_key_resolver_cases ctx h w)
    as [(kp & k & _ & _ & Hrun) | (e0 & He0 & Hrun)];
    rewrite Hrun; cbv beta iota.
  - destruct (Jose.is_private _ || negb (String.eqb a _)); [reflexivity |].
    destruct (negb (Jose.signature_ok h signer _)); [reflexivity |].
    unfold Jose.validate_claims.
    destruct (negb (Jose.claim_matches _ (Claims.iss p))); [reflexivity |].
    destruct (negb (Jose.claim_matches _ (Claims.aud p))); [reflexivity |].
    unfold unexpired in Hexpired.
    destruct (Claims.exp p) as [e |]; [| discriminate].
    apply Bool.negb_false_iff in Hexpired. rewrite Hexpired. reflexivity.
  - rewrite He0. reflexivity.
Qed.

(** C7, as the code has it. A token that the active key signed, whose
    issuer and audience match and which has not expired, but whose
    purpose claim is not [email_verification], is refused by
    [verifyEmailVerificationToken] with the kind [INVALID_TOKEN_PURPOSE]
    (status 400), which is not the generic kind
    [INVALID_VERIFICATION_TOKEN]. An expired token is refused with the
    generic kind, whatever its purpose, its signature and the state of
    the key store. *)
Theorem wrong_purpose_is_a_distinct_error (ctx : Ctx.t) (w : World.t) :
  (forall (h : Header.t) (p : Claims.t) (m : N) (kp : KeyPair.t),
     Ctx.outage ctx OpGetActiveKeyPair = None ->
     active_key_of (World.store w) = Some kp ->
     KeyPair.publicKey kp = SpkiPem m ->
     Jose.supported (KeyPair.algorithm kp) = true ->
     Header.alg h = Some (KeyPair.algorithm kp) ->
     issuer_ok ctx p = true ->
     audience_ok ctx p = true ->
     unexpired ctx p = true ->
     Claims.purpose p <> Some "email_verification" ->
     outcome (verifyEmailVerificationToken ctx (Compact h p (Some m)) w)
     = Throw (AppError "Token invalide (mauvais usage)" 400
                       INVALID_TOKEN_PURPOSE))
  /\ INVALID_TOKEN_PURPOSE <> INVALID_VERIFICATION_TOKEN
  /\ (forall (h : Header.t) (p : Claims.t) (signer : option N),
        unexpired ctx p = false ->
        outcome (verifyEmailVerificationToken ctx (Compact h p signer) w)
        = Throw (AppError "Token de vérification invalide ou expiré" 401
                          INVALID_VERIFICATION_TOKEN)).
Proof.
  split; [| split; [discriminate |]].
  - intros h p m kp Hlink Hactive Hpub Hsup Halg Hiss Haud Hexp Hpurpose.
    rewrite (verifyEmailVerificationToken_run _ _ _ _ _ kp); try assumption.
    rewrite bool_decide_false by exact Hpurpose. reflexivity.
  - intros h p signer Hexpired.
    exact (verifyEmailVerificationToken_expired ctx w h p signer Hexpired).
Qed.

Lemma wrong_purpose_is_a_distinct_error_witness :
  outcome (verifyEmailVerificationToken Sample.ctx access_token Sample.world)
  = Throw (AppError "Token invalide (mauvais usage)" 400
                    INVALID_TOKEN_PURPOSE)
  /\ INVALID_TOKEN_PURPOSE <> INVALID_VERIFICATION_TOKEN
  /\ outcome (verifyEmailVerificationToken
                (at_time 1700003600000 Sample.ctx) access_token
                Sample.world)
     = Throw (AppError "Token de vérification invalide ou expiré" 401
                       INVALID_VERIFICATION_TOKEN).
Proof.
  destruct (wrong_purpose_is_a_distinct_error Sample.ctx Sample.world)
    as (Hpurpose & Hkinds & _).
  destruct (wrong_purpose_is_a_distinct_error
              (at_time 1700003600000 Sample.ctx) Sample.world)
    as (_ & _ & Hexpired).
  split; [| split; [exact Hkinds |]].
  - apply (Hpurpose (signing_header Sample.active_key)
             (issued_access_claims Sample.ctx Sample.alice 900) 9%N
             Sample.active_key).
    + reflexivity.
    + reflexivity.
    + reflexivity.
    + reflexivity.
    + reflexivity.
    + vm_compute. reflexivity.
    + vm_compute. reflexivity.
    + vm_compute. reflexivity.
    + vm_compute. discriminate.
  - exact (Hexpired (signing_header Sample.active_key)
             (issued_access_claims Sample.ctx Sample.alice 900)
             (Some 9%N) eq_refl).
Defined.

(** In particular, an access token of this service presented before its
    expiry is refused for its purpose. *)
Lemma valid_access_token_is_no_email_token
    (ctx : Ctx.t) (w : World.t) (user : User.t) (kp : KeyPair.t) (m : N)
    (ttl later : Z) :
  Ctx.outage ctx OpGetActiveKeyPair = None ->
  active_key_of (World.store w) = Some kp ->
  well_formed_key kp m ->
  access_ttl ctx = Some ttl ->
  later < (Jose.epoch (Ctx.now ctx) + ttl) * 1000 ->
  exists token,
    outcome (generateAccessToken ctx user w) = Ok token
    /\ outcome (verifyEmailVerificationToken (at_time later ctx) token w)
       = Throw (AppError "Token invalide (mauvais usage)" 400
                         INVALID_TOKEN_PURPOSE).
Proof.
  intros Hlink Hactive (Hpriv & Hpub & Hsup & Hne) Httl Hlater.
  eexists. split.
  { rewrite (generateAccessToken_run _ _ _ _ _ _ Hlink Hactive Hpriv Hsup
               Httl). reflexivity. }
  rewrite (verifyEmailVerificationToken_run (at_time later ctx) w _ _ m kp);
    try assumption; try reflexivity; try apply claim_matches_refl.
  unfold unexpired. simpl. apply negb_true_iff, Z.leb_gt.
  unfold Jose.epoch in *. apply Z.div_lt_upper_bound; lia.
Qed.

(** C7, counterexample to the claim as stated. One hour after its
    issuance the sample access token still has a signature that verifies
    under the active key and a matching issuer and audience, and its
    purpose is not [email_verification]; being expired, it is refused
    with the generic kind, not with the wrong-purpose kind. *)
Lemma expired_access_token_gets_the_generic_error :
  outcome (generateAccessToken Sample.ctx Sample.alice Sample.world)
  = Ok access_token
  /\ Jose.signature_ok (signing_header Sample.active_key) (Some 9%N)
                       (Jose.mkKey 9 "RS256" false) = true
  /\ issuer_ok (at_time 1700003600000 Sample.ctx)
               (issued_access_claims Sample.ctx Sample.alice 900) = true
  /\ audience_ok (at_time 1700003600000 Sample.ctx)
                 (issued_access_claims Sample.ctx Sample.alice 900) = true
  /\ Claims.purpose (issued_access_claims Sample.ctx Sample.alice 900)
     <> Some "email_verification"
  /\ outcome (verifyEmailVerificationToken
                (at_time 1700003600000 Sample.ctx) access_token Sample.world)
     = Throw (AppError "Token de vérification invalide ou expiré" 401
                       INVALID_VERIFICATION_TOKEN).
Proof.
  repeat split; try (vm_compute; reflexivity). discriminate.
Qed.

(** ** Which key verifies a token *)

(** C4, as the code has it. Let a token be signed by a key pair that the
    directory holds under the identifier of the token's header, whatever
    the status of that key pair, with matching issuer and audience and
    not expired. [verifyAccessToken] resolves the key by that identifier
    and accepts the token, so a token signed with a retired key still
    verifies there. [verifyEmailVerificationToken] does not look at the
    identifier: it verifies against the active key pair, and a token
    signed by any other key is refused with the generic failure. *)
Theorem verification_key_resolution
    (ctx : Ctx.t) (w : World.t) (h : Header.t) (p : Claims.t) (m : N)
    (kid : string) (kp : KeyPair.t) :
  Ctx.outage ctx OpGetKeyPairByKid = None ->
  truthy_kid h = Some kid ->
  key_of_kid kid (World.store w) = Some kp ->
  KeyPair.publicKey kp = SpkiPem m ->
  Jose.supported (KeyPair.algorithm kp) = true ->
  Header.alg h = Some (KeyPair.algorithm kp) ->
  issuer_ok ctx p = true ->
  audience_ok ctx p = true ->
  unexpired ctx p = true ->
  (forall a, active_key_of (World.store w) = Some a ->
             KeyPair.publicKey a <> SpkiPem m) ->
  outcome (verifyAccessToken ctx (Compact h p (Some m)) w) = Ok p
  /\ outcome (verifyEmailVerificationToken ctx (Compact h p (Some m)) w)
     = Throw generic_verification_failure.
Proof.
  intros Hlink Hkid Hkey Hpub Hsup Halg Hiss Haud Hexp Hother. split.
  - rewrite (verifyAccessToken_accepts ctx w h p m kid kp); auto.
  - rewrite (verifyEmailVerificationToken_needs_active_key _ _ _ _ _ Hother).
    reflexivity.
Qed.

Lemma verification_key_resolution_witness :
  KeyPair.status Sample.retired_key = RETIRED
  /\ outcome (verifyAccessToken Sample.ctx old_email_token Sample.world)
     = Ok (Claims.mk (Some "u1") None None None (Some "email_verification")
                     (Some "https://auth.example")
                     (Some "https://app.example")
                     (Some 1699996400) (Some 1700082800))
  /\ outcome (verifyEmailVerificationToken Sample.ctx old_email_token
                                           Sample.world)
     = Throw generic_verification_failure.
Proof.
  split; [reflexivity |].
  apply (verification_key_resolution Sample.ctx Sample.world
           (signing_header Sample.retired_key) _ 7 "kid-2023"
           Sample.retired_key).
  - reflexivity.
  - reflexivity.
  - reflexivity.
  - reflexivity.
  - reflexivity.
  - reflexivity.
  - vm_compute. reflexivity.
  - vm_compute. reflexivity.
  - vm_compute. reflexivity.
  - intros a Ha. vm_compute in Ha. injection Ha as <-. discriminate.
Defined.

(** Whatever identifier the header carries, a token that the active key
    signed passes [verifyEmailVerificationToken]: the identifier takes no
    part in the choice of the key. *)
Lemma verifyEmailVerificationToken_ignores_kid
    (ctx : Ctx.t) (w : World.t) (alg kid kid' typ : option string)
    (p : Claims.t) (signer : option N) :
  outcome (verifyEmailVerificationToken ctx
             (Compact (Header.mk alg kid typ) p signer) w)
  = outcome (verifyEmailVerificationToken ctx
               (Compact (Header.mk alg kid' typ) p signer) w).
Proof.
  unfold verifyEmailVerificationToken, try_catch.
  rewrite !bind_run. unfold Jose.jwtVerify. simpl Header.alg.
  destruct alg as [a |]; reflexivity.
Qed.

(** C4, counterexample to the claim as stated. The sample deployment
    issued [old_email_token] while ["kid-2023"] was its active key. One
    hour later that key is retired; the directory still resolves it, and
    the token is neither expired nor altered, yet
    [verifyEmailVerificationToken] refuses it. *)
Lemma email_token_of_a_retired_key_is_refused :
  outcome (generateEmailVerificationToken
             (at_time 1699996400000 Sample.ctx) Sample.alice world_before)
  = Ok old_email_token
  /\ outcome (DbServiceClient.getKeyPairByKid Sample.ctx "kid-2023"
                                              Sample.world)
     = Ok (Some Sample.retired_key)
  /\ KeyPair.status Sample.retired_key = RETIRED
  /\ header_kid old_email_token = Some "kid-2023"
  /\ outcome (verifyEmailVerificationToken Sample.ctx old_email_token
                                           Sample.world)
     = Throw (AppError "Token de vérification invalide ou expiré" 401
                       INVALID_VERIFICATION_TOKEN).
Proof.
  repeat split; vm_compute; reflexivity.
Qed.

(** ** Synchronizing a federated identity *)

Lemma apply_update_keeps_flag (p : UserPayload.t) (u : User.t) :
  UserPayload.emailVerified p = None ->
  User.emailVerified (apply_update p u) = User.emailVerified u.
Proof. intros H. unfold apply_update. simpl. rewrite H. reflexivity. Qed.

Lemma put_user_keeps_flags (i : string) (p : UserPayload.t) (s : Store.t) :
  UserPayload.emailVerified p = None ->
  List.map User.emailVerified (Store.users (snd (Endpoint.put_user i p s)))
  = List.map User.emailVerified (Store.users s).
Proof.
  intros H. unfold Endpoint.put_user.
  destruct (find_user_by_id i (Store.users s)); [| reflexivity].
  simpl. rewrite List.map_map. apply List.map_ext. intros v.
  destruct (String.eqb (User.id v) i); [| reflexivity].
  apply apply_update_keeps_flag, H.
Qed.

Lemma post_users_existing (p : UserPayload.t) (s : Store.t) (e : string)
    (u : User.t) :
  (UserPayload.email p = None \/ UserPayload.email p = Some e) ->
  find_user_by_email e (Store.users s) = Some u ->
  snd (Endpoint.post_users p s) = s.
Proof.
  intros [H | H] Hu; unfold Endpoint.post_users; rewrite H;
    [| rewrite Hu]; reflexivity.
Qed.

(** The generic provider path never touches the verified flag of any
    stored user when the identity's email belongs to an existing user:
    whatever the provider says, and whether or not the store calls go
    through. *)
Lemma syncOAuthUser_keeps_verified_flags
    (ctx : Ctx.t) (oauthUser : OAuthService.OAuthUser) (w : World.t)
    (u : User.t) :
  find_user_by_email (js_to_string (OAuthService.email oauthUser))
                     (Store.users (World.store w)) = Some u ->
  verified_flags (world_after (OAuthService.syncOAuthUser ctx oauthUser w))
  = verified_flags w.
Proof.
  intros Hu. unfold OAuthService.syncOAuthUser, try_catch, world_after,
    verified_flags.
  rewrite bind_run. unfold DbServiceClient.null_on_404, try_catch.
  rewrite bind_run.
  assert (Hcreate : forall n w0,
    World.store w0 = World.store w ->
    List.map User.emailVerified
      (Store.users (World.store (snd
        (DbServiceClient.createUser ctx
           (OAuthService.new_user_payload oauthUser n) w0))))
    = List.map User.emailVerified (Store.users (World.store w))).
  { intros n w0 Hw0. unfold DbServiceClient.createUser.
    destruct (Ctx.outage ctx OpCreateUser) as [st |] eqn:Hout.
    - rewrite (ClientFacts.request_outage _ _ _ _ _ Hout). simpl.
      rewrite Hw0. reflexivity.
    - rewrite (ClientFacts.request_write _ _ _ _ Hout). simpl.
      rewrite Hw0.
      rewrite (post_users_existing _ _
                 (js_to_string (OAuthService.email oauthUser)) u);
        [reflexivity | | exact Hu].
      unfold OAuthService.new_user_payload. simpl.
      destruct (OAuthService.email oauthUser); simpl; auto. }
  destruct (getUserByEmail_cases ctx
              (js_to_string (OAuthService.email oauthUser)) w)
    as [H | [st H]]; rewrite H; cbv beta iota.
  - rewrite Hu. cbv beta iota. unfold mret at 1, M_ret at 1.
    cbv beta iota. unfold DbServiceClient.updateUser.
    destruct (Ctx.outage ctx OpUpdateUser) as [st |] eqn:Hout.
    + rewrite (ClientFacts.request_outage _ _ _ _ _ Hout). reflexivity.
    + rewrite (ClientFacts.request_write _ _ _ _ Hout).
      pose proof (put_user_keeps_flags (User.id u)
                    (OAuthService.update_payload oauthUser) (World.store w)
                    eq_refl) as Hkeep.
      destruct (Endpoint.put_user (User.id u)
                  (OAuthService.update_payload oauthUser) (World.store w))
        as [[a | z] s']; simpl in *; exact Hkeep.
  - destruct st as [z |]; [| reflexivity].
    destruct (z =? 404); [| reflexivity].
    unfold mret at 1, M_ret at 1. cbv beta iota.
    rewrite bind_run. unfold draw at 1. cbv beta iota.
    specialize (Hcreate (Ctx.generatePassword ctx (World.draws w))
                        (World.mk (World.store w) (S (World.draws w)))
                        eq_refl).
    destruct (DbServiceClient.createUser ctx _ _) as [[a | e] w'];
      simpl in *; exact Hcreate.
Qed.

(** On the hosted-platform path the update carries the platform's
    verification statement, read as [false] when there is none, together
    with the default role: whenever the store calls go through, the
    returned user has exactly that flag and that role. *)
Lemma syncAuth0User_overwrites
    (ctx : Ctx.t) (auth0User : RawUserInfo.t) (w : World.t) (email : string)
    (u : User.t) :
  Ctx.outage ctx OpGetUserByEmail = None ->
  Ctx.outage ctx OpUpdateUser = None ->
  RawUserInfo.email auth0User = val email -> email <> "" ->
  find_user_by_email email (Store.users (World.store w)) = Some u ->
  exists v v',
    find_user_by_id (User.id u) (Store.users (World.store w)) = Some v
    /\ outcome (Auth0Service.syncAuth0User ctx auth0User w) = Ok v'
    /\ User.emailVerified v'
       = or_false (RawUserInfo.email_verified auth0User)
    /\ User.roles v' = ["USER"].
Proof.
  intros Hget Hput Hemail Hne Hu.
  destruct (find_user_by_id_of_email _ _ _ Hu) as [v Hv].
  exists v. eexists. split; [exact Hv |].
  unfold Auth0Service.syncAuth0User, try_catch. rewrite Hemail.
  unfold truthy. destruct (String.eqb_spec email ""); [contradiction |].
  cbn [negb js_to_string]. cbv iota.
  rewrite bind_run, catch_null_run.
  unfold DbServiceClient.getUserByEmail.
  rewrite (ClientFacts.request_read_only _ _ _ _ Hget).
  unfold Endpoint.get_user_by_email. rewrite Hu. cbv beta iota.
  unfold DbServiceClient.updateUser.
  rewrite (ClientFacts.request_write _ _ _ _ Hput).
  unfold Endpoint.put_user. rewrite Hv. simpl.
  repeat split; reflexivity.
Qed.

(** C3, the code at the failing input. Alice is a stored user with a
    verified email and the roles [USER] and [ADMIN]. She signs in through
    the hosted identity platform, which says nothing about her email
    being verified. [syncAuth0User] answers with, and stores, an Alice
    whose email is no longer verified and whose only role is [USER]. The
    same identity coming through a generic provider leaves the flag
    alone. *)
Theorem syncAuth0User_clears_the_verified_flag :
  find_user_by_email "alice@example.org" (Store.users Sample.store)
  = Some Sample.alice
  /\ User.emailVerified Sample.alice = true
  /\ or_false (RawUserInfo.email_verified auth0_alice) = false
  /\ (User.emailVerified
        <$> find_user_by_email "alice@example.org"
              (Store.users (World.store (world_after
                 (Auth0Service.syncAuth0User Sample.ctx auth0_alice
                                             Sample.world)))))
     = Some false
  /\ (User.roles
        <$> find_user_by_email "alice@example.org"
              (Store.users (World.store (world_after
                 (Auth0Service.syncAuth0User Sample.ctx auth0_alice
                                             Sample.world)))))
     = Some ["USER"]
  /\ (User.emailVerified
        <$> find_user_by_email "alice@example.org"
              (Store.users (World.store (world_after
                 (OAuthService.syncOAuthUser Sample.ctx oauth_alice
                                             Sample.world)))))
     = Some true.
Proof.
  repeat split; vm_compute; reflexivity.
Qed.

(** ** What a federated login returns *)

Lemma bind_ok_inv {A B : Type} (m : M A) (f : A -> M B) (w w' : World.t)
    (b : B) :
  (m ≫= f) w = (Ok b, w') ->
  exists a w1, m w = (Ok a, w1) /\ f a w1 = (Ok b, w').
Proof.
  rewrite bind_run. destruct (m w) as [[a | e] w1]; [eauto | discriminate].
Qed.

Lemma lift_ok_inv {A : Type} (r : Result A) (w w' : World.t) (a : A) :
  Jose.lift r w = (Ok a, w') -> r = Ok a /\ w' = w.
Proof.
  destruct r as [x | e]; simpl; unfold mret, M_ret, throw;
    intros [= <- <-] || intros [=]; auto.
Qed.

Lemma generateAccessToken_inv (ctx : Ctx.t) (user : User.t) (w w' : World.t)
    (token : Token) :
  generateAccessToken ctx user w = (Ok token, w') ->
  w' = w
  /\ exists kp m ttl,
      active_key_of (World.store w) = Some kp
      /\ KeyPair.privateKey kp = Pkcs8Pem m
      /\ token = Compact (signing_header kp)
                         (issued_access_claims ctx user ttl) (Some m).
Proof.
  unfold generateAccessToken. rewrite logged_run. intros H.
  apply bind_ok_inv in H as (k & w1 & Hk & H).
  assert (Hk' : w1 = w /\ (k = None \/ k = active_key_of (World.store w))).
  { unfold getActiveKeyPair, try_catch in Hk.
    destruct (client_getActiveKeyPair_cases ctx w) as [E | [E | [st E]]];
      rewrite E in Hk; injection Hk as <- <-; auto. }
  destruct Hk' as [-> Hk']. destruct k as [kp |]; [| discriminate].
  destruct Hk' as [Hk' | Hk']; [discriminate |].
  apply bind_ok_inv in H as (key & w2 & Hkey & H).
  apply lift_ok_inv in Hkey as [Hkey ->].
  apply lift_ok_inv in H as [H ->]. split; [reflexivity |].
  unfold Jose.importPKCS8 in Hkey.
  destruct (KeyPair.privateKey kp) as [k | k | t] eqn:Hpriv;
    try discriminate.
  destruct (Jose.supported (KeyPair.algorithm kp)); [| discriminate].
  injection Hkey as <-. unfold Jose.sign in H.
  destruct (Jose.secs _) as [ttl |]; [| discriminate].
  exists kp, k, ttl. split; [auto |]. split; [exact Hpriv |].
  cbn [Jose.is_private Jose.key_alg Jose.material andb] in H.
  rewrite bool_decide_true in H by reflexivity.
  injection H as <-. reflexivity.
Qed.

Lemma generateRefreshToken_inv (ctx : Ctx.t) (userId : string)
    (clientId : option string) (w w' : World.t) (token : string) :
  generateRefreshToken ctx userId clientId w = (Ok token, w') ->
  Store.keys (World.store w') = Store.keys (World.store w)
  /\ exists e,
      Store.refreshTokens (World.store w') !! token
      = Some (RefreshToken.mk token userId clientId e None).
Proof.
  unfold generateRefreshToken. rewrite logged_run. intros H.
  apply bind_ok_inv in H as (n & w1 & Hn & H).
  unfold draw in Hn. injection Hn as <- <-.
  apply bind_ok_inv in H as (e & w2 & He & H).
  apply lift_ok_inv in He as [He ->].
  apply bind_ok_inv in H as (rec & w3 & Hrec & H).
  injection H as <- <-.
  unfold DbServiceClient.createRefreshToken, DbServiceClient.request in Hrec.
  destruct (Ctx.outage ctx OpCreateRefreshToken); [discriminate |].
  apply bind_ok_inv in Hrec as (s & w4 & Hs & Hrec).
  unfold get_store in Hs. injection Hs as <- <-. simpl in Hrec.
  unfold Endpoint.post_refresh_token in Hrec. simpl in Hrec.
  destruct (Store.refreshTokens (World.store w)
              !! Ctx.randomBytes ctx (World.draws w)) eqn:Hfresh.
  - apply bind_ok_inv in Hrec as (x & w5 & _ & Hrec). discriminate.
  - apply bind_ok_inv in Hrec as (x & w5 & Hput & Hrec).
    unfold put_store in Hput. injection Hput as _ <-.
    injection Hrec as _ <-. simpl. split; [reflexivity |].
    exists e. apply lookup_insert_eq.
Qed.

Lemma own_tokens_intro (ctx : Ctx.t) (user : User.t) (w3 w4 w5 : World.t)
    (token : Token) (refresh provider : string)
    (td : option Federated.TokenData) :
  generateAccessToken ctx user w3 = (Ok token, w4) ->
  generateRefreshToken ctx (User.id user) None w4 = (Ok refresh, w5) ->
  own_tokens ctx w5
    (Federated.mkAuthResult true token refresh user provider td).
Proof.
  intros Ha Hr.
  apply generateAccessToken_inv in Ha as (-> & kp & m & ttl & Hk & Hp & ->).
  apply generateRefreshToken_inv in Hr as (Hkeys & e & He).
  split.
  - exists kp, m, ttl. unfold active_key_of in *. rewrite Hkeys. auto.
  - exists e. exact He.
Qed.

Lemma exchangeCodeForToken_inv (ctx : Ctx.t) (net : Providers.t)
    (provider code redirectUri state : string) (w w' : World.t)
    (data : ProviderTokens.t) :
  OAuthService.exchangeCodeForToken ctx net provider code redirectUri state w
  = (Ok data, w') ->
  Providers.token_endpoint net provider code redirectUri = Some data.
Proof.
  unfold OAuthService.exchangeCodeForToken.
  destruct (OAuthService.providers _ _) as [config |]; [| discriminate].
  destruct (_ && _); [| discriminate].
  destruct (Providers.token_endpoint net provider code redirectUri);
    [| discriminate].
  intros [= <- _]. reflexivity.
Qed.

(** C5, as the code has it. In the result of every successful federated
    login the [accessToken] and [refreshToken] are this service's own. On
    the hosted-platform flow the result carries no provider-issued
    token. On the generic flow the result carries, besides, a
    [tokenData] property holding the access token, the refresh token and
    the lifetime that the provider's token endpoint answered to the code
    exchange. *)
Theorem federated_login_result
    (ctx : Ctx.t) (net : Providers.t) (w : World.t) :
  (forall provider code state r after,
     OAuthService.authenticateWithProvider ctx net provider code state w
     = (Ok r, after) ->
     own_tokens ctx after r
     /\ exists redirectUri data,
         Providers.token_endpoint net provider code redirectUri = Some data
         /\ Federated.tokenData r
            = Some (Federated.mkTokenData
                      (ProviderTokens.access_token data)
                      (ProviderTokens.refresh_token data)
                      (ProviderTokens.expires_in data)))
  /\ (forall auth0Token r after,
       Auth0Service.authenticateWithAuth0 ctx net auth0Token w
       = (Ok r, after) ->
       own_tokens ctx after r /\ Federated.provider_tokens r = []).
Proof.
  split.
  - intros provider code state r after.
    unfold OAuthService.authenticateWithProvider. rewrite logged_run.
    intros H.
    apply bind_ok_inv in H as (data & w1 & Hdata & H).
    apply bind_ok_inv in H as (info & w2 & Hinfo & H).
    destruct (negb (truthy (OAuthService.email info))); [discriminate |].
    apply bind_ok_inv in H as (localUser & w3 & Hsync & H).
    apply bind_ok_inv in H as (token & w4 & Htoken & H).
    apply bind_ok_inv in H as (refresh & w5 & Hrefresh & H).
    injection H as <- <-. split.
    + exact (own_tokens_intro _ _ _ _ _ _ _ _ _ Htoken Hrefresh).
    + eexists _, data. split; [| reflexivity].
      exact (exchangeCodeForToken_inv _ _ _ _ _ _ _ _ _ Hdata).
  - intros auth0Token r after.
    unfold Auth0Service.authenticateWithAuth0. rewrite logged_run.
    intros H.
    apply bind_ok_inv in H as (payload & w1 & _ & H).
    apply bind_ok_inv in H as (info & w2 & _ & H).
    apply bind_ok_inv in H as (localUser & w3 & _ & H).
    apply bind_ok_inv in H as (token & w4 & Htoken & H).
    apply bind_ok_inv in H as (refresh & w5 & Hrefresh & H).
    injection H as <- <-. split; [| reflexivity].
    exact (own_tokens_intro _ _ _ _ _ _ _ _ _ Htoken Hrefresh).
Qed.

Lemma federated_login_result_witness :
  match OAuthService.authenticateWithProvider Sample.ctx net "google"
          "good-code" "state-1" Sample.world with
  | (Ok r, after) =>
      own_tokens Sample.ctx after r
      /\ Federated.tokenData r
         = Some (Federated.mkTokenData (val (Garbage "ya29.provider-access"))
                   (val (Garbage "1//provider-refresh")) (val 3599))
  | (Throw _, _) => False
  end
  /\ match Auth0Service.authenticateWithAuth0 Sample.ctx net auth0_token
            Sample.world with
     | (Ok r, after) =>
         own_tokens Sample.ctx after r /\ Federated.provider_tokens r = []
     | (Throw _, _) => False
     end.
Proof.
  destruct (federated_login_result Sample.ctx net Sample.world)
    as [Hgeneric Hhosted].
  split.
  - destruct (OAuthService.authenticateWithProvider Sample.ctx net "google"
                "good-code" "state-1" Sample.world)
      as [[r | e] after] eqn:Hrun.
    + destruct (Hgeneric _ _ _ _ _ Hrun) as [Hown _].
      split; [exact Hown |].
      vm_compute in Hrun. injection Hrun as <- _. reflexivity.
    + vm_compute in Hrun. discriminate.
  - destruct (Auth0Service.authenticateWithAuth0 Sample.ctx net auth0_token
                Sample.world) as [[r | e] after] eqn:Hrun.
    + exact (Hhosted _ _ _ Hrun).
    + vm_compute in Hrun. discriminate.
Defined.

(** C5, counterexample to the claim as stated. A successful login
    through the generic flow returns, in its [tokenData], the access
    token and the refresh token that the provider issued at the code
    exchange. *)
Lemma generic_flow_returns_provider_tokens :
  Providers.token_endpoint net "google" "good-code"
                           "https://app.example/auth/callback/google"
  = Some provider_answer
  /\ ProviderTokens.access_token provider_answer
     = val (Garbage "ya29.provider-access")
  /\ ProviderTokens.refresh_token provider_answer
     = val (Garbage "1//provider-refresh")
  /\ match outcome (OAuthService.authenticateWithProvider Sample.ctx net
                      "google" "good-code" "state-1" Sample.world) with
     | Ok r =>
         Federated.provider_tokens r
         = [val (Garbage "ya29.provider-access");
            val (Garbage "1//provider-refresh")]
     | Throw _ => False
     end.
Proof.
  repeat split; vm_compute; reflexivity.
Qed.

(** * Further properties of the code *)

(** ** What [verifyAccessToken] accepts and how it fails *)

Lemma mret_run {A : Type} (a : A) (w : World.t) :
  (mret a : M A) w = (Ok a, w).
Proof. reflexivity. Qed.

Lemma throw_run {A : Type} (e : Exn) (w : World.t) :
  (throw e : M A) w = (Throw e, w).
Proof. reflexivity. Qed.

Lemma try_catch_ok_inv {A : Type} (m : M A) (h : Exn -> M A)
    (w w' : World.t) (a : A) :
  try_catch m h w = (Ok a, w') ->
  m w = (Ok a, w')
  \/ exists e w1, m w = (Throw e, w1) /\ h e w1 = (Ok a, w').
Proof.
  unfold try_catch. destruct (m w) as [[x | e] w1]; intros H.
  - left. exact H.
  - right. eauto.
Qed.

Lemma validate_claims_inv (ctx : Ctx.t) (p q : Claims.t) :
  Jose.validate_claims (Ctx.now ctx) (Env.API_URL (Ctx.env ctx))
                       (Env.FRONTEND_URL (Ctx.env ctx)) p = Ok q ->
  q = p /\ issuer_ok ctx p = true /\ audience_ok ctx p = true
  /\ unexpired ctx p = true.
Proof.
  unfold Jose.validate_claims, issuer_ok, audience_ok, unexpired.
  destruct (Jose.claim_matches (Env.API_URL (Ctx.env ctx)) (Claims.iss p));
    [| discriminate].
  destruct (Jose.claim_matches (Env.FRONTEND_URL (Ctx.env ctx))
                               (Claims.aud p)); [| discriminate].
  simpl. destruct (Claims.exp p) as [e |].
  - destruct (e <=? Jose.epoch (Ctx.now ctx)); [discriminate |].
    intros [= <-]. auto.
  - intros [= <-]. auto.
Qed.

Lemma importSPKI_inv (pem : Pem) (alg : string) (key : Jose.CryptoKey) :
  Jose.importSPKI pem alg = Ok key ->
  exists m, pem = SpkiPem m /\ Jose.supported alg = true
            /\ key = Jose.mkKey m alg false.
Proof.
  unfold Jose.importSPKI. destruct pem as [m | m | t]; try discriminate.
  destruct (Jose.supported alg); [| discriminate].
  intros [= <-]. eauto.
Qed.

(** What the call of [jwtVerify] with a fixed key establishes. *)
Lemma jwtVerify_inv (ctx : Ctx.t) (token : Token) (key : Jose.CryptoKey)
    (w w' : World.t) (claims : Claims.t) :
  Jose.jwtVerify (Ctx.now ctx) token (fun _ => mret key)
                 (Env.API_URL (Ctx.env ctx)) (Env.FRONTEND_URL (Ctx.env ctx)) w
  = (Ok claims, w') ->
  exists h,
    token = Compact h claims (Some (Jose.material key))
    /\ Header.alg h = Some (Jose.key_alg key)
    /\ Jose.is_private key = false
    /\ issuer_ok ctx claims = true /\ audience_ok ctx claims = true
    /\ unexpired ctx claims = true.
Proof.
  unfold Jose.jwtVerify. destruct token as [t | h | h p signer];
    try discriminate.
  destruct (Header.alg h) as [a |] eqn:Halg; [| discriminate].
  rewrite bind_run. rewrite mret_run. cbv beta iota.
  destruct (Jose.is_private key) eqn:Hpriv; [discriminate |].
  destruct (String.eqb_spec a (Jose.key_alg key)) as [-> | Hne];
    [| discriminate].
  cbn [orb negb]. unfold Jose.signature_ok.
  destruct (bool_decide (signer = Some (Jose.material key))) eqn:Hsig;
    [| discriminate].
  apply bool_decide_eq_true in Hsig. subst signer. cbn [negb].
  intros H. apply lift_ok_inv in H as [H _].
  apply validate_claims_inv in H as (-> & Hi & Ha & He).
  exists h. auto 10.
Qed.

(** X1. [verifyAccessToken] returns claims only for a well-formed token
    whose signature was made by the key pair that the store client
    answered to the lookup of the identifier in the token's header, for
    the algorithm of that key pair, with matching issuer and audience and
    an expiry in the future; the claims returned are those of the
    token. *)
Theorem verifyAccessToken_sound
    (ctx : Ctx.t) (token : Token) (w : World.t) (claims : Claims.t) :
  outcome (verifyAccessToken ctx token w) = Ok claims ->
  exists h m kid kp,
    token = Compact h claims (Some m)
    /\ truthy_kid h = Some kid
    /\ outcome (DbServiceClient.getKeyPairByKid ctx kid w) = Ok (Some kp)
    /\ KeyPair.publicKey kp = SpkiPem m
    /\ Header.alg h = Some (KeyPair.algorithm kp)
    /\ issuer_ok ctx claims = true /\ audience_ok ctx claims = true
    /\ unexpired ctx claims = true.
Proof.
  unfold outcome at 1.
  destruct (verifyAccessToken ctx token w) as [r w'] eqn:H. simpl.
  intros ->. unfold verifyAccessToken in H.
  apply try_catch_ok_inv in H as [H | (e & w1 & _ & H)].
  - apply bind_ok_inv in H as (h0 & w1 & Hd & H).
    apply lift_ok_inv in Hd as [Hd ->].
    destruct (truthy_kid h0) as [kid |] eqn:Hkid; [| discriminate].
    apply bind_ok_inv in H as (r & w2 & Hr & H).
    destruct r as [kp |]; [| discriminate].
    apply bind_ok_inv in H as (key & w3 & Hkeyimp & H).
    apply lift_ok_inv in Hkeyimp as [Himp ->].
    apply importSPKI_inv in Himp as (m & Hpub & Hsup & ->).
    apply jwtVerify_inv in H as (h & -> & Halg & _ & Hi & Ha & He).
    simpl in Hd. injection Hd as <-.
    exists h, m, kid, kp.
    split; [reflexivity |]. split; [exact Hkid |].
    split; [unfold outcome; rewrite Hr; reflexivity |].
    simpl in *. auto 10.
  - exfalso. destruct (bool_decide (error_code e = Some "ERR_JWT_EXPIRED"));
      [discriminate |].
    destruct (is_AppError e); discriminate.
Qed.

Lemma verifyAccessToken_sound_witness :
  exists h m kid kp,
    access_token
    = Compact h (issued_access_claims Sample.ctx Sample.alice 900) (Some m)
    /\ truthy_kid h = Some kid
    /\ outcome (DbServiceClient.getKeyPairByKid Sample.ctx kid Sample.world)
       = Ok (Some kp)
    /\ KeyPair.publicKey kp = SpkiPem m
    /\ Header.alg h = Some (KeyPair.algorithm kp)
    /\ issuer_ok Sample.ctx (issued_access_claims Sample.ctx Sample.alice 900)
       = true
    /\ audience_ok Sample.ctx
                   (issued_access_claims Sample.ctx Sample.alice 900) = true
    /\ unexpired Sample.ctx (issued_access_claims Sample.ctx Sample.alice 900)
       = true.
Proof.
  apply (verifyAccessToken_sound Sample.ctx access_token Sample.world).
  vm_compute. reflexivity.
Defined.

Lemma jwtVerify_fixed_key_cases (now : Z) (token : Token)
    (key : Jose.CryptoKey) (issuer audience : option string) (w : World.t) :
  (exists claims,
     Jose.jwtVerify now token (fun _ => mret key) issuer audience w
     = (Ok claims, w))
  \/ (exists e, is_AppError e = false
        /\ Jose.jwtVerify now token (fun _ => mret key) issuer audience w
           = (Throw e, w)).
Proof.
  unfold Jose.jwtVerify.
  destruct token as [t | h | h p signer];
    try (right; eexists; split; [| reflexivity]; reflexivity).
  destruct (Header.alg h) as [a |];
    [| right; eexists; split; [| reflexivity]; reflexivity].
  rewrite bind_run. rewrite mret_run. cbv beta iota.
  destruct (Jose.is_private key || negb (String.eqb a (Jose.key_alg key)));
    [right; eexists; split; [| reflexivity]; reflexivity |].
  destruct (negb (Jose.signature_ok h signer key));
    [right; eexists; split; [| reflexivity]; reflexivity |].
  unfold Jose.validate_claims.
  destruct (negb (Jose.claim_matches issuer (Claims.iss p)));
    [right; eexists; split; [| reflexivity]; reflexivity |].
  destruct (negb (Jose.claim_matches audience (Claims.aud p)));
    [right; eexists; split; [| reflexivity]; reflexivity |].
  destruct (Claims.exp p) as [e |]; [| left; eexists; reflexivity].
  destruct (e <=? Jose.epoch now);
    [right; eexists; split; [| reflexivity]; reflexivity
    | left; eexists; reflexivity].
Qed.

Lemma verifyAccessToken_verdict (ctx : Ctx.t) (token : Token) (w : World.t) :
  exists r, verifyAccessToken ctx token w = (r, w) /\ access_verdict r.
Proof.
  assert (Hfallback : forall e : Exn, is_AppError e = false ->
    exists r,
      (if bool_decide (error_code e = Some "ERR_JWT_EXPIRED")
       then throw (AppError "Token expiré" 401 AuthErrorCodes.TOKEN_EXPIRED)
       else if is_AppError e then throw e
       else throw (AppError "Token invalide" 401
                            AuthErrorCodes.TOKEN_INVALID)) w
      = ((r : Result Claims.t), w) /\ access_verdict r).
  { intros e He. rewrite He.
    destruct (bool_decide (error_code e = Some "ERR_JWT_EXPIRED"));
      eexists; (split; [reflexivity | constructor]). }
  unfold verifyAccessToken, try_catch. rewrite bind_run.
  destruct (decode_header token) as [h | e] eqn:Hd.
  - simpl Jose.lift. rewrite mret_run. cbv beta iota.
    destruct (truthy_kid h) as [kid |].
    + rewrite bind_run.
      destruct (ClientFacts.getKeyPairByKid_cases ctx kid w)
        as [(r & Hr) | (st & Hr)]; rewrite Hr; cbv beta iota.
      * destruct r as [kp |].
        -- rewrite bind_run.
           destruct (Jose.importSPKI (KeyPair.publicKey kp)
                                     (KeyPair.algorithm kp)) as [key | e]
             eqn:Himp.
           ++ simpl Jose.lift. rewrite mret_run.
              cbv beta iota.
              destruct (jwtVerify_fixed_key_cases (Ctx.now ctx) token key
                          (Env.API_URL (Ctx.env ctx))
                          (Env.FRONTEND_URL (Ctx.env ctx)) w)
                as [(claims & Hv) | (e & He & Hv)]; rewrite Hv.
              ** eexists. split; [reflexivity | constructor].
              ** apply Hfallback, He.
           ++ simpl Jose.lift. rewrite throw_run. cbv beta iota.
              apply Hfallback. unfold Jose.importSPKI in Himp.
              destruct (KeyPair.publicKey kp);
                try (injection Himp as <-; reflexivity).
              destruct (Jose.supported _); [discriminate |].
              injection Himp as <-. reflexivity.
        -- eexists. split; [reflexivity | constructor].
      * apply Hfallback. reflexivity.
    + eexists. split; [reflexivity | constructor].
  - simpl Jose.lift. rewrite throw_run. cbv beta iota.
    apply Hfallback. destruct token; simpl in Hd; try discriminate.
    injection Hd as <-. reflexivity.
Qed.

(** X2. Whatever the token and the state of the key directory,
    [verifyAccessToken] fails only with an [AppError] of status 401 whose
    kind is [TOKEN_EXPIRED] or [TOKEN_INVALID]: store failures and
    library errors never reach the caller unclassified. The call leaves
    the store untouched. *)
Theorem verifyAccessToken_failures
    (ctx : Ctx.t) (token : Token) (w : World.t) (e : Exn) :
  outcome (verifyAccessToken ctx token w) = Throw e ->
  (exists msg code,
     e = AppError msg 401 code
     /\ (code = AuthErrorCodes.TOKEN_EXPIRED
         \/ code = AuthErrorCodes.TOKEN_INVALID))
  /\ world_after (verifyAccessToken ctx token w) = w.
Proof.
  destruct (verifyAccessToken_verdict ctx token w) as (r & Hrun & Hr).
  rewrite Hrun. unfold outcome, world_after. simpl. intros ->.
  split; [| reflexivity]. inversion Hr; eauto.
Qed.

Lemma verifyAccessToken_failures_witness :
  (exists msg code,
     AppError "Clé de signature introuvable" 401 "TOKEN_INVALID"
     = AppError msg 401 code
     /\ (code = AuthErrorCodes.TOKEN_EXPIRED
         \/ code = AuthErrorCodes.TOKEN_INVALID))
  /\ world_after (verifyAccessToken Sample.ctx Sample.stray_token
                                    Sample.world) = Sample.world.
Proof.
  apply (verifyAccessToken_failures Sample.ctx Sample.stray_token
                                    Sample.world).
  vm_compute. reflexivity.
Defined.

Lemma validate_claims_expired (ctx : Ctx.t) (p : Claims.t) :
  issuer_ok ctx p = true -> audience_ok ctx p = true ->
  unexpired ctx p = false ->
  Jose.validate_claims (Ctx.now ctx) (Env.API_URL (Ctx.env ctx))
                       (Env.FRONTEND_URL (Ctx.env ctx)) p
  = Throw (JoseError "ERR_JWT_EXPIRED").
Proof.
  unfold issuer_ok, audience_ok, unexpired, Jose.validate_claims.
  intros -> -> H. simpl.
  destruct (Claims.exp p) as [e |]; [| discriminate].
  apply negb_false_iff in H. rewrite H. reflexivity.
Qed.

Lemma verifyAccessToken_rejects_expired (ctx : Ctx.t) (w : World.t)
    (h : Header.t) (p : Claims.t) (m : N) (kid : string) (kp : KeyPair.t) :
  Ctx.outage ctx OpGetKeyPairByKid = None ->
  truthy_kid h = Some kid ->
  key_of_kid kid (World.store w) = Some kp ->
  KeyPair.publicKey kp = SpkiPem m ->
  Jose.supported (KeyPair.algorithm kp) = true ->
  Header.alg h = Some (KeyPair.algorithm kp) ->
  issuer_ok ctx p = true -> audience_ok ctx p = true ->
  unexpired ctx p = false ->
  verifyAccessToken ctx (Compact h p (Some m)) w
  = (Throw (AppError "Token expiré" 401 AuthErrorCodes.TOKEN_EXPIRED), w).
Proof.
  intros Hlink Hkid Hkey Hpub Hsup Halg Hiss Haud Hexp.
  unfold verifyAccessToken, try_catch. rewrite bind_run. simpl.
  rewrite Hkid, bind_run, (ClientFacts.getKeyPairByKid_run _ _ _ Hlink).
  unfold key_of_kid in Hkey. rewrite Hkey, bind_run.
  unfold Jose.importSPKI. rewrite Hpub, Hsup. simpl.
  rewrite Halg, bind_run. simpl. rewrite String.eqb_refl. simpl.
  unfold Jose.signature_ok. simpl.
  rewrite bool_decide_true by reflexivity. simpl.
  rewrite (validate_claims_expired _ _ Hiss Haud Hexp). reflexivity.
Qed.

(** X3. An access token of this service presented at or after its expiry
    instant is refused with [TOKEN_EXPIRED]. Together with the round trip
    this fixes the validity of an issued token to the instants strictly
    before [(floor(now / 1000) + ttl) * 1000] milliseconds. *)
Theorem issued_access_token_expires
    (ctx : Ctx.t) (w : World.t) (user : User.t) (kp : KeyPair.t) (m : N)
    (ttl later : Z) :
  Ctx.outage ctx OpGetActiveKeyPair = None ->
  Ctx.outage ctx OpGetKeyPairByKid = None ->
  active_key_of (World.store w) = Some kp ->
  well_formed_key kp m ->
  key_of_kid (KeyPair.kid kp) (World.store w) = Some kp ->
  access_ttl ctx = Some ttl ->
  (Jose.epoch (Ctx.now ctx) + ttl) * 1000 <= later ->
  exists token,
    outcome (generateAccessToken ctx user w) = Ok token
    /\ outcome (verifyAccessToken (at_time later ctx) token w)
       = Throw (AppError "Token expiré" 401 AuthErrorCodes.TOKEN_EXPIRED).
Proof.
  intros Hact Hkid Hactive (Hpriv & Hpub & Hsup & Hne) Hdir Httl Hlater.
  eexists. split.
  { rewrite (generateAccessToken_run _ _ _ _ _ _ Hact Hactive Hpriv Hsup Httl).
    reflexivity. }
  rewrite (verifyAccessToken_rejects_expired (at_time later ctx) w _ _ m
             (KeyPair.kid kp) kp); try assumption; try reflexivity.
  - apply truthy_kid_signing_header, Hne.
  - apply claim_matches_refl.
  - apply claim_matches_refl.
  - unfold unexpired. simpl. apply negb_false_iff, Z.leb_le.
    unfold Jose.epoch in *. apply Z.div_le_lower_bound; lia.
Qed.

Lemma issued_access_token_expires_witness :
  exists token,
    outcome (generateAccessToken Sample.ctx Sample.alice Sample.world)
    = Ok token
    /\ outcome (verifyAccessToken (at_time 1700000900000 Sample.ctx) token
                                  Sample.world)
       = Throw (AppError "Token expiré" 401 AuthErrorCodes.TOKEN_EXPIRED).
Proof.
  apply (issued_access_token_expires Sample.ctx Sample.world Sample.alice
           Sample.active_key 9%N 900 1700000900000).
  - reflexivity.
  - reflexivity.
  - reflexivity.
  - repeat split; try reflexivity. vm_compute. discriminate.
  - reflexivity.
  - reflexivity.
  - vm_compute. discriminate.
Defined.

(** ** Email-verification tokens, issued and presented *)

Lemma generateEmailVerificationToken_run (ctx : Ctx.t) (user : User.t)
    (w : World.t) (kp : KeyPair.t) (m : N) :
  Ctx.outage ctx OpGetActiveKeyPair = None ->
  active_key_of (World.store w) = Some kp ->
  KeyPair.privateKey kp = Pkcs8Pem m ->
  Jose.supported (KeyPair.algorithm kp) = true ->
  generateEmailVerificationToken ctx user w
  = (Ok (Compact (signing_header kp)
           (Claims.mk (Some (User.id user)) None None None
                      (Some "email_verification")
                      (Env.API_URL (Ctx.env ctx))
                      (Env.FRONTEND_URL (Ctx.env ctx))
                      (Some (Jose.epoch (Ctx.now ctx)))
                      (Some (Jose.epoch (Ctx.now ctx) + 86400)))
           (Some m)), w).
Proof.
  intros Hlink Hactive Hpriv Halg.
  unfold generateEmailVerificationToken.
  rewrite logged_run, bind_run, (jwt_getActiveKeyPair_run _ _ Hlink), Hactive.
  rewrite bind_run. unfold Jose.importPKCS8. rewrite Hpriv, Halg. simpl.
  unfold Jose.sign.
  change (Jose.secs "24h") with (Some 86400). cbv beta iota.
  cbn [Jose.is_private Jose.key_alg Jose.material andb].
  rewrite bool_decide_true by reflexivity. reflexivity.
Qed.

(** X4. An email-verification token issued by this service is accepted
    by [verifyEmailVerificationToken] at every instant of the following
    24 hours, as long as the key pair that signed it is still the active
    one, and the claims returned name the user and the purpose. *)
Theorem email_verification_round_trip
    (ctx : Ctx.t) (w : World.t) (user : User.t) (kp : KeyPair.t) (m : N)
    (later : Z) :
  Ctx.outage ctx OpGetActiveKeyPair = None ->
  active_key_of (World.store w) = Some kp ->
  KeyPair.privateKey kp = Pkcs8Pem m ->
  KeyPair.publicKey kp = SpkiPem m ->
  Jose.supported (KeyPair.algorithm kp) = true ->
  later < (Jose.epoch (Ctx.now ctx) + 86400) * 1000 ->
  exists token claims,
    outcome (generateEmailVerificationToken ctx user w) = Ok token
    /\ outcome (verifyEmailVerificationToken (at_time later ctx) token w)
       = Ok claims
    /\ Claims.sub claims = Some (User.id user)
    /\ Claims.purpose claims = Some "email_verification".
Proof.
  intros Hlink Hactive Hpriv Hpub Hsup Hlater.
  set (claims := Claims.mk (Some (User.id user)) None None None
                   (Some "email_verification") (Env.API_URL (Ctx.env ctx))
                   (Env.FRONTEND_URL (Ctx.env ctx))
                   (Some (Jose.epoch (Ctx.now ctx)))
                   (Some (Jose.epoch (Ctx.now ctx) + 86400))).
  exists (Compact (signing_header kp) claims (Some m)), claims. split.
  { rewrite (generateEmailVerificationToken_run _ _ _ kp m); auto. }
  split; [| split; reflexivity].
  rewrite (verifyEmailVerificationToken_run (at_time later ctx) w _ _ m kp);
    try assumption; try reflexivity; try apply claim_matches_refl.
  unfold unexpired. simpl. apply negb_true_iff, Z.leb_gt.
  unfold Jose.epoch in *. apply Z.div_lt_upper_bound; lia.
Qed.

Lemma email_verification_round_trip_witness :
  exists token claims,
    outcome (generateEmailVerificationToken Sample.ctx Sample.bob
                                            Sample.world) = Ok token
    /\ outcome (verifyEmailVerificationToken
                  (at_time 1700086399999 Sample.ctx) token Sample.world)
       = Ok claims
    /\ Claims.sub claims = Some "u2"
    /\ Claims.purpose claims = Some "email_verification".
Proof.
  apply (email_verification_round_trip Sample.ctx Sample.world Sample.bob
           Sample.active_key 9%N 1700086399999).
  - reflexivity.
  - reflexivity.
  - reflexivity.
  - reflexivity.
  - reflexivity.
  - vm_compute. reflexivity.
Defined.

Lemma jwtVerify_cases (now : Z) (token : Token)
    (getKey : Header.t -> M Jose.CryptoKey) (issuer audience : option string)
    (w : World.t) :
  (forall h,
     (exists key, getKey h w = (Ok key, w))
     \/ (exists e, is_AppError e = false /\ getKey h w = (Throw e, w))) ->
  (exists claims,
     Jose.jwtVerify now token getKey issuer audience w = (Ok claims, w))
  \/ (exists e, is_AppError e = false
        /\ Jose.jwtVerify now token getKey issuer audience w = (Throw e, w)).
Proof.
  intros Hkey. unfold Jose.jwtVerify.
  destruct token as [t | h | h p signer];
    try (right; eexists; split; [| reflexivity]; reflexivity).
  destruct (Header.alg h) as [a |];
    [| right; eexists; split; [| reflexivity]; reflexivity].
  rewrite bind_run.
  destruct (Hkey h) as [(key & Hk) | (e & He & Hk)]; rewrite Hk;
    cbv beta iota; [| right; eauto].
  destruct (Jose.is_private key || negb (String.eqb a (Jose.key_alg key)));
    [right; eexists; split; [| reflexivity]; reflexivity |].
  destruct (negb (Jose.signature_ok h signer key));
    [right; eexists; split; [| reflexivity]; reflexivity |].
  unfold Jose.validate_claims.
  destruct (negb (Jose.claim_matches issuer (Claims.iss p)));
    [right; eexists; split; [| reflexivity]; reflexivity |].
  destruct (negb (Jose.claim_matches audience (Claims.aud p)));
    [right; eexists; split; [| reflexivity]; reflexivity |].
  destruct (Claims.exp p) as [e |]; [| left; eexists; reflexivity].
  destruct (e <=? Jose.epoch now);
    [right; eexists; split; [| reflexivity]; reflexivity
    | left; eexists; reflexivity].
Qed.

(** X5. [verifyEmailVerificationToken] fails in exactly two ways: with
    [INVALID_TOKEN_PURPOSE] (status 400) for a token that passed
    signature, issuer, audience and expiry, and with the generic
    [INVALID_VERIFICATION_TOKEN] (status 401) for everything else, so that
    an expired token, a forged one and an unreachable key store cannot be
    told apart by the caller. The call leaves the store untouched. *)
Theorem verifyEmailVerificationToken_failures
    (ctx : Ctx.t) (token : Token) (w : World.t) (e : Exn) :
  outcome (verifyEmailVerificationToken ctx token w) = Throw e ->
  (e = AppError "Token invalide (mauvais usage)" 400 INVALID_TOKEN_PURPOSE
   \/ e = generic_verification_failure)
  /\ world_after (verifyEmailVerificationToken ctx token w) = w.
Proof.
  unfold verifyEmailVerificationToken, try_catch, outcome, world_after.
  rewrite bind_run.
  destruct (jwtVerify_cases (Ctx.now ctx) token (active_key_resolver ctx)
              (Env.API_URL (Ctx.env ctx)) (Env.FRONTEND_URL (Ctx.env ctx)) w)
    as [(claims & Hv) | (e0 & He0 & Hv)].
  - intros h.
    destruct (active_key_resolver_cases ctx h w)
      as [(kp & k & _ & _ & Hrun) | (e0 & He0 & Hrun)]; eauto.
  - rewrite Hv. cbv beta iota.
    destruct (bool_decide (Claims.purpose claims = Some "email_verification"));
      simpl; [discriminate |].
    intros [= <-]. auto.
  - rewrite Hv. cbv beta iota. rewrite He0. simpl.
    intros [= <-]. auto.
Qed.

Lemma verifyEmailVerificationToken_failures_witness :
  (generic_verification_failure
   = AppError "Token invalide (mauvais usage)" 400 INVALID_TOKEN_PURPOSE
   \/ generic_verification_failure = generic_verification_failure)
  /\ world_after (verifyEmailVerificationToken Sample.ctx old_email_token
                                               Sample.world) = Sample.world.
Proof.
  apply (verifyEmailVerificationToken_failures Sample.ctx old_email_token
                                               Sample.world).
  vm_compute. reflexivity.
Defined.

(** ** Sessions: issuing, logging in, revoking *)

(** X6. A refresh token that [generateRefreshToken] has just issued is
    accepted by [verifyRefreshToken] at every instant up to its expiry,
    and the record returned carries the user id and client id it was
    issued for; issuing it changes no other refresh-token record. *)
Theorem issued_refresh_token_verifies
    (ctx : Ctx.t) (w : World.t) (userId : string) (clientId : option string)
    (e later : Z) :
  Ctx.outage ctx OpCreateRefreshToken = None ->
  Ctx.outage ctx OpGetRefreshTokenByValue = None ->
  refresh_expiry ctx = Ok e ->
  Store.refreshTokens (World.store w) !! next_token ctx w = None ->
  later <= e ->
  exists issued,
    generateRefreshToken ctx userId clientId w
    = (Ok (next_token ctx w), issued)
    /\ outcome (verifyRefreshToken (at_time later ctx) (next_token ctx w)
                                   issued)
       = Ok (RefreshToken.mk (next_token ctx w) userId clientId e None)
    /\ forall other,
         other <> next_token ctx w ->
         Store.refreshTokens (World.store issued) !! other
         = Store.refreshTokens (World.store w) !! other.
Proof.
  intros Hcreate Hget He Hfresh Hlater.
  eexists. split.
  { exact (generateRefreshToken_run ctx userId clientId w e Hcreate He
             Hfresh). }
  split.
  - rewrite (verifyRefreshToken_run (at_time later ctx) _ _ Hget). simpl.
    rewrite lookup_insert_eq. simpl.
    apply Z.ltb_ge in Hlater. rewrite Hlater. reflexivity.
  - intros other Hne. simpl. apply lookup_insert_ne. congruence.
Qed.

Lemma issued_refresh_token_verifies_witness :
  exists issued,
    generateRefreshToken Sample.ctx "u1" (Some "web") Sample.world
    = (Ok "rt-0", issued)
    /\ outcome (verifyRefreshToken (at_time 1700604800000 Sample.ctx) "rt-0"
                                   issued)
       = Ok (RefreshToken.mk "rt-0" "u1" (Some "web") 1700604800000 None)
    /\ forall other,
         other <> "rt-0" ->
         Store.refreshTokens (World.store issued) !! other
         = Store.refreshTokens Sample.store !! other.
Proof.
  apply (issued_refresh_token_verifies Sample.ctx Sample.world "u1"
           (Some "web") 1700604800000 1700604800000).
  - reflexivity.
  - reflexivity.
  - vm_compute. reflexivity.
  - vm_compute. reflexivity.
  - vm_compute. discriminate.
Defined.

Lemma getUserByEmail_run (ctx : Ctx.t) (email : string) (w : World.t) :
  Ctx.outage ctx OpGetUserByEmail = None ->
  DbServiceClient.getUserByEmail ctx email w
  = (match find_user_by_email email (Store.users (World.store w)) with
     | Some u => Ok u
     | None => Throw (AxiosError (Some 404))
     end, w).
Proof.
  intros H. unfold DbServiceClient.getUserByEmail.
  rewrite (ClientFacts.request_read_only _ _ _ _ H).
  unfold Endpoint.get_user_by_email.
  destruct (find_user_by_email _ _); reflexivity.
Qed.

(** X7. A login with the stored password of an active user succeeds: it
    returns that user, an access token for that user, signed with the
    private half of the active key pair under that pair's header and for
    the configured lifetime, and a refresh token which the store holds
    for the user and which [verifyRefreshToken] accepts. *)
Theorem login_issues_working_tokens
    (ctx : Ctx.t) (w : World.t) (email password : string) (u : User.t)
    (e : Z) :
  healthy ctx ->
  find_user_by_email email (Store.users (World.store w)) = Some u ->
  User.active u = true ->
  Store.passwords (World.store w) !! User.id u = Some password ->
  can_sign ctx (World.store w) ->
  refresh_expiry ctx = Ok e ->
  Store.refreshTokens (World.store w) !! next_token ctx w = None ->
  Ctx.now ctx <= e ->
  exists result after,
    AuthService.login ctx email password w = (Ok result, after)
    /\ AuthService.user result = u
    /\ (exists kp m ttl,
          active_key_of (World.store w) = Some kp
          /\ KeyPair.privateKey kp = Pkcs8Pem m
          /\ access_ttl ctx = Some ttl
          /\ AuthService.accessToken result
             = Compact (signing_header kp) (issued_access_claims ctx u ttl)
                       (Some m))
    /\ outcome (verifyRefreshToken ctx (AuthService.refreshToken_ result)
                                   after)
       = Ok (RefreshToken.mk (AuthService.refreshToken_ result) (User.id u)
                             None e None).
Proof.
  intros Hup Hu Hactive Hpw (kp & m & ttl & Hkey & Hpriv & Hsup & Httl)
         He Hfresh Hlive.
  destruct (find_user_by_id_of_email _ _ _ Hu) as [v Hv].
  eexists _, _. unfold AuthService.login.
  rewrite bind_run, catch_null_run, (getUserByEmail_run _ _ _ (Hup _)), Hu.
  cbv beta iota. rewrite Hactive. cbn [negb]. cbv iota.
  rewrite bind_run. unfold DbServiceClient.verifyPassword.
  rewrite (ClientFacts.request_read_only _ _ _ _ (Hup _)).
  unfold Endpoint.verify_password. rewrite Hv, Hpw, String.eqb_refl.
  cbv beta iota. cbn [negb]. cbv iota.
  run_with (generateAccessToken_run ctx u w kp m ttl (Hup _) Hkey Hpriv Hsup
              Httl).
  run_with (generateRefreshToken_run ctx (User.id u) None w e (Hup _) He
              Hfresh).
  rewrite mret_run.
  split; [reflexivity |]. split; [reflexivity |]. split.
  - exists kp, m, ttl. auto.
  - cbn [AuthService.refreshToken_].
    rewrite (verifyRefreshToken_run ctx _ _ (Hup _)). simpl.
    rewrite lookup_insert_eq. simpl.
    apply Z.ltb_ge in Hlive. rewrite Hlive. reflexivity.
Qed.

Lemma login_issues_working_tokens_witness :
  exists result after,
    AuthService.login Sample.ctx "alice@example.org" "correct horse"
                      Sample.world = (Ok result, after)
    /\ AuthService.user result = Sample.alice
    /\ (exists kp m ttl,
          active_key_of (World.store Sample.world) = Some kp
          /\ KeyPair.privateKey kp = Pkcs8Pem m
          /\ access_ttl Sample.ctx = Some ttl
          /\ AuthService.accessToken result
             = Compact (signing_header kp)
                       (issued_access_claims Sample.ctx Sample.alice ttl)
                       (Some m))
    /\ outcome (verifyRefreshToken Sample.ctx
                  (AuthService.refreshToken_ result) after)
       = Ok (RefreshToken.mk (AuthService.refreshToken_ result)
                             (User.id Sample.alice) None 1700604800000 None).
Proof.
  apply (login_issues_working_tokens Sample.ctx Sample.world
           "alice@example.org" "correct horse" Sample.alice 1700604800000).
  - intros op. reflexivity.
  - reflexivity.
  - reflexivity.
  - vm_compute. reflexivity.
  - exists Sample.active_key, 9%N, 900. repeat split; reflexivity.
  - vm_compute. reflexivity.
  - vm_compute. reflexivity.
  - vm_compute. discriminate.
Defined.

(** X8. For a deactivated account the password is never looked at: with
    any password, right or wrong, the login fails with [UNAUTHORIZED]
    (status 403), not with [INVALID_CREDENTIALS], and nothing is issued
    or changed. *)
Theorem login_of_deactivated_account
    (ctx : Ctx.t) (w : World.t) (email password : string) (u : User.t) :
  Ctx.outage ctx OpGetUserByEmail = None ->
  find_user_by_email email (Store.users (World.store w)) = Some u ->
  User.active u = false ->
  AuthService.login ctx email password w
  = (Throw (AppError "Ce compte a été désactivé" 403
                     AuthErrorCodes.UNAUTHORIZED), w).
Proof.
  intros Hlink Hu Hinactive. unfold AuthService.login.
  rewrite bind_run, catch_null_run, (getUserByEmail_run _ _ _ Hlink), Hu.
  cbv beta iota. rewrite Hinactive. reflexivity.
Qed.

Lemma login_of_deactivated_account_witness :
  AuthService.login Sample.ctx "bob@example.org" "anything" Sample.world
  = (Throw (AppError "Ce compte a été désactivé" 403
                     AuthErrorCodes.UNAUTHORIZED), Sample.world).
Proof.
  apply (login_of_deactivated_account Sample.ctx Sample.world
           "bob@example.org" "anything" Sample.bob); reflexivity.
Defined.

(** X9. [revokeToken] never throws: it always answers with a structured
    result, and that result reports success exactly when the revocation
    call went through and the store held a record for the value. Failures
    of the store and unknown values both give [success: false]. *)
Theorem revokeToken_reports (ctx : Ctx.t) (token : string) (w : World.t) :
  exists after,
    AuthService.revokeToken ctx token w
    = (Ok (if bool_decide (Ctx.outage ctx OpRevokeRefreshToken = None
                           /\ is_Some (Store.refreshTokens (World.store w)
                                       !! token))
           then AuthService.mkRevoke true "Token révoqué avec succès"
           else AuthService.mkRevoke false "Échec de la révocation du token"),
       after).
Proof.
  unfold AuthService.revokeToken. 
  destruct (Ctx.outage ctx OpRevokeRefreshToken) as [st |] eqn:Hout.
  - exists w. rewrite bind_run.
    rewrite (revokeRefreshToken_swallows ctx token w w (AxiosError st))
      by (apply ClientFacts.request_outage, Hout).
    rewrite bool_decide_false by (intros [[=] _]). reflexivity.
  - destruct (Store.refreshTokens (World.store w) !! token) as [r |] eqn:Hr.
    + eexists. rewrite bind_run, (revokeRefreshToken_run _ _ _ r Hout Hr).
      rewrite bool_decide_true by (split; eauto). reflexivity.
    + exists w. rewrite bind_run.
      rewrite (revokeRefreshToken_swallows ctx token w w
                 (AxiosError (Some 404))).
      * rewrite bool_decide_false by (intros [_ [x [=]]]). reflexivity.
      * unfold DbServiceClient.revokeRefreshToken.
        rewrite (ClientFacts.request_write _ _ _ _ Hout).
        unfold Endpoint.post_revoke. rewrite Hr. simpl.
        rewrite world_eta. reflexivity.
Qed.

(** X10. Once [revokeToken] has reported success for a refresh token,
    [verifyRefreshToken] never accepts that token again, at any instant:
    it fails with [TOKEN_INVALID], or with [TOKEN_EXPIRED] past the
    expiry. *)
Theorem revoked_token_is_dead
    (ctx : Ctx.t) (token : string) (w after : World.t) (later : Z) :
  Ctx.outage ctx OpGetRefreshTokenByValue = None ->
  AuthService.revokeToken ctx token w
  = (Ok (AuthService.mkRevoke true "Token révoqué avec succès"), after) ->
  exists msg code,
    outcome (verifyRefreshToken (at_time later ctx) token after)
    = Throw (AppError msg 401 code)
    /\ (code = AuthErrorCodes.TOKEN_INVALID
        \/ code = AuthErrorCodes.TOKEN_EXPIRED).
Proof.
  intros Hget Hrevoke.
  destruct (Ctx.outage ctx OpRevokeRefreshToken) as [st |] eqn:Hout.
  { unfold AuthService.revokeToken in Hrevoke. rewrite bind_run in Hrevoke.
    rewrite (revokeRefreshToken_swallows ctx token w w (AxiosError st))
      in Hrevoke by (apply ClientFacts.request_outage, Hout).
    discriminate. }
  destruct (Store.refreshTokens (World.store w) !! token) as [r |] eqn:Hr.
  - unfold AuthService.revokeToken in Hrevoke.
    rewrite bind_run, (revokeRefreshToken_run _ _ _ r Hout Hr) in Hrevoke.
    injection Hrevoke as <-.
    rewrite (verifyRefreshToken_run (at_time later ctx) _ _ Hget). simpl.
    rewrite lookup_insert_eq. simpl.
    destruct (RefreshToken.expiresAt r <? later).
    + eexists _, _. split; [reflexivity | auto].
    + destruct (RefreshToken.revokedAt r); eexists _, _;
        (split; [reflexivity | auto]).
  - unfold AuthService.revokeToken in Hrevoke. rewrite bind_run in Hrevoke.
    rewrite (revokeRefreshToken_swallows ctx token w w
               (AxiosError (Some 404))) in Hrevoke; [discriminate |].
    unfold DbServiceClient.revokeRefreshToken.
    rewrite (ClientFacts.request_write _ _ _ _ Hout).
    unfold Endpoint.post_revoke. rewrite Hr. simpl.
    rewrite world_eta. reflexivity.
Qed.

Lemma revoked_token_is_dead_witness :
  exists msg code,
    outcome (verifyRefreshToken (at_time 1700000000001 Sample.ctx) "rt-live"
               (world_after (AuthService.revokeToken Sample.ctx "rt-live"
                                                     Sample.world)))
    = Throw (AppError msg 401 code)
    /\ (code = AuthErrorCodes.TOKEN_INVALID
        \/ code = AuthErrorCodes.TOKEN_EXPIRED).
Proof.
  apply (revoked_token_is_dead Sample.ctx "rt-live" Sample.world).
  - reflexivity.
  - vm_compute. reflexivity.
Defined.

(** ** Registration and email confirmation *)

Lemma find_user_by_email_new (e : string) (us : list User.t) (u : User.t) :
  find_user_by_email e us = None ->
  User.email u = e ->
  find_user_by_email e (us ++ [u])%list = Some u.
Proof.
  unfold find_user_by_email. intros Hnone He.
  induction us as [| v us IH]; simpl in *.
  - rewrite He, String.eqb_refl. reflexivity.
  - destruct (String.eqb (User.email v) e); [discriminate | auto].
Qed.

Lemma createUser_run (ctx : Ctx.t) (p : UserPayload.t) (w : World.t)
    (e : string) :
  Ctx.outage ctx OpCreateUser = None ->
  UserPayload.email p = Some e ->
  find_user_by_email e (Store.users (World.store w)) = None ->
  exists u after,
    DbServiceClient.createUser ctx p w = (Ok u, after)
    /\ u = new_user ("user-" +:+ pretty (Store.nextUserId (World.store w)))
                    e p
    /\ Store.users (World.store after)
       = (Store.users (World.store w) ++ [u])%list
    /\ Store.keys (World.store after) = Store.keys (World.store w)
    /\ Store.refreshTokens (World.store after)
       = Store.refreshTokens (World.store w).
Proof.
  intros Hlink He Hnone. unfold DbServiceClient.createUser.
  rewrite (ClientFacts.request_write _ _ _ _ Hlink).
  unfold Endpoint.post_users. rewrite He, Hnone. simpl.
  eexists _, _. repeat split; reflexivity.
Qed.

(** X11. Registering an email that no user has creates a user with that
    email, the role [USER] and an unverified email, whatever else the
    request carried; once it has succeeded, every further registration
    with the same email fails with [EMAIL_ALREADY_IN_USE]. *)
Theorem register_then_register_again
    (ctx : Ctx.t) (w : World.t) (data : AuthService.RegisterData)
    (kp : KeyPair.t) (m : N) :
  healthy ctx ->
  find_user_by_email (AuthService.reg_email data)
                     (Store.users (World.store w)) = None ->
  active_key_of (World.store w) = Some kp ->
  KeyPair.privateKey kp = Pkcs8Pem m ->
  Jose.supported (KeyPair.algorithm kp) = true ->
  exists u after,
    AuthService.register ctx data w = (Ok u, after)
    /\ User.email u = AuthService.reg_email data
    /\ User.roles u = ["USER"]
    /\ User.emailVerified u = false
    /\ forall again,
         AuthService.reg_email again = AuthService.reg_email data ->
         AuthService.register ctx again after
         = (Throw (AppError "Cet email est déjà utilisé" 400
                            AuthErrorCodes.EMAIL_ALREADY_IN_USE), after).
Proof.
  intros Hup Hnone Hkey Hpriv Hsup.
  set (payload := UserPayload.mk (Some (AuthService.reg_email data))
                    (Some (AuthService.reg_password data))
                    (js_or (AuthService.reg_firstName data) null)
                    (js_or (AuthService.reg_lastName data) null)
                    undefined None (Some ["USER"]) undefined undefined
                    None None).
  destruct (createUser_run ctx payload w (AuthService.reg_email data)
              (Hup _) eq_refl Hnone)
    as (u & after & Hcreate & Hu & Husers & Hkeys & Htokens).
  exists u, after. unfold AuthService.register.
  rewrite bind_run, catch_null_run, (getUserByEmail_run _ _ _ (Hup _)), Hnone.
  cbv beta iota. fold payload. run_with Hcreate.
  assert (Hkey' : active_key_of (World.store after) = Some kp)
    by (unfold active_key_of in *; rewrite Hkeys; exact Hkey).
  run_with (generateEmailVerificationToken_run ctx u after kp m (Hup _)
              Hkey' Hpriv Hsup).
  rewrite mret_run. split; [reflexivity |].
  subst u. repeat split.
  intros again Hsame. unfold AuthService.register.
  rewrite bind_run, catch_null_run, (getUserByEmail_run _ _ _ (Hup _)).
  rewrite Hsame, Husers.
  rewrite (find_user_by_email_new (AuthService.reg_email data) _
             (new_user ("user-" +:+ pretty (Store.nextUserId (World.store w)))
                       (AuthService.reg_email data) payload)
             Hnone eq_refl).
  reflexivity.
Qed.

Lemma register_then_register_again_witness :
  exists u after,
    AuthService.register Sample.ctx
      (AuthService.mkRegister "carol@example.org" "pass-phrase" (val "Carol")
                              undefined) Sample.world = (Ok u, after)
    /\ User.email u = "carol@example.org"
    /\ User.roles u = ["USER"]
    /\ User.emailVerified u = false
    /\ forall again,
         AuthService.reg_email again = "carol@example.org" ->
         AuthService.register Sample.ctx again after
         = (Throw (AppError "Cet email est déjà utilisé" 400
                            AuthErrorCodes.EMAIL_ALREADY_IN_USE), after).
Proof.
  apply (register_then_register_again Sample.ctx Sample.world
           (AuthService.mkRegister "carol@example.org" "pass-phrase"
                                   (val "Carol") undefined)
           Sample.active_key 9%N).
  - intros op. reflexivity.
  - reflexivity.
  - reflexivity.
  - reflexivity.
  - reflexivity.
Defined.

(** X12. The user is created before the verification token is signed.
    When the store has no active key pair, [register] therefore throws,
    but the account it created stays in the store: the caller is told
    that the registration failed, and a retry with the same email then
    fails with [EMAIL_ALREADY_IN_USE]. *)
Theorem register_failure_leaves_the_account
    (ctx : Ctx.t) (w : World.t) (data : AuthService.RegisterData) :
  healthy ctx ->
  find_user_by_email (AuthService.reg_email data)
                     (Store.users (World.store w)) = None ->
  active_key_of (World.store w) = None ->
  exists u after,
    AuthService.register ctx data w
    = (Throw (JsError
        "Aucune paire de clés active trouvée pour la vérification d'email"),
       after)
    /\ find_user_by_email (AuthService.reg_email data)
                          (Store.users (World.store after)) = Some u
    /\ outcome (AuthService.register ctx data after)
       = Throw (AppError "Cet email est déjà utilisé" 400
                         AuthErrorCodes.EMAIL_ALREADY_IN_USE).
Proof.
  intros Hup Hnone Hkey.
  set (payload := UserPayload.mk (Some (AuthService.reg_email data))
                    (Some (AuthService.reg_password data))
                    (js_or (AuthService.reg_firstName data) null)
                    (js_or (AuthService.reg_lastName data) null)
                    undefined None (Some ["USER"]) undefined undefined
                    None None).
  destruct (createUser_run ctx payload w (AuthService.reg_email data)
              (Hup _) eq_refl Hnone)
    as (u & after & Hcreate & Hu & Husers & Hkeys & Htokens).
  assert (Hfound : find_user_by_email (AuthService.reg_email data)
                     (Store.users (World.store after)) = Some u).
  { rewrite Husers. apply find_user_by_email_new; [exact Hnone |].
    subst u. reflexivity. }
  exists u, after. split; [| split; [exact Hfound |]].
  - unfold AuthService.register.
    rewrite bind_run, catch_null_run, (getUserByEmail_run _ _ _ (Hup _)),
      Hnone.
    cbv beta iota. fold payload. run_with Hcreate.
    rewrite bind_run. unfold generateEmailVerificationToken.
    rewrite logged_run, bind_run, (jwt_getActiveKeyPair_run _ _ (Hup _)).
    unfold active_key_of in *. rewrite Hkeys, Hkey. reflexivity.
  - unfold AuthService.register.
    rewrite bind_run, catch_null_run, (getUserByEmail_run _ _ _ (Hup _)),
      Hfound.
    reflexivity.
Qed.

Lemma register_failure_leaves_the_account_witness :
  exists u after,
    AuthService.register Sample.ctx
      (AuthService.mkRegister "carol@example.org" "pass-phrase" (val "Carol")
                              undefined) keyless_world
    = (Throw (JsError
        "Aucune paire de clés active trouvée pour la vérification d'email"),
       after)
    /\ find_user_by_email "carol@example.org"
                          (Store.users (World.store after)) = Some u
    /\ outcome (AuthService.register Sample.ctx
                  (AuthService.mkRegister "carol@example.org" "pass-phrase"
                                          (val "Carol") undefined) after)
       = Throw (AppError "Cet email est déjà utilisé" 400
                         AuthErrorCodes.EMAIL_ALREADY_IN_USE).
Proof.
  apply (register_failure_leaves_the_account Sample.ctx keyless_world
           (AuthService.mkRegister "carol@example.org" "pass-phrase"
                                   (val "Carol") undefined)).
  - intros op. reflexivity.
  - reflexivity.
  - reflexivity.
Defined.

Lemma find_user_by_id_updated (i : string) (p : UserPayload.t)
    (us : list User.t) :
  find_user_by_id i
    (List.map (fun v => if String.eqb (User.id v) i then apply_update p v
                        else v) us)
  = apply_update p <$> find_user_by_id i us.
Proof.
  unfold find_user_by_id. induction us as [| v us IH]; [reflexivity |].
  simpl. destruct (String.eqb (User.id v) i) eqn:Hv; simpl.
  - rewrite Hv. reflexivity.
  - rewrite Hv. exact IH.
Qed.

(** X13. Presenting the email-verification token issued to a stored,
    unconfirmed user sets that user's verified flag in the store and
    answers 'Email vérifié avec succès.'. The token is not consumed:
    presented again within its lifetime it is accepted again, answers
    'Email déjà vérifié.' and changes nothing. *)
Theorem verifyEmail_confirms_once
    (ctx : Ctx.t) (w : World.t) (user : User.t) (kp : KeyPair.t) (m : N)
    (t1 t2 : Z) :
  healthy ctx ->
  active_key_of (World.store w) = Some kp ->
  KeyPair.privateKey kp = Pkcs8Pem m ->
  KeyPair.publicKey kp = SpkiPem m ->
  Jose.supported (KeyPair.algorithm kp) = true ->
  find_user_by_id (User.id user) (Store.users (World.store w)) = Some user ->
  User.emailVerified user = false ->
  t1 < (Jose.epoch (Ctx.now ctx) + 86400) * 1000 ->
  t2 < (Jose.epoch (Ctx.now ctx) + 86400) * 1000 ->
  exists token first confirmed again,
    outcome (generateEmailVerificationToken ctx user w) = Ok token
    /\ AuthService.verifyEmail (at_time t1 ctx) token w
       = (Ok first, confirmed)
    /\ AuthService.verify_message first = "Email vérifié avec succès."
    /\ User.emailVerified (AuthService.verified_user first) = true
    /\ find_user_by_id (User.id user) (Store.users (World.store confirmed))
       = Some (AuthService.verified_user first)
    /\ AuthService.verifyEmail (at_time t2 ctx) token confirmed
       = (Ok again, confirmed)
    /\ AuthService.verify_message again = "Email déjà vérifié.".
Proof.
  intros Hup Hkey Hpriv Hpub Hsup Hstored Hflag Ht1 Ht2.
  set (claims := Claims.mk (Some (User.id user)) None None None
                   (Some "email_verification") (Env.API_URL (Ctx.env ctx))
                   (Env.FRONTEND_URL (Ctx.env ctx))
                   (Some (Jose.epoch (Ctx.now ctx)))
                   (Some (Jose.epoch (Ctx.now ctx) + 86400))).
  set (token := Compact (signing_header kp) claims (Some m)).
  assert (Hverify : forall t w0,
    t < (Jose.epoch (Ctx.now ctx) + 86400) * 1000 ->
    active_key_of (World.store w0) = Some kp ->
    verifyEmailVerificationToken (at_time t ctx) token w0 = (Ok claims, w0)).
  { intros t w0 Ht Hk0. unfold token.
    rewrite (verifyEmailVerificationToken_run (at_time t ctx) w0 _ _ m kp);
      try assumption; try reflexivity; try apply claim_matches_refl.
    - apply Hup.
    - unfold unexpired. simpl. apply negb_true_iff, Z.leb_gt.
      unfold Jose.epoch in *. apply Z.div_lt_upper_bound; lia. }
  set (confirmed :=
         World.mk
           (set_users
              (List.map (fun v => if String.eqb (User.id v) (User.id user)
                                  then apply_update confirmation v else v)
                        (Store.users (World.store w)))
              (World.store w))
           (World.draws w)).
  exists token, (AuthService.mkVerifyEmail (apply_update confirmation user)
                   "Email vérifié avec succès."),
         confirmed,
         (AuthService.mkVerifyEmail (apply_update confirmation user)
            "Email déjà vérifié.").
  assert (Hfound : find_user_by_id (User.id user)
                     (Store.users (World.store confirmed))
                   = Some (apply_update confirmation user)).
  { simpl. rewrite find_user_by_id_updated, Hstored. reflexivity. }
  split.
  { rewrite (generateEmailVerificationToken_run _ _ _ kp m); auto. }
  split.
  { unfold AuthService.verifyEmail.
    run_with (Hverify t1 w Ht1 Hkey). simpl Claims.sub. simpl default.
    run_with (getUserById_run (at_time t1 ctx) (User.id user) w user (Hup _)
                Hstored).
    rewrite Hflag. cbv iota. rewrite bind_run.
    unfold DbServiceClient.updateUser.
    rewrite (ClientFacts.request_write (at_time t1 ctx) _ _ _ (Hup _)).
    unfold Endpoint.put_user. rewrite Hstored. reflexivity. }
  split; [reflexivity |]. split; [reflexivity |]. split; [exact Hfound |].
  split; [| reflexivity].
  unfold AuthService.verifyEmail.
  run_with (Hverify t2 confirmed Ht2 Hkey). simpl Claims.sub. simpl default.
  run_with (getUserById_run (at_time t2 ctx) (User.id user) confirmed _
              (Hup _) Hfound).
  reflexivity.
Qed.

Lemma verifyEmail_confirms_once_witness :
  exists token first confirmed again,
    outcome (generateEmailVerificationToken Sample.ctx Sample.bob
                                            Sample.world) = Ok token
    /\ AuthService.verifyEmail (at_time 1700000001000 Sample.ctx) token
                               Sample.world = (Ok first, confirmed)
    /\ AuthService.verify_message first = "Email vérifié avec succès."
    /\ User.emailVerified (AuthService.verified_user first) = true
    /\ find_user_by_id (User.id Sample.bob)
                       (Store.users (World.store confirmed))
       = Some (AuthService.verified_user first)
    /\ AuthService.verifyEmail (at_time 1700000002000 Sample.ctx) token
                               confirmed = (Ok again, confirmed)
    /\ AuthService.verify_message again = "Email déjà vérifié.".
Proof.
  apply (verifyEmail_confirms_once Sample.ctx Sample.world Sample.bob
           Sample.active_key 9%N 1700000001000 1700000002000).
  - intros op. reflexivity.
  - reflexivity.
  - reflexivity.
  - reflexivity.
  - reflexivity.
  - reflexivity.
  - reflexivity.
  - vm_compute. reflexivity.
  - vm_compute. reflexivity.
Defined.

(** ** The code-for-tokens exchange of [AuthService] *)

Lemma generateIdToken_throws (ctx : Ctx.t) (user : User.t) (clientId : string)
    (nonce : option string) (w : World.t) :
  exists e, generateIdToken ctx user clientId nonce w = (Throw e, w).
Proof.
  unfold generateIdToken. rewrite logged_run, bind_run.
  unfold getActiveKeyPair, try_catch.
  destruct (client_getActiveKeyPair_cases ctx w) as [H | [H | [st H]]];
    rewrite H; cbv beta iota.
  - destruct (active_key_of (World.store w)); eexists; reflexivity.
  - eexists; reflexivity.
  - rewrite mret_run. cbv beta iota. eexists; reflexivity.
Qed.

Lemma bind_throws {A B : Type} (m : M A) (f : A -> M B) (w : World.t) :
  (forall a w1, exists e w2, f a w1 = (Throw e, w2)) ->
  exists e w2, (m ≫= f) w = (Throw e, w2).
Proof.
  intros Hf. rewrite bind_run. destruct (m w) as [[a | e] w1]; eauto.
Qed.

(** X14. [exchangeCodeForTokens] never returns tokens. Its last step,
    [generateIdToken], calls [importJWK], a name that [jwt.js] does not
    import, so for every client, code and state of the store the exchange
    ends in an error. *)
Theorem exchangeCodeForTokens_never_succeeds
    (ctx : Ctx.t) (clients : string -> Result Client.t)
    (code clientId clientSecret redirectUri : string)
    (codeVerifier : Js string) (w : World.t) :
  exists e,
    outcome (AuthService.exchangeCodeForTokens ctx clients code clientId
               clientSecret redirectUri codeVerifier w) = Throw e.
Proof.
  assert (H : exists e w2,
    AuthService.exchangeCodeForTokens ctx clients code clientId clientSecret
      redirectUri codeVerifier w = (Throw e, w2)).
  { unfold AuthService.exchangeCodeForTokens. apply bind_throws.
    intros [client |] w1; [| eexists _, _; reflexivity].
    destruct (negb (Client.active client)); [eexists _, _; reflexivity |].
    destruct (negb (String.eqb (Client.clientSecret client) clientSecret));
      [eexists _, _; reflexivity |].
    destruct (negb (existsb (String.eqb redirectUri)
                            (Client.redirectUris client)));
      [eexists _, _; reflexivity |].
    apply bind_throws. intros user w2.
    destruct (negb (User.active user)); [eexists _, _; reflexivity |].
    apply bind_throws. intros accessToken w3.
    apply bind_throws. intros refreshToken w4.
    rewrite bind_run.
    destruct (generateIdToken_throws ctx user (Client.clientId client) None
                w4) as [e He].
    rewrite He. eauto. }
  destruct H as (e & w2 & H). exists e. rewrite H. reflexivity.
Qed.

(** X15. The exchange fails only after it has written: for a valid client
    of an active owner, in a deployment that can sign, it throws the
    [ReferenceError] of [generateIdToken] and leaves behind a new,
    unrevoked refresh-token record for the owner, bound to the client. *)
Theorem exchangeCodeForTokens_leaves_a_refresh_token
    (ctx : Ctx.t) (clients : string -> Result Client.t)
    (code clientId clientSecret redirectUri : string)
    (codeVerifier : Js string) (w : World.t) (client : Client.t)
    (u : User.t) (e : Z) :
  healthy ctx ->
  clients clientId = Ok client ->
  Client.active client = true ->
  Client.clientSecret client = clientSecret ->
  In redirectUri (Client.redirectUris client) ->
  find_user_by_id (Client.ownerId client) (Store.users (World.store w))
  = Some u ->
  User.active u = true ->
  can_sign ctx (World.store w) ->
  refresh_expiry ctx = Ok e ->
  Store.refreshTokens (World.store w) !! next_token ctx w = None ->
  exists after,
    AuthService.exchangeCodeForTokens ctx clients code clientId clientSecret
      redirectUri codeVerifier w
    = (Throw (JsError "importJWK is not defined"), after)
    /\ Store.refreshTokens (World.store after) !! next_token ctx w
       = Some (RefreshToken.mk (next_token ctx w) (User.id u)
                               (Some (Client.id client)) e None).
Proof.
  intros Hup Hclient Hactive Hsecret Huri Hu Huactive Hsign He Hfresh.
  destruct (generateAccessToken_succeeds ctx u w (Hup _) Hsign)
    as [access Haccess].
  eexists. unfold AuthService.exchangeCodeForTokens.
  rewrite bind_run, catch_null_run, Hclient. simpl Jose.lift.
  rewrite mret_run. cbv beta iota. rewrite Hactive, Hsecret.
  rewrite String.eqb_refl. cbn [negb]. cbv iota.
  assert (Hfound : existsb (String.eqb redirectUri)
                           (Client.redirectUris client) = true).
  { apply existsb_exists. exists redirectUri. split; [exact Huri |].
    apply String.eqb_refl. }
  rewrite Hfound. cbn [negb]. cbv iota.
  run_with (getUserById_run ctx _ w u (Hup _) Hu).
  rewrite Huactive. cbn [negb]. cbv iota.
  run_with Haccess.
  run_with (generateRefreshToken_run ctx (User.id u)
              (Some (Client.id client)) w e (Hup _) He Hfresh).
  rewrite bind_run. unfold generateIdToken.
  rewrite logged_run, bind_run, (jwt_getActiveKeyPair_run _ _ (Hup _)).
  destruct Hsign as (kp & m & ttl & Hkey & _).
  unfold active_key_of, with_tokens, set_refreshTokens in *.
  cbn [World.store Store.keys]. rewrite Hkey. cbv beta iota.
  rewrite throw_run. cbv beta iota.
  split; [reflexivity |]. simpl. apply lookup_insert_eq.
Qed.

Lemma exchangeCodeForTokens_leaves_a_refresh_token_witness :
  exists after,
    AuthService.exchangeCodeForTokens Sample.ctx registry "any-code"
      "web-app" "s3cret" "https://app.example/cb" undefined Sample.world
    = (Throw (JsError "importJWK is not defined"), after)
    /\ Store.refreshTokens (World.store after) !! "rt-0"
       = Some (RefreshToken.mk "rt-0" "u1" (Some "c1") 1700604800000 None).
Proof.
  apply (exchangeCodeForTokens_leaves_a_refresh_token Sample.ctx registry
           "any-code" "web-app" "s3cret" "https://app.example/cb" undefined
           Sample.world web_client Sample.alice 1700604800000).
  - intros op. reflexivity.
  - reflexivity.
  - reflexivity.
  - reflexivity.
  - simpl. auto.
  - reflexivity.
  - reflexivity.
  - exists Sample.active_key, 9%N, 900. repeat split; reflexivity.
  - vm_compute. reflexivity.
  - vm_compute. reflexivity.
Defined.

(** ** The request guards of [middlewares/auth.js] *)

Lemma verifyAccessToken_without_client_run (ctx : Ctx.t) (token : Token)
    (w : World.t) :
  verifyAccessToken_without_client ctx token w
  = (Throw (AppError "Token invalide" 401 AuthErrorCodes.TOKEN_INVALID), w).
Proof.
  unfold verifyAccessToken_without_client, try_catch. rewrite bind_run.
  destruct token as [t | h | h p signer]; simpl; try reflexivity;
    destruct (truthy_kid h); reflexivity.
Qed.

(** X16. [authenticate] calls [verifyAccessToken] without the store
    client, so the key lookup can never be made and no request is ever
    authenticated. A request without an [Authorization] header, or with
    one that does not start with [Bearer], is handed on with
    [TOKEN_REQUIRED]; a request with a bearer token is handed on with
    [TOKEN_INVALID], however valid the token. Both errors have status
    401, and nothing is written. *)
Theorem authenticate_admits_nobody
    (ctx : Ctx.t) (authorization : AuthMiddleware.Authorization)
    (w : World.t) :
  AuthMiddleware.authenticate ctx authorization w
  = (Ok (AuthMiddleware.Fails
           match authorization with
           | AuthMiddleware.Bearer _ =>
               AppError "Token invalide" 401 AuthErrorCodes.TOKEN_INVALID
           | _ =>
               AppError "Token d'authentification requis" 401
                        AuthErrorCodes.TOKEN_REQUIRED
           end), w).
Proof.
  unfold AuthMiddleware.authenticate, try_catch.
  destruct authorization as [| header | token]; try reflexivity.
  rewrite bind_run, verifyAccessToken_without_client_run. reflexivity.
Qed.

(** X17. [authorize] lets a request through exactly when it carries a
    user who has at least one of the required roles. With an empty list
    of required roles it lets nobody through. *)
Theorem authorize_admits_iff
    (requiredRoles : list string) (user : option AuthMiddleware.ReqUser) :
  (AuthMiddleware.authorize requiredRoles user = None
   <-> exists u role,
         user = Some u /\ In role requiredRoles
         /\ In role (AuthMiddleware.roles u))
  /\ AuthMiddleware.authorize [] user <> None.
Proof.
  split.
  - unfold AuthMiddleware.authorize. destruct user as [u |].
    + destruct (existsb _ requiredRoles) eqn:Hex.
      * split; [intros _ | reflexivity].
        apply existsb_exists in Hex as (role & Hin & Hhas).
        apply existsb_exists in Hhas as (r & Hr & Heq).
        apply String.eqb_eq in Heq. subst r. eauto.
      * split; [discriminate |]. intros (u' & role & [= <-] & Hin & Hhas).
        exfalso. apply Bool.not_true_iff_false in Hex. apply Hex.
        apply existsb_exists. exists role. split; [exact Hin |].
        apply existsb_exists. exists role. split; [exact Hhas |].
        apply String.eqb_refl.
    + split; [discriminate |]. intros (u & role & [=] & _).
  - destruct user; discriminate.
Qed.

(** ** Provider configuration and the [state] check of [OAuthService] *)

Lemma providers_cases (env : Env.t) (provider : string) :
  (provider = "google"
   /\ OAuthService.providers env provider
      = Some (OAuthService.mkConfig (Env.GOOGLE_CLIENT_ID env)
                                    (Env.GOOGLE_CLIENT_SECRET env)))
  \/ (provider = "github"
      /\ OAuthService.providers env provider
         = Some (OAuthService.mkConfig (Env.GITHUB_CLIENT_ID env)
                                       (Env.GITHUB_CLIENT_SECRET env)))
  \/ (provider <> "google" /\ provider <> "github"
      /\ OAuthService.providers env provider = None).
Proof.
  unfold OAuthService.providers.
  destruct (String.eqb_spec provider "google") as [-> | Hg]; [auto |].
  destruct (String.eqb_spec provider "github") as [-> | Hh]; auto.
Qed.

(** X18. [exchangeCodeForToken] reaches the provider exactly for the
    providers that [getProvidersStatus] reports as configured: for those
    it answers what the token endpoint answered, or
    [OAUTH_TOKEN_EXCHANGE_ERROR] when the endpoint failed; for every other
    name it is refused with [PROVIDER_NOT_CONFIGURED]. The store is never
    touched. *)
Theorem exchangeCodeForToken_follows_the_status
    (ctx : Ctx.t) (net : Providers.t)
    (provider code redirectUri state : string) (w : World.t) :
  (In (provider, true) (OAuthService.getProvidersStatus ctx) ->
   match Providers.token_endpoint net provider code redirectUri with
   | Some data =>
       OAuthService.exchangeCodeForToken ctx net provider code redirectUri
         state w = (Ok data, w)
   | None =>
       OAuthService.exchangeCodeForToken ctx net provider code redirectUri
         state w
       = (Throw (AppError ("Erreur d'authentification " +:+ provider) 400
                          "OAUTH_TOKEN_EXCHANGE_ERROR"), w)
   end)
  /\ (~ In (provider, true) (OAuthService.getProvidersStatus ctx) ->
      OAuthService.exchangeCodeForToken ctx net provider code redirectUri
        state w
      = (Throw (AppError ("Provider " +:+ provider +:+ " non configuré") 400
                         "PROVIDER_NOT_CONFIGURED"), w)).
Proof.
  unfold OAuthService.getProvidersStatus, OAuthService.exchangeCodeForToken.
  cbn [List.map In].
  destruct (providers_cases (Ctx.env ctx) provider)
    as [[-> Hp] | [[-> Hp] | (Hg & Hh & Hp)]].
  - rewrite Hp.
    change (OAuthService.providers (Ctx.env ctx) "github")
      with (Some (OAuthService.mkConfig (Env.GITHUB_CLIENT_ID (Ctx.env ctx))
                    (Env.GITHUB_CLIENT_SECRET (Ctx.env ctx)))).
    cbn [OAuthService.clientId OAuthService.clientSecret].
    destruct (OAuthService.set (Env.GOOGLE_CLIENT_ID (Ctx.env ctx))
              && OAuthService.set (Env.GOOGLE_CLIENT_SECRET (Ctx.env ctx))).
    + split; [intros _ | intros H; exfalso; apply H; auto].
      destruct (Providers.token_endpoint net "google" code redirectUri);
        reflexivity.
    + split; [| reflexivity].
      intros [[=] | [[=] | []]].
  - rewrite Hp.
    change (OAuthService.providers (Ctx.env ctx) "google")
      with (Some (OAuthService.mkConfig (Env.GOOGLE_CLIENT_ID (Ctx.env ctx))
                    (Env.GOOGLE_CLIENT_SECRET (Ctx.env ctx)))).
    cbn [OAuthService.clientId OAuthService.clientSecret].
    destruct (OAuthService.set (Env.GITHUB_CLIENT_ID (Ctx.env ctx))
              && OAuthService.set (Env.GITHUB_CLIENT_SECRET (Ctx.env ctx))).
    + split; [intros _ | intros H; exfalso; apply H; auto].
      destruct (Providers.token_endpoint net "github" code redirectUri);
        reflexivity.
    + split; [| reflexivity].
      intros [[=] | [[=] | []]].
  - rewrite Hp. split; [| reflexivity].
    intros [[= <-] | [[= <-] | []]]; congruence.
Qed.

(** X19. [generateAuthUrl] builds an authorization URL exactly when
    [isProviderSupported] is truthy, that is, when the provider is one of
    the table and its client identifier is set; the client secret plays
    no part. In every other case, the inherited property names of the
    table included, it throws [PROVIDER_NOT_CONFIGURED]. *)
Theorem generateAuthUrl_iff_supported
    (ctx : Ctx.t) (provider : string) (state : Js string) :
  ((exists url, OAuthService.generateAuthUrl ctx provider state = Ok url)
   <-> OAuthService.is_truthy (OAuthService.isProviderSupported ctx provider)
       = true)
  /\ (OAuthService.is_truthy (OAuthService.isProviderSupported ctx provider)
      = false ->
      OAuthService.generateAuthUrl ctx provider state
      = Throw (AppError ("Provider " +:+ provider +:+ " non configuré") 400
                        "PROVIDER_NOT_CONFIGURED")).
Proof.
  unfold OAuthService.generateAuthUrl, OAuthService.isProviderSupported.
  destruct (providers_cases (Ctx.env ctx) provider)
    as [[-> Hp] | [[-> Hp] | (Hg & Hh & Hp)]]; rewrite Hp.
  - cbn [OAuthService.endpoints String.eqb Ascii.eqb Bool.eqb
         OAuthService.clientId OAuthService.is_truthy].
    destruct (Env.GOOGLE_CLIENT_ID (Ctx.env ctx)) as [c |]; cbn [truthy].
    + destruct (String.eqb c ""); cbn [negb].
      * split; [split; [intros [url [=]] | discriminate] | reflexivity].
      * split; [split; [reflexivity | eauto] | discriminate].
    + split; [split; [intros [url [=]] | discriminate] | reflexivity].
  - cbn [OAuthService.endpoints String.eqb Ascii.eqb Bool.eqb
         OAuthService.clientId OAuthService.is_truthy].
    destruct (Env.GITHUB_CLIENT_ID (Ctx.env ctx)) as [c |]; cbn [truthy].
    + destruct (String.eqb c ""); cbn [negb].
      * split; [split; [intros [url [=]] | discriminate] | reflexivity].
      * split; [split; [reflexivity | eauto] | discriminate].
    + split; [split; [intros [url [=]] | discriminate] | reflexivity].
  - assert (Hfalse : OAuthService.is_truthy
                       (if existsb (String.eqb provider)
                                   OAuthService.object_prototype_names
                        then OAuthService.Holds undefined
                        else OAuthService.IsFalse) = false)
      by (destruct (existsb _ _); reflexivity).
    rewrite Hfalse.
    split; [split; [intros [url [=]] | discriminate] | reflexivity].
Qed.

(** X20. [validateState] is truthy exactly when the received and the
    stored state are the same non-empty string: two missing states, or
    two empty ones, do not validate each other. *)
Theorem validateState_iff (state storedState : Js string) :
  OAuthService.is_truthy (OAuthService.validateState state storedState)
  = true
  <-> exists s, s <> "" /\ state = val s /\ storedState = val s.
Proof.
  unfold OAuthService.validateState. split.
  - destruct state as [| | s]; cbn [truthy negb OAuthService.is_truthy];
      try discriminate.
    destruct (String.eqb_spec s "") as [-> | Hs];
      cbn [negb OAuthService.is_truthy]; [discriminate |].
    destruct storedState as [| | t]; cbn [truthy negb OAuthService.is_truthy];
      try discriminate.
    destruct (String.eqb_spec t "") as [-> | Ht];
      cbn [negb OAuthService.is_truthy]; [discriminate |].
    cbn [js_to_string]. intros Heq. apply String.eqb_eq in Heq. subst t.
    eauto.
  - intros (s & Hs & -> & ->). cbn [truthy].
    destruct (String.eqb_spec s "") as [-> | _]; [congruence |].
    cbn [negb js_to_string OAuthService.is_truthy]. apply String.eqb_refl.
Qed.

(** ** What the generic flow takes from GitHub *)

Lemma github_providers (env : Env.t) :
  OAuthService.providers env "github"
  = Some (OAuthService.mkConfig (Env.GITHUB_CLIENT_ID env)
                                (Env.GITHUB_CLIENT_SECRET env)).
Proof. reflexivity. Qed.

Lemma getUserInfo_github (ctx : Ctx.t) (net : Providers.t)
    (accessToken : Js Token) (w : World.t) :
  OAuthService.getUserInfo ctx net "github" accessToken w
  = match Providers.userinfo_endpoint net "github" accessToken with
    | Some raw =>
        (Ok (OAuthService.normalizeUserInfo "github"
               (OAuthService.github_with_emails net accessToken raw)), w)
    | None =>
        (Throw (AppError "Erreur récupération données github" 500
                         "OAUTH_USERINFO_ERROR"), w)
    end.
Proof.
  unfold OAuthService.getUserInfo. rewrite github_providers.
  destruct (Providers.userinfo_endpoint net "github" accessToken);
    reflexivity.
Qed.

(** X21. For GitHub, [getUserInfo] reports a verified email only on the
    word of the emails endpoint: when the identity it returns is marked
    verified, the endpoint answered and its list holds an address that is
    both primary and verified, whose address, when it has one, is the
    email of the identity. What the profile itself says about its email
    does not count. *)
Theorem github_verified_email_is_listed
    (ctx : Ctx.t) (net : Providers.t) (accessToken : Js Token)
    (w w' : World.t) (u : OAuthService.OAuthUser) :
  OAuthService.getUserInfo ctx net "github" accessToken w = (Ok u, w') ->
  OAuthService.emailVerified u = true ->
  exists emails e,
    Providers.github_emails net accessToken = Some emails
    /\ In e emails
    /\ GithubEmail.primary e = true
    /\ GithubEmail.verified e = true
    /\ (truthy (GithubEmail.email e) = true ->
        OAuthService.email u = GithubEmail.email e).
Proof.
  rewrite getUserInfo_github.
  destruct (Providers.userinfo_endpoint net "github" accessToken)
    as [raw |]; [| discriminate].
  intros [= <- _]. unfold OAuthService.github_with_emails.
  destruct (Providers.github_emails net accessToken) as [emails |].
  - destruct (List.find _ emails) as [e |] eqn:Hfind.
    + intros _. apply List.find_some in Hfind as [Hin Hflags].
      apply andb_prop in Hflags as [Hprimary Hverified].
      exists emails, e. repeat split; try assumption.
      intros Htruthy. unfold OAuthService.normalizeUserInfo.
      cbn [String.eqb Ascii.eqb Bool.eqb].
      destruct (truthy (RawUserInfo.name _));
        cbn [OAuthService.email OAuthService.with_email RawUserInfo.email];
        unfold js_or; rewrite Htruthy; reflexivity.
    + unfold OAuthService.normalizeUserInfo.
      cbn [String.eqb Ascii.eqb Bool.eqb].
      destruct (truthy (RawUserInfo.name _)); simpl; discriminate.
  - unfold OAuthService.normalizeUserInfo.
    cbn [String.eqb Ascii.eqb Bool.eqb].
    destruct (truthy (RawUserInfo.name _)); simpl; discriminate.
Qed.

Lemma github_verified_email_is_listed_witness :
  exists emails e,
    Providers.github_emails (github_net (Some github_addresses))
      (ProviderTokens.access_token provider_answer) = Some emails
    /\ In e emails
    /\ GithubEmail.primary e = true
    /\ GithubEmail.verified e = true
    /\ (truthy (GithubEmail.email e) = true ->
        OAuthService.email
          (OAuthService.normalizeUserInfo "github"
             (OAuthService.github_with_emails
                (github_net (Some github_addresses))
                (ProviderTokens.access_token provider_answer)
                github_profile))
        = GithubEmail.email e).
Proof.
  apply (github_verified_email_is_listed github_ctx
           (github_net (Some github_addresses))
           (ProviderTokens.access_token provider_answer)
           Sample.world Sample.world).
  - reflexivity.
  - reflexivity.
Defined.

(** X22. A GitHub login takes its email from the emails endpoint alone
    once that endpoint answers: when no listed address has an email (an
    empty list in particular), the login is refused with
    [EMAIL_REQUIRED], whatever email the profile shows, and nothing is
    written to the store. *)
Theorem github_login_needs_a_listed_email
    (ctx : Ctx.t) (net : Providers.t) (code state : string) (w : World.t)
    (tokens : ProviderTokens.t) (raw : RawUserInfo.t)
    (emails : list GithubEmail.t) :
  In ("github", true) (OAuthService.getProvidersStatus ctx) ->
  Providers.token_endpoint net "github" code (callback_uri ctx "github")
  = Some tokens ->
  Providers.userinfo_endpoint net "github"
    (ProviderTokens.access_token tokens) = Some raw ->
  Providers.github_emails net (ProviderTokens.access_token tokens)
  = Some emails ->
  (forall e, In e emails -> truthy (GithubEmail.email e) = false) ->
  OAuthService.authenticateWithProvider ctx net "github" code state w
  = (Throw (AppError "Email requis pour l'authentification" 400
                     "EMAIL_REQUIRED"), w).
Proof.
  intros Hconfigured Htokens Hraw Hemails Hnone.
  assert (Hset : OAuthService.set (Env.GITHUB_CLIENT_ID (Ctx.env ctx))
                 && OAuthService.set (Env.GITHUB_CLIENT_SECRET (Ctx.env ctx))
                 = true).
  { unfold OAuthService.getProvidersStatus in Hconfigured.
    cbn [List.map In] in Hconfigured.
    destruct Hconfigured as [[=] | [H | []]].
    rewrite github_providers in H.
    cbn [OAuthService.clientId OAuthService.clientSecret] in H.
    congruence. }
  assert (Hfirst : truthy (OAuthService.first_email emails) = false).
  { destruct emails as [| e rest]; [reflexivity |].
    apply Hnone. left. reflexivity. }
  unfold OAuthService.authenticateWithProvider. rewrite logged_run.
  fold (callback_uri ctx "github"). rewrite bind_run.
  unfold OAuthService.exchangeCodeForToken. rewrite github_providers.
  cbn [OAuthService.clientId OAuthService.clientSecret].
  rewrite Hset, Htokens, mret_run. cbv beta iota.
  rewrite bind_run, getUserInfo_github, Hraw. cbv beta iota.
  assert (Hemail :
    truthy (OAuthService.email
              (OAuthService.normalizeUserInfo "github"
                 (OAuthService.github_with_emails net
                    (ProviderTokens.access_token tokens) raw))) = false).
  { unfold OAuthService.github_with_emails. rewrite Hemails.
    unfold OAuthService.normalizeUserInfo.
    cbn [String.eqb Ascii.eqb Bool.eqb].
    destruct (List.find _ emails) as [e |] eqn:Hfind.
    - apply List.find_some in Hfind as [Hin _].
      destruct (truthy (RawUserInfo.name _));
        cbn [OAuthService.email OAuthService.with_email RawUserInfo.email];
        unfold js_or; rewrite (Hnone e Hin); exact Hfirst.
    - destruct (truthy (RawUserInfo.name _));
        cbn [OAuthService.email OAuthService.with_email RawUserInfo.email];
        exact Hfirst. }
  rewrite Hemail. reflexivity.
Qed.

Lemma github_login_needs_a_listed_email_witness :
  OAuthService.authenticateWithProvider github_ctx (github_net (Some []))
    "github" "good-code" "state-1" Sample.world
  = (Throw (AppError "Email requis pour l'authentification" 400
                     "EMAIL_REQUIRED"), Sample.world).
Proof.
  apply (github_login_needs_a_listed_email github_ctx (github_net (Some []))
           "good-code" "state-1" Sample.world provider_answer github_profile
           []).
  - vm_compute. auto.
  - reflexivity.
  - reflexivity.
  - reflexivity.
  - intros e [].
Defined.

(** ** Tokens of the hosted platform *)

Lemma jsonwebtoken_verify_ok_inv (now_ms : Z) (token : Token) (key : N)
    (audience issuer : option string) (p : Claims.t) :
  JsonWebToken.verify now_ms token key audience issuer = Ok p ->
  exists h,
    token = Compact h p (Some key)
    /\ Header.alg h = Some "RS256"
    /\ (forall e, Claims.exp p = Some e -> now_ms / 1000 < e)
    /\ JsonWebToken.option_matches audience (Claims.aud p) = true
    /\ JsonWebToken.option_matches issuer (Claims.iss p) = true.
Proof.
  unfold JsonWebToken.verify.
  destruct token as [t | h | h q signer]; try discriminate.
  destruct (bool_decide (Header.alg h = Some "RS256")) eqn:Halg;
    cbn [negb]; [| discriminate].
  destruct (bool_decide (signer = Some key)) eqn:Hsig;
    cbn [negb]; [| discriminate].
  destruct (match Claims.exp q with
            | Some e => e <=? now_ms / 1000
            | None => false
            end) eqn:Hexp; [discriminate |].
  destruct (JsonWebToken.option_matches audience (Claims.aud q)) eqn:Haud;
    cbn [negb]; [| discriminate].
  destruct (JsonWebToken.option_matches issuer (Claims.iss q)) eqn:Hiss;
    cbn [negb]; [| discriminate].
  intros [= <-]. apply bool_decide_eq_true in Halg, Hsig. subst signer.
  exists h. repeat split; try assumption.
  intros e He. rewrite He in Hexp. lia.
Qed.

Lemma jsonwebtoken_verify_throws (now_ms : Z) (token : Token) (key : N)
    (audience issuer : option string) (e : Exn) :
  JsonWebToken.verify now_ms token key audience issuer = Throw e ->
  e = JwtLibError "JsonWebTokenError" \/ e = JwtLibError "TokenExpiredError".
Proof.
  unfold JsonWebToken.verify.
  destruct token as [t | h | h q signer]; try (intros [= <-]; auto).
  repeat match goal with
         | |- context [if ?b then _ else _] => destruct b
         end; intros [= <-]; auto.
Qed.

Lemma issuer_is_checked (env : Env.t) (actual : option string) :
  JsonWebToken.option_matches (Some (Auth0Service.issuer env)) actual = true
  -> actual = Some (Auth0Service.issuer env).
Proof.
  unfold JsonWebToken.option_matches, Auth0Service.issuer.
  cbn [String.append String.eqb]. apply bool_decide_eq_true.
Qed.

(** X23. A token that [verifyAuth0Token] accepts is a well-formed RS256
    token whose signature verifies under the certificate of the first
    published key that carries the token's key identifier; it has not
    expired, its issuer is the tenant's address, and its audience is the
    configured one (when no audience is configured, any audience is
    accepted). The claims returned are the token's own, and nothing is
    written. *)
Theorem verifyAuth0Token_sound
    (ctx : Ctx.t) (net : Providers.t) (token : Token) (w w' : World.t)
    (claims : Claims.t) :
  Auth0Service.verifyAuth0Token ctx net token w = (Ok claims, w') ->
  w' = w
  /\ exists h kid key m,
       token = Compact h claims (Some m)
       /\ truthy_kid h = Some kid
       /\ published_key net kid = Some key
       /\ Jwk.x5c key = Some m
       /\ Header.alg h = Some "RS256"
       /\ (forall e, Claims.exp claims = Some e -> Ctx.now ctx / 1000 < e)
       /\ Claims.iss claims = Some (Auth0Service.issuer (Ctx.env ctx))
       /\ (forall a, Env.AUTH0_AUDIENCE (Ctx.env ctx) = Some a -> a <> "" ->
           Claims.aud claims = Some a).
Proof.
  unfold Auth0Service.verifyAuth0Token, try_catch, published_key.
  destruct (Providers.auth0_jwks net) as [keys |]; [| discriminate].
  destruct (JsonWebToken.decode token) as [[header body] |] eqn:Hdecode;
    [| discriminate].
  destruct (truthy_kid header) as [kid |] eqn:Hkid; [| discriminate].
  destruct (List.find _ keys) as [key |] eqn:Hfind; [| discriminate].
  destruct (Jwk.x5c key) as [m |] eqn:Hcert; [| discriminate].
  destruct (JsonWebToken.verify _ token m _ _) as [p | e] eqn:Hverify.
  - simpl. unfold mret, M_ret. intros [= <- <-]. split; [reflexivity |].
    apply jsonwebtoken_verify_ok_inv in Hverify
      as (h & -> & Halg & Hexp & Haud & Hiss).
    simpl in Hdecode. injection Hdecode as <- <-.
    exists h, kid, key, m.
    split; [reflexivity |]. split; [exact Hkid |]. split; [exact Hfind |].
    split; [exact Hcert |]. split; [exact Halg |]. split; [exact Hexp |].
    split.
    + apply issuer_is_checked. exact Hiss.
    + intros a Ha Hne. rewrite Ha in Haud.
      unfold JsonWebToken.option_matches in Haud.
      destruct (String.eqb_spec a "") as [Hempty | _]; [contradiction |].
      apply bool_decide_eq_true in Haud. exact Haud.
  - apply jsonwebtoken_verify_throws in Hverify as [-> | ->];
      simpl; discriminate.
Qed.

Lemma verifyAuth0Token_sound_witness :
  Sample.world = Sample.world
  /\ exists h kid key m,
       auth0_token = Compact h (Claims.mk (Some "auth0|507f1f77") None None
                                  None None (Some "https://tenant.example/")
                                  None (Some 1699999000) (Some 1700085400))
                             (Some m)
       /\ truthy_kid h = Some kid
       /\ published_key net kid = Some key
       /\ Jwk.x5c key = Some m
       /\ Header.alg h = Some "RS256"
       /\ (forall e, Claims.exp (Claims.mk (Some "auth0|507f1f77") None None
                                   None None (Some "https://tenant.example/")
                                   None (Some 1699999000) (Some 1700085400))
                     = Some e -> Ctx.now Sample.ctx / 1000 < e)
       /\ Claims.iss (Claims.mk (Some "auth0|507f1f77") None None
                        None None (Some "https://tenant.example/")
                        None (Some 1699999000) (Some 1700085400))
          = Some (Auth0Service.issuer (Ctx.env Sample.ctx))
       /\ (forall a, Env.AUTH0_AUDIENCE (Ctx.env Sample.ctx) = Some a ->
           a <> "" ->
           Claims.aud (Claims.mk (Some "auth0|507f1f77") None None
                         None None (Some "https://tenant.example/")
                         None (Some 1699999000) (Some 1700085400))
           = Some a).
Proof.
  apply (verifyAuth0Token_sound Sample.ctx net auth0_token Sample.world
           Sample.world).
  vm_compute. reflexivity.
Defined.

(** X24. [verifyAuth0Token] gives a kind of its own to two failures
    only. When the platform's key set cannot be fetched, the error of
    that request is passed on as it is, for every token and before the
    token is looked at. Whenever the function fails with an [AppError],
    that error has status 401 and the kind [TOKEN_EXPIRED] or
    [TOKEN_INVALID]. No failure writes anything. *)
Theorem verifyAuth0Token_failures
    (ctx : Ctx.t) (net : Providers.t) (token : Token) (w : World.t) :
  (Providers.auth0_jwks net = None ->
   Auth0Service.verifyAuth0Token ctx net token w
   = (Throw (AxiosError None), w))
  /\ (forall (e : Exn) (w' : World.t),
        Auth0Service.verifyAuth0Token ctx net token w = (Throw e, w') ->
        w' = w
        /\ forall msg status code,
             e = AppError msg status code ->
             status = 401
             /\ (code = AuthErrorCodes.TOKEN_EXPIRED
                 \/ code = AuthErrorCodes.TOKEN_INVALID)).
Proof.
  unfold Auth0Service.verifyAuth0Token, try_catch.
  destruct (Providers.auth0_jwks net) as [keys |].
  2: { split; [reflexivity |]. simpl. intros e w' [= <- <-].
       split; [reflexivity |]. intros msg status code [=]. }
  split; [discriminate |]. intros e w'.
  destruct (JsonWebToken.decode token) as [[header body] |] eqn:Hdecode.
  2: { simpl. intros [= <- <-]. split; [reflexivity |].
       intros msg status code [= _ <- <-]. auto. }
  destruct (truthy_kid header) as [kid |] eqn:Hkid.
  2: { simpl. intros [= <- <-]. split; [reflexivity |].
       intros msg status code [= _ <- <-]. auto. }
  destruct (List.find _ keys) as [key |] eqn:Hfind.
  2: { simpl. intros [= <- <-]. split; [reflexivity |].
       intros msg status code [= _ <- <-]. auto. }
  destruct (Jwk.x5c key) as [m |] eqn:Hcert.
  2: { simpl. intros [= <- <-]. split; [reflexivity |].
       intros msg status code [=]. }
  destruct (JsonWebToken.verify _ token m _ _) as [p | err] eqn:Hverify.
  - simpl. discriminate.
  - apply jsonwebtoken_verify_throws in Hverify as [-> | ->];
      simpl; intros [= <- <-]; (split; [reflexivity |]);
      intros msg status code [= _ <- <-]; auto.
Qed.

(** X25. When the platform's profile of a verified token has no email,
    [authenticateWithAuth0] does not answer with the [SYNC_ERROR] that
    [syncAuth0User] raises: its [catch] block reads a variable that is
    out of scope there, and the [ReferenceError] of that reading is what
    the caller gets. Nothing is written. *)
Theorem auth0_login_without_email
    (ctx : Ctx.t) (net : Providers.t) (auth0Token : Token) (w : World.t)
    (claims : Claims.t) (info : RawUserInfo.t) :
  Auth0Service.verifyAuth0Token ctx net auth0Token w = (Ok claims, w) ->
  Providers.auth0_userinfo net auth0Token = Some info ->
  truthy (RawUserInfo.email info) = false ->
  Auth0Service.authenticateWithAuth0 ctx net auth0Token w
  = (Throw (JsError "email is not defined"), w).
Proof.
  intros Hverify Hinfo Hemail.
  unfold Auth0Service.authenticateWithAuth0. rewrite logged_run.
  run_with Hverify. rewrite bind_run.
  unfold Auth0Service.getAuth0UserInfo. rewrite Hinfo, mret_run.
  cbv beta iota. rewrite bind_run.
  unfold Auth0Service.syncAuth0User, try_catch. rewrite Hemail.
  reflexivity.
Qed.

Lemma auth0_login_without_email_witness :
  Auth0Service.authenticateWithAuth0 Sample.ctx net_without_email auth0_token
    Sample.world
  = (Throw (JsError "email is not defined"), Sample.world).
Proof.
  apply (auth0_login_without_email Sample.ctx net_without_email auth0_token
           Sample.world
           (Claims.mk (Some "auth0|507f1f77") None None None None
                      (Some "https://tenant.example/") None
                      (Some 1699999000) (Some 1700085400))
           auth0_nameless).
  - vm_compute. reflexivity.
  - reflexivity.
  - reflexivity.
Defined.

(** ** The management token of the hosted platform *)

(** X26. [getManagementToken] keeps the token it fetched and serves it
    again, without asking the platform, strictly before the instant
    [fetch time + (expires_in - 300) * 1000]; from that instant on it
    asks again, so that an unreachable platform is felt as [AUTH0_ERROR]
    and an answering one replaces the token. A grant of 300 seconds or
    less is therefore never served twice. *)
Theorem management_token_is_served_until_the_margin
    (now0 now1 : Z) (token : string) (expires_in : Z)
    (cache : Auth0Service.ManagementCache)
    (endpoint : option Auth0Service.ManagementGrant) :
  token <> "" ->
  truthy (Auth0Service.managementToken cache)
  && Auth0Service.later_than (Auth0Service.managementTokenExpiry cache) now0
  = false ->
  let fetched :=
    Auth0Service.getManagementToken now0
      (Some (Auth0Service.mkGrant (val token) (val expires_in))) cache in
  fst fetched = Ok (val token)
  /\ (now1 < now0 + (expires_in - 300) * 1000 ->
      Auth0Service.getManagementToken now1 endpoint (snd fetched)
      = (Ok (val token), snd fetched))
  /\ (now0 + (expires_in - 300) * 1000 <= now1 ->
      match endpoint with
      | Some grant =>
          fst (Auth0Service.getManagementToken now1 endpoint (snd fetched))
          = Ok (Auth0Service.grant_access_token grant)
      | None =>
          Auth0Service.getManagementToken now1 endpoint (snd fetched)
          = (Throw (AppError "Erreur de communication avec Auth0" 500
                             "AUTH0_ERROR"), snd fetched)
      end).
Proof.
  intros Htoken Hstale fetched.
  assert (Hfetch :
    fetched
    = (Ok (val token),
       Auth0Service.mkCache (val token)
         (Some (Auth0Service.Num (now0 + (expires_in - 300) * 1000))))).
  { subst fetched. unfold Auth0Service.getManagementToken.
    rewrite Hstale. reflexivity. }
  rewrite Hfetch. clear Hfetch fetched. cbn [fst snd].
  assert (Htruthy : truthy (val token) = true).
  { cbn [truthy]. destruct (String.eqb_spec token ""); [contradiction |].
    reflexivity. }
  split; [reflexivity |]. split.
  - intros Hbefore. unfold Auth0Service.getManagementToken.
    cbn [Auth0Service.managementToken Auth0Service.managementTokenExpiry
         Auth0Service.later_than].
    rewrite Htruthy.
    replace (now1 <? now0 + (expires_in - 300) * 1000) with true
      by (symmetry; apply Z.ltb_lt; exact Hbefore).
    reflexivity.
  - intros Hafter. unfold Auth0Service.getManagementToken.
    cbn [Auth0Service.managementToken Auth0Service.managementTokenExpiry
         Auth0Service.later_than].
    rewrite Htruthy.
    replace (now1 <? now0 + (expires_in - 300) * 1000) with false
      by (symmetry; apply Z.ltb_ge; exact Hafter).
    destruct endpoint as [grant |]; reflexivity.
Qed.

Lemma management_token_is_served_until_the_margin_witness :
  let fetched :=
    Auth0Service.getManagementToken 1700000000000
      (Some (Auth0Service.mkGrant (val "mgmt-1") (val 86400)))
      Auth0Service.empty_cache in
  fst fetched = Ok (val "mgmt-1")
  /\ (1700000001000 < 1700000000000 + (86400 - 300) * 1000 ->
      Auth0Service.getManagementToken 1700000001000 None (snd fetched)
      = (Ok (val "mgmt-1"), snd fetched))
  /\ (1700000000000 + (86400 - 300) * 1000 <= 1700000001000 ->
      Auth0Service.getManagementToken 1700000001000 None (snd fetched)
      = (Throw (AppError "Erreur de communication avec Auth0" 500
                         "AUTH0_ERROR"), snd fetched)).
Proof.
  apply (management_token_is_served_until_the_margin 1700000000000
           1700000001000 "mgmt-1" 86400 Auth0Service.empty_cache None).
  - discriminate.
  - reflexivity.
Defined.

(** ** The lifetime of a refresh token *)

Lemma string_app_assoc (s1 s2 s3 : string) :
  (s1 +:+ s2) +:+ s3 = s1 +:+ (s2 +:+ s3).
Proof.
  induction s1 as [| c s1 IH]; [reflexivity |].
  change (String c ((s1 +:+ s2) +:+ s3) = String c (s1 +:+ (s2 +:+ s3))).
  f_equal. exact IH.
Qed.

Lemma pretty_N_go_app (x : N) (s : string) :
  pretty_N_go x s = pretty_N_go x "" +:+ s.
Proof.
  revert s. induction (N.lt_wf_0 x) as [x _ IH]. intros s.
  destruct (decide (x = 0%N)) as [-> | Hx].
  - rewrite !pretty_N_go_0. reflexivity.
  - rewrite (pretty_N_go_step x s) by lia.
    rewrite (pretty_N_go_step x "") by lia.
    rewrite (IH (x `div` 10)%N) by (apply N.div_lt; lia).
    rewrite (IH (x `div` 10)%N
               ltac:(apply N.div_lt; lia)
               (String (pretty_N_char (x `mod` 10)) "")).
    rewrite string_app_assoc. reflexivity.
Qed.

Lemma pretty_N_char_digit (r : N) :
  (r < 10)%N ->
  is_digit (pretty_N_char r) = true
  /\ digit_value (pretty_N_char r) = Z.of_N r.
Proof.
  intros Hr.
  assert (r = 0 \/ r = 1 \/ r = 2 \/ r = 3 \/ r = 4 \/ r = 5 \/ r = 6
          \/ r = 7 \/ r = 8 \/ r = 9)%N as Hcases by lia.
  repeat destruct Hcases as [-> | Hcases]; try subst r;
    split; reflexivity.
Qed.

Lemma read_digits_pretty_go (x : N) (t : string) :
  read_digits None (pretty_N_go x t)
  = read_digits (if decide (x = 0%N) then None else Some (Z.of_N x)) t.
Proof.
  revert t. induction (N.lt_wf_0 x) as [x _ IH]. intros t.
  destruct (decide (x = 0%N)) as [-> | Hx].
  - rewrite pretty_N_go_0. reflexivity.
  - rewrite pretty_N_go_step by lia.
    rewrite IH by (apply N.div_lt; lia).
    cbn [read_digits].
    destruct (pretty_N_char_digit (x `mod` 10)%N) as [Hdigit Hvalue].
    { apply N.mod_upper_bound. discriminate. }
    rewrite Hdigit, Hvalue. f_equal. f_equal.
    pose proof (N.div_mod x 10 ltac:(discriminate)) as Hsplit.
    destruct (decide ((x `div` 10)%N = 0%N)) as [Hzero | Hpos];
      cbn [default from_option]; unfold id; lia.
Qed.

Lemma read_digits_pretty (n : N) (c : ascii) :
  is_digit c = false ->
  read_digits None (pretty n +:+ String c "")
  = (Some (Z.of_N n), String c "").
Proof.
  intros Hc. unfold pretty, pretty_N.
  destruct (decide (n = 0%N)) as [-> | Hn].
  - change (read_digits None (String "0" (String c ""))
            = (Some 0, String c "")).
    cbn [read_digits]. change (is_digit "0") with true. cbv beta iota.
    rewrite Hc. reflexivity.
  - rewrite <- pretty_N_go_app, read_digits_pretty_go.
    destruct (decide (n = 0%N)); [contradiction |].
    cbn [read_digits]. rewrite Hc. reflexivity.
Qed.

Lemma digit_is_not_d (a : ascii) :
  is_digit a = true -> Ascii.eqb "d" a = false.
Proof.
  intros Ha. destruct (Ascii.eqb_spec "d" a) as [<- | _];
    [discriminate | reflexivity].
Qed.

Lemma remove_first_after_digits (c : ascii) (s : string) :
  is_digit c = false ->
  forall (acc r : option Z),
    read_digits acc s = (r, String c "") ->
    read_digits acc (remove_first "d" s)
    = (r, if Ascii.eqb "d" c then "" else String c "").
Proof.
  intros Hc. induction s as [| a s IH]; intros acc r.
  - simpl. intros [=].
  - cbn [read_digits remove_first].
    destruct (is_digit a) eqn:Ha.
    + rewrite (digit_is_not_d a Ha). cbn [read_digits]. rewrite Ha.
      apply IH.
    + intros [= <- -> ->].
      destruct (Ascii.eqb "d" c); [reflexivity |].
      cbn [remove_first read_digits]. rewrite Hc. reflexivity.
Qed.

Lemma parseInt_digit (a : ascii) (t : string) :
  is_digit a = true -> parseInt (String a t) = read_unsigned (String a t).
Proof.
  intros Ha.
  destruct a as [[] [] [] [] [] [] [] []];
    try (vm_compute in Ha; discriminate); reflexivity.
Qed.

Lemma read_unsigned_decimal (a : ascii) (t : string) :
  (forall rest, t <> String "x" rest) ->
  (forall rest, t <> String "X" rest) ->
  read_unsigned (String a t) = fst (read_digits None (String a t)).
Proof.
  intros Hx HX. unfold read_unsigned.
  destruct a as [[] [] [] [] [] [] [] []]; try reflexivity.
  destruct t as [| b rest]; [reflexivity |].
  destruct b as [[] [] [] [] [] [] [] []]; try reflexivity; exfalso.
  - exact (Hx rest eq_refl).
  - exact (HX rest eq_refl).
Qed.

(** A text that starts with a decimal number, followed by nothing or by
    something that does not start with the letter x, parses as that
    number. *)
Lemma parseInt_decimal_prefix (t u : string) (v : Z) :
  read_digits None t = (Some v, u) ->
  (forall rest, u <> String "x" rest) ->
  (forall rest, u <> String "X" rest) ->
  parseInt t = Some v.
Proof.
  intros Hread Hx HX. destruct t as [| a t]; [discriminate |].
  destruct (is_digit a) eqn:Ha.
  - rewrite (parseInt_digit a t Ha), read_unsigned_decimal.
    + rewrite Hread. reflexivity.
    + intros rest ->. cbn [read_digits] in Hread. rewrite Ha in Hread.
      change (is_digit "x") with false in Hread. cbv beta iota in Hread.
      injection Hread as _ <-. exact (Hx rest eq_refl).
    + intros rest ->. cbn [read_digits] in Hread. rewrite Ha in Hread.
      change (is_digit "X") with false in Hread. cbv beta iota in Hread.
      injection Hread as _ <-. exact (HX rest eq_refl).
  - cbn [read_digits] in Hread. rewrite Ha in Hread. discriminate.
Qed.

Lemma refresh_days_of_a_unit (n : N) (unit : ascii) :
  is_digit unit = false -> unit <> "x"%char -> unit <> "X"%char ->
  parseInt (remove_first "d" (pretty n +:+ String unit ""))
  = Some (Z.of_N n).
Proof.
  intros Hunit Hx HX.
  apply (parseInt_decimal_prefix _
           (if Ascii.eqb "d" unit then "" else String unit "")).
  - apply (remove_first_after_digits unit _ Hunit).
    apply read_digits_pretty. exact Hunit.
  - intros rest. destruct (Ascii.eqb "d" unit); [discriminate |].
    intros [= ->]. contradiction.
  - intros rest. destruct (Ascii.eqb "d" unit); [discriminate |].
    intros [= ->]. contradiction.
Qed.

(** X27. The lifetime of a refresh token is read as a number of days
    whatever unit the setting names: [generateRefreshToken] removes a
    letter d and parses what is left as an integer, so a setting made of
    the decimal number [n] and one unit letter (the h of hours, the m of
    minutes, the d of days itself) stores a record that expires where
    [setDate] puts the date [n] calendar days from now. *)
Theorem refresh_lifetime_is_counted_in_days
    (ctx : Ctx.t) (userId : string) (clientId : option string)
    (w : World.t) (n : N) (unit : ascii) (e : Z) :
  Ctx.outage ctx OpCreateRefreshToken = None ->
  Store.refreshTokens (World.store w) !! next_token ctx w = None ->
  Env.REFRESH_TOKEN_EXPIRES_IN (Ctx.env ctx)
  = Some (pretty n +:+ String unit "") ->
  is_digit unit = false -> unit <> "x"%char -> unit <> "X"%char ->
  days_from_now (Ctx.zone ctx) (Ctx.now ctx) (Some (Z.of_N n)) = Ok e ->
  exists w',
    generateRefreshToken ctx userId clientId w = (Ok (next_token ctx w), w')
    /\ Store.refreshTokens (World.store w') !! next_token ctx w
       = Some (RefreshToken.mk (next_token ctx w) userId clientId e None).
Proof.
  intros Hlink Hfresh Hsetting Hunit Hx HX Hdays.
  assert (Hexpiry : refresh_expiry ctx = Ok e).
  { unfold refresh_expiry. rewrite Hsetting. unfold env_or.
    replace (String.eqb (pretty n +:+ String unit "") "") with false
      by (destruct (pretty n); reflexivity).
    rewrite (refresh_days_of_a_unit n unit Hunit Hx HX). exact Hdays. }
  rewrite (generateRefreshToken_run ctx userId clientId w _ Hlink Hexpiry
             Hfresh).
  eexists. split; [reflexivity |].
  unfold with_tokens, set_refreshTokens. cbn [World.store Store.refreshTokens].
  apply lookup_insert_eq.
Qed.

Lemma refresh_lifetime_is_counted_in_days_witness :
  exists w',
    generateRefreshToken hours_ctx "u1" None Sample.world
    = (Ok (next_token hours_ctx Sample.world), w')
    /\ Store.refreshTokens (World.store w') !! next_token hours_ctx Sample.world
       = Some (RefreshToken.mk (next_token hours_ctx Sample.world) "u1" None
                 1712999600000 None).
Proof.
  apply (refresh_lifetime_is_counted_in_days hours_ctx "u1" None Sample.world
           24%N "h"%char 1712999600000).
  - reflexivity.
  - vm_compute. reflexivity.
  - vm_compute. reflexivity.
  - reflexivity.
  - discriminate.
  - discriminate.
  - vm_compute. reflexivity.
Defined.
